(** * imagemounter/_util.py: [clean_unmount] and [force_clean]

    A shallow embedding of the clean-up routines of imagemounter and the
    properties of its teardown plan, followed by the other functions of
    the module: the file type tests, [expand_path], [command_exists] and
    [determine_slot].

    Python strings are modelled as [string] (bytes), the insertion-ordered
    dict [mountpoints] as an association list with unique keys, the dict
    [loopbacks] (only looked up) as a [gmap], list objects that are mutated
    through a reference ([cmd] of [clean_unmount]) as cells of a heap, and
    the operating system as an abstract transition system ([OS]) driven
    through a state, exception and trace monad. *)

From Stdlib Require Import String Ascii List Bool Arith Lia.
From stdpp Require Import base option list gmap strings.

Local Open Scope string_scope.
Local Open Scope list_scope.

(** ** Python string operations *)

Module PyStr.

(** [needle in hay] *)
Fixpoint contains (needle hay : string) : bool :=
  String.prefix needle hay ||
  match hay with
  | EmptyString => false
  | String _ hay' => contains needle hay'
  end.

(** [s.replace(old, new)] for a non-empty [old]: occurrences are replaced
    left to right and do not overlap; [skip] counts the characters of the
    occurrence that is being skipped. *)
Fixpoint replace_from (old new : string) (skip : nat) (s : string) : string :=
  match s with
  | EmptyString => EmptyString
  | String c s' =>
      match skip with
      | S k => replace_from old new k s'
      | O =>
          if String.prefix old s
          then new +:+ replace_from old new (String.length old - 1) s'
          else String c (replace_from old new 0 s')
      end
  end.

Definition replace (old new s : string) : string := replace_from old new 0 s.

(** Whitespace of [str.strip()], restricted to the ASCII range:
    tab, LF, VT, FF, CR, FS, GS, RS, US and space. *)
Definition is_space (c : ascii) : bool :=
  let n := nat_of_ascii c in
  (Nat.leb 9 n && Nat.leb n 13) || (Nat.leb 28 n && Nat.leb n 32).

Fixpoint lstrip (s : string) : string :=
  match s with
  | EmptyString => EmptyString
  | String c s' => if is_space c then lstrip s' else s
  end.

Fixpoint rstrip (s : string) : string :=
  match s with
  | EmptyString => EmptyString
  | String c s' =>
      match rstrip s' with
      | EmptyString => if is_space c then EmptyString else String c EmptyString
      | r => String c r
      end
  end.

Definition strip (s : string) : string := rstrip (lstrip s).

Fixpoint endswith_slash (s : string) : bool :=
  match s with
  | EmptyString => false
  | String c EmptyString => Ascii.eqb c "/"%char
  | String _ s' => endswith_slash s'
  end.

(** [os.path.join(a, b)] (posixpath). *)
Definition path_join (a b : string) : string :=
  if String.prefix "/" b then b
  else match a with
       | EmptyString => b
       | _ => if endswith_slash a then a +:+ b else a +:+ "/" +:+ b
       end.

(** Truth value of a variable holding [None] or a string. *)
Definition truthy (v : option string) : bool :=
  match v with
  | Some (String _ _) => true
  | _ => false
  end.

End PyStr.

(** ** The fragment of Python's [re] used by the module

    [re.match] anchors at the start of the string only, quantifiers are
    greedy and give characters back one at a time (backtracking). The
    patterns of the module are sequences of single characters, [.],
    character sets, [x*], [x+] and capturing groups [(x+)]. *)

Module Re.

Inductive atom :=
| Chr (c : ascii)                        (* a literal character *)
| Dot                                    (* [.]: anything but a newline *)
| OneOf (ranges : list (ascii * ascii)). (* [[a-b...]] *)

Inductive item :=
| One (a : atom)
| Star (a : atom)
| Plus (a : atom)
| Group (a : atom).                      (* [(a+)], capturing *)

Definition regex := list item.

Definition in_range (c : ascii) (r : ascii * ascii) : bool :=
  Nat.leb (nat_of_ascii (fst r)) (nat_of_ascii c)
  && Nat.leb (nat_of_ascii c) (nat_of_ascii (snd r)).

Definition atom_match (a : atom) (c : ascii) : bool :=
  match a with
  | Chr c' => Ascii.eqb c c'
  | Dot => negb (Ascii.eqb c "010"%char)
  | OneOf ranges => existsb (in_range c) ranges
  end.

(** [a*] followed by the continuation [k]: the longest run first. *)
Fixpoint greedy (a : atom) (k : string -> option (list string)) (s : string)
  : option (list string) :=
  match s with
  | EmptyString => k s
  | String c s' =>
      if atom_match a c
      then match greedy a k s' with
           | Some g => Some g
           | None => k s
           end
      else k s
  end.

(** The same, also returning the text the run consumed. *)
Fixpoint greedy_cap (a : atom) (k : string -> option (list string)) (s : string)
  : option (string * list string) :=
  match s with
  | EmptyString => option_map (pair EmptyString) (k s)
  | String c s' =>
      if atom_match a c
      then match greedy_cap a k s' with
           | Some (cap, g) => Some (String c cap, g)
           | None => option_map (pair EmptyString) (k s)
           end
      else option_map (pair EmptyString) (k s)
  end.

(** [re.match(r, s)]: [None] when there is no match, else the groups. *)
Fixpoint rmatch (r : regex) (s : string) : option (list string) :=
  match r with
  | [] => Some []
  | One a :: r' =>
      match s with
      | String c s' => if atom_match a c then rmatch r' s' else None
      | EmptyString => None
      end
  | Star a :: r' => greedy a (rmatch r') s
  | Plus a :: r' =>
      match s with
      | String c s' => if atom_match a c then greedy a (rmatch r') s' else None
      | EmptyString => None
      end
  | Group a :: r' =>
      match s with
      | String c s' =>
          if atom_match a c
          then match greedy_cap a (rmatch r') s' with
               | Some (cap, g) => Some (String c cap :: g)
               | None => None
               end
          else None
      | EmptyString => None
      end
  end.

Fixpoint lits (s : string) : regex :=
  match s with
  | EmptyString => []
  | String c s' => One (Chr c) :: lits s'
  end.

(** [(.+) on (.+) type (.+) \((.+)\)] *)
Definition mount_line : regex :=
  [Group Dot] ++ lits " on " ++ [Group Dot] ++ lits " type " ++ [Group Dot]
    ++ lits " (" ++ [Group Dot] ++ lits ")".

(** [(.+): (.+) \((.+)\).*] *)
Definition losetup_line : regex :=
  [Group Dot] ++ lits ": " ++ [Group Dot] ++ lits " (" ++ [Group Dot]
    ++ lits ")" ++ [Star Dot].

(** [.*/im_[0-9.]+_.+], the default of [force_clean]'s [pattern]. *)
Definition default_pattern : regex :=
  [Star Dot] ++ lits "/im_" ++ [Plus (OneOf [("0", "9"); (".", ".")]%char)]
    ++ lits "_" ++ [Plus Dot].

Definition matches (r : regex) (s : string) : bool :=
  match rmatch r s with Some _ => true | None => false end.

End Re.

(** ** Python containers *)

(** A [dict] with string keys, iterated in insertion order (the order
    of [dict.items()] since Python 3.7): assigning to a key that is present
    replaces the value in place, a new key goes to the end. *)
Definition dict (V : Type) : Type := list (string * V).

Fixpoint dict_set {V : Type} (k : string) (v : V) (d : dict V) : dict V :=
  match d with
  | [] => [(k, v)]
  | (k', v') :: d' =>
      if String.eqb k k' then (k, v) :: d' else (k', v') :: dict_set k v d'
  end.

(** A value of [mountpoints]: [(orig, fs, opts)]. *)
Definition mount_info : Type := string * string * string.

(** Lines 144-147: one line of the output of [mount]. *)
Definition read_mount_line (mountpoints : dict mount_info) (line : string)
  : dict mount_info :=
  match Re.rmatch Re.mount_line line with
  | Some [g1; g2; g3; g4] => dict_set g2 (g1, g3, g4) mountpoints
  | _ => mountpoints
  end.

Definition read_mounts (lines : list string) : dict mount_info :=
  fold_left read_mount_line lines [].

(** Lines 169-172: one line of the output of [losetup -a]. *)
Definition read_losetup_line (loopbacks : gmap string string) (line : string)
  : gmap string string :=
  match Re.rmatch Re.losetup_line line with
  | Some [g1; g2; g3] => <[g1 := g3]> loopbacks
  | _ => loopbacks
  end.

Definition read_loopbacks (lines : list string) : gmap string string :=
  fold_left read_losetup_line lines ∅.

(** Lines 181-186: the effect of one line of [pvdisplay] on [pvname] and
    [vgname]. *)
Definition read_pv_line (line : string) (pvname vgname : option string)
  : option string * option string :=
  if PyStr.contains "--- Physical volume ---" line then (None, None)
  else if PyStr.contains "PV Name" line
       then (Some (PyStr.strip (PyStr.replace "PV Name" "" line)), vgname)
  else if PyStr.contains "VG Name" line
       then (pvname, Some (PyStr.strip (PyStr.replace "VG Name" "" line)))
  else (pvname, vgname).

(** The marker of resources that come from a disk image. *)
Definition marker : string := "/image_mounter_".

(** The descriptions that [force_clean] appends to [commands]. *)
Definition umount_cmd (mountpoint : string) : string := "umount " +:+ mountpoint.
Definition rm_cmd (path : string) : string := "rm -Rf " +:+ path.
Definition fusermount_cmd (mountpoint : string) : string := "fusermount -u " +:+ mountpoint.
Definition lvchange_cmd (vgname : string) : string := "lvchange -a n " +:+ vgname.
Definition losetup_cmd (pvname : string) : string := "losetup -d " +:+ pvname.

(** ** The operating system *)

(** What the module asks of the system. A command that exits with a
    non-zero status, cannot be started or whose output cannot be decoded
    gives [None]; otherwise its output, split into lines. A file operation
    that raises [OSError] gives [false]. Every operation may change the
    system in any way, and so may the time spent in [time.sleep]. *)
Class OS (world : Type) := {
  os_setenv : string -> string -> world -> world;
  os_run : list string -> world -> option (list string) * world;
  os_glob : string -> world -> list string;
  os_exists : string -> world -> bool;
  os_islink : string -> world -> bool;
  os_ismount : string -> world -> bool;
  os_isdir : string -> world -> bool;
  os_remove : string -> world -> bool * world;
  os_unlink : string -> world -> bool * world;
  os_rmdir : string -> world -> bool * world;
  os_sleep : world -> world;
  (** [posixpath.ismount] answers [False] for a symbolic link before it
      looks at anything else. *)
  os_ismount_link : forall p w, os_islink p w = true -> os_ismount p w = false
}.

(** The interactions with the system, in the order they happen, with their
    results. *)
Inductive event :=
| EvSetenv (key value : string)
| EvRun (argv : list string) (output : option (list string))
| EvGlob (pattern : string) (paths : list string)
| EvRemove (path : string) (ok : bool)
| EvUnlink (path : string) (ok : bool)
| EvRmdir (path : string) (ok : bool)
| EvSleep.

Inductive exn := OSError | CalledProcessError | KeyError | ReError.

Inductive outcome (A : Type) :=
| Return (a : A)
| Raise (e : exn).
Arguments Return {A} a.
Arguments Raise {A} e.

(** References to Python list objects. *)
Definition loc := nat.

Section Monad.

Context {world : Type}.

Record state := State {
  st_world : world;
  st_heap : gmap loc (list string)
}.

(** A computation: from a state to an outcome, the state it leaves and
    the events it caused. *)
Definition M (A : Type) : Type := state -> outcome A * state * list event.

Definition ret {A : Type} (a : A) : M A := fun s => (Return a, s, []).

Definition bind {A B : Type} (m : M A) (f : A -> M B) : M B := fun s =>
  match m s with
  | (Return a, s1, t1) => let '(o, s2, t2) := f a s1 in (o, s2, t1 ++ t2)
  | (Raise e, s1, t1) => (Raise e, s1, t1)
  end.

Definition raise {A : Type} (e : exn) : M A := fun s => (Raise e, s, []).

(** [try: body except: handler] *)
Definition try_except {A : Type} (body : M A) (handler : M A) : M A := fun s =>
  match body s with
  | (Return a, s1, t1) => (Return a, s1, t1)
  | (Raise _, s1, t1) => let '(o, s2, t2) := handler s1 in (o, s2, t1 ++ t2)
  end.

End Monad.

Arguments state : clear implicits.
Arguments M : clear implicits.

Declare Scope prog_scope.
Notation "'do' x <- m ; k" := (bind m (fun x => k))
  (at level 10, x name, m at level 100, k at level 200) : prog_scope.
Notation "m ;; k" := (bind m (fun _ => k))
  (at level 100, k at level 200, right associativity) : prog_scope.
Local Open Scope prog_scope.

Section Program.

Context {world : Type} `{!OS world}.

Abbreviation M := (M world).

(** *** List objects *)

Definition new_list (l : list string) : M loc := fun s =>
  let r := fresh (dom (st_heap s)) in
  (Return r, State (st_world s) (<[r := l]> (st_heap s)), []).

Definition list_append (r : loc) (x : string) : M unit := fun s =>
  (Return tt, State (st_world s) (<[r := (st_heap s !!! r) ++ [x]]> (st_heap s)), []).

Definition list_read (r : loc) : M (list string) := fun s =>
  (Return (st_heap s !!! r), s, []).

(** *** System calls *)

Definition query (f : world -> bool) : M bool := fun s => (Return (f (st_world s)), s, []).

Definition setenv (key value : string) : M unit := fun s =>
  (Return tt, State (os_setenv key value (st_world s)) (st_heap s), [EvSetenv key value]).

Definition subprocess (argv : list string) : M (list string) := fun s =>
  let '(r, w) := os_run argv (st_world s) in
  (match r with Some out => Return out | None => Raise CalledProcessError end,
   State w (st_heap s), [EvRun argv r]).

Definition file_op (f : string -> world -> bool * world)
    (ev : string -> bool -> event) (path : string) : M unit := fun s =>
  let '(ok, w) := f path (st_world s) in
  (if ok then Return tt else Raise OSError, State w (st_heap s), [ev path ok]).

Definition remove : string -> M unit := file_op os_remove EvRemove.
Definition unlink : string -> M unit := file_op os_unlink EvUnlink.
Definition rmdir : string -> M unit := file_op os_rmdir EvRmdir.

Definition sleep : M unit := fun s =>
  (Return tt, State (os_sleep (st_world s)) (st_heap s), [EvSleep]).

Definition glob (pattern : string) : M (list string) := fun s =>
  let paths := os_glob pattern (st_world s) in (Return paths, s, [EvGlob pattern paths]).

(** [loopbacks[key]] *)
Definition getitem (d : gmap string string) (key : string) : M string :=
  match d !! key with
  | Some v => ret v
  | None => raise KeyError
  end.

(** Lines 108-118. [check_call_] gives the exit status 0 or raises,
    [check_output_] gives the output or raises. *)
Definition check_call_ (cmd : list string) : M unit := subprocess cmd ;; ret tt.
Definition check_output_ (cmd : list string) : M (list string) := subprocess cmd.

(** *** [clean_unmount] (lines 18-54) *)

(** Lines 22-34. [true]: go on with line 36; [false]: line 34 returned
    [False]. *)
Definition perform_unmount (cmd : loc) (mountpoint : string) : M bool :=
  do has_avfs <- query (os_exists (PyStr.path_join mountpoint "avfs"));
  if has_avfs then
    remove (PyStr.path_join mountpoint "avfs") ;; ret true
  else
    do is_link <- query (os_islink mountpoint);
    if is_link then ret true
    else try_except
           (do argv <- list_read cmd; check_call_ argv ;; ret true)
           (ret false).

(** Lines 40-49: [for _ in range(tries)]. *)
Fixpoint remove_when_unmounted (tries : nat) (mountpoint : string) : M unit :=
  match tries with
  | O => ret tt
  | S tries' =>
      do mounted <- query (os_ismount mountpoint);
      if negb mounted then
        do is_link <- query (os_islink mountpoint);
        if is_link then unlink mountpoint else rmdir mountpoint
      else
        sleep ;; remove_when_unmounted tries' mountpoint
  end.

Definition clean_unmount (cmd : loc) (mountpoint : string) (tries : nat) (rmdir : bool)
  : M bool :=
  list_append cmd mountpoint ;;
  do unmounted <- perform_unmount cmd mountpoint;
  if negb unmounted then ret false
  else if negb rmdir then ret true
  else
    remove_when_unmounted tries mountpoint ;;
    do is_dir <- query (os_isdir mountpoint);
    if is_dir then ret false else ret true.

(** *** [force_clean] (lines 122-233) *)

Definition when_ (b : bool) (m : M unit) : M unit := if b then m else ret tt.

Section ForceClean.

Variable execute : bool.
(** [re.match(pattern, _)] for the caller's [pattern], when [re] can
    compile it; [force_clean_re] below takes any pattern. *)
Variable pattern : string -> bool.
Variable glob_pattern : string.

(** Lines 143-149. *)
Definition find_mountpoints : M (dict mount_info) :=
  try_except (do result <- check_output_ ["mount"]; ret (read_mounts result))
             (ret []).

(** Lines 152-156. *)
Fixpoint unmount_binds (items : dict mount_info) (commands : list string)
  : M (list string) :=
  match items with
  | [] => ret commands
  | (mountpoint, (orig, fs, opts)) :: items' =>
      if PyStr.contains "bind" opts && pattern mountpoint then
        let commands := commands ++ [umount_cmd mountpoint] in
        when_ execute
          (do cmd <- new_list ["umount"]; clean_unmount cmd mountpoint 5 false ;; ret tt) ;;
        unmount_binds items' commands
      else unmount_binds items' commands
  end.

(** Lines 158-163. *)
Fixpoint unmount_mounts (items : dict mount_info) (commands : list string)
  : M (list string) :=
  match items with
  | [] => ret commands
  | (mountpoint, (orig, fs, opts)) :: items' =>
      if negb (PyStr.contains "bind" opts)
         && (PyStr.contains marker orig || pattern mountpoint) then
        let commands := commands ++ [umount_cmd mountpoint; rm_cmd mountpoint] in
        when_ execute
          (do cmd <- new_list ["umount"]; clean_unmount cmd mountpoint 5 true ;; ret tt) ;;
        unmount_mounts items' commands
      else unmount_mounts items' commands
  end.

(** Lines 166-174. *)
Definition find_loopbacks : M (gmap string string) :=
  try_except (do result <- check_output_ ["losetup"; "-a"]; ret (read_loopbacks result))
             (ret ∅).

(** Lines 188-199, once [pvname] and [vgname] are both set. The two
    appends come before the only statements of the [try] block that can
    raise after them, so [commands] keeps both entries however the
    block ends; a [KeyError] of [loopbacks[pvname]] comes before them. *)
Definition deactivate (loopbacks : gmap string string) (pvname vgname : string)
    (commands : list string) : M (list string) :=
  match loopbacks !! pvname with
  | None => try_except (getitem loopbacks pvname ;; ret commands) (ret commands)
  | Some backing =>
      if PyStr.contains marker backing then
        let commands := commands ++ [lvchange_cmd vgname; losetup_cmd pvname] in
        try_except
          (when_ execute
             (do _ <- check_output_ ["lvchange"; "-a"; "n"; vgname];
              do _ <- check_output_ ["losetup"; "-d"; pvname];
              ret tt))
          (ret tt) ;;
        ret commands
      else ret commands
  end.

(** Lines 180-199: [for line in result.splitlines()]. *)
Fixpoint deactivate_volume_groups (loopbacks : gmap string string)
    (lines : list string) (pvname vgname : option string) (commands : list string)
  : M (list string) :=
  match lines with
  | [] => ret commands
  | line :: lines' =>
      let '(pvname, vgname) := read_pv_line line pvname vgname in
      if PyStr.truthy pvname && PyStr.truthy vgname then
        do commands <- deactivate loopbacks (default "" pvname) (default "" vgname)
                         commands;
        deactivate_volume_groups loopbacks lines' None None commands
      else deactivate_volume_groups loopbacks lines' pvname vgname commands
  end.

(** Lines 177-202. Only [check_output_] can raise out to the outer
    [try]: line 189 catches whatever the loop raises. *)
Definition find_volume_groups (loopbacks : gmap string string)
    (commands : list string) : M (list string) :=
  do result <- try_except (do out <- check_output_ ["pvdisplay"]; ret (Some out)) (ret None);
  match result with
  | Some lines => deactivate_volume_groups loopbacks lines None None commands
  | None => ret commands
  end.

(** Lines 205-210. *)
Fixpoint unmount_base (items : dict mount_info) (commands : list string)
  : M (list string) :=
  match items with
  | [] => ret commands
  | (mountpoint, _) :: items' =>
      if PyStr.contains marker mountpoint then
        let commands := commands ++ [fusermount_cmd mountpoint; rm_cmd mountpoint] in
        when_ execute
          (do cmd <- new_list ["fusermount"; "-u"];
           clean_unmount cmd mountpoint 5 true ;; ret tt) ;;
        unmount_base items' commands
      else unmount_base items' commands
  end.

(** Lines 215-222 and 224-231: the body of both loops over folders. *)
Definition sweep_folder (folder : string) (commands : list string) : M (list string) :=
  let cmd := rm_cmd folder in
  let commands := if decide (cmd ∈ commands) then commands else commands ++ [cmd] in
  when_ execute (try_except (rmdir folder) (ret tt)) ;;
  ret commands.

(** Lines 213-222. *)
Fixpoint sweep_glob (folders : list string) (commands : list string) : M (list string) :=
  match folders with
  | [] => ret commands
  | folder :: folders' =>
      if pattern folder then
        do commands <- sweep_folder folder commands;
        sweep_glob folders' commands
      else sweep_glob folders' commands
  end.

(** Lines 223-231. *)
Fixpoint sweep_tmp (folders : list string) (commands : list string) : M (list string) :=
  match folders with
  | [] => ret commands
  | folder :: folders' =>
      do commands <- sweep_folder folder commands;
      sweep_tmp folders' commands
  end.

Definition force_clean : M (list string) :=
  setenv "LVM_SUPPRESS_FD_WARNINGS" "1" ;;
  let commands := [] in
  do mountpoints <- find_mountpoints;
  do commands <- unmount_binds mountpoints commands;
  do commands <- unmount_mounts mountpoints commands;
  do loopbacks <- find_loopbacks;
  do commands <- find_volume_groups loopbacks commands;
  do commands <- unmount_base mountpoints commands;
  do folders <- glob glob_pattern;
  do commands <- sweep_glob folders commands;
  do folders <- glob "/tmp/image_mounter_*";
  do commands <- sweep_tmp folders commands;
  ret commands.

End ForceClean.

End Program.

(** ** A small simulated system

    Fixed tables for the three listing commands, a tree of paths, and the
    stack of mounts on each mountpoint. It is used to run the functions on
    concrete inputs. *)

Module Sim.

Inductive kind := KDir | KFile | KLink (target : string).

Record world := World {
  mount_out : option (list string);      (* what [mount] prints *)
  losetup_out : option (list string);    (* what [losetup -a] prints *)
  pvdisplay_out : option (list string);  (* what [pvdisplay] prints *)
  tree : list (string * kind);           (* the paths that exist *)
  mounted : list string;                 (* one entry per mount on a mountpoint *)
  busy : list string;                    (* mountpoints that refuse to unmount *)
  env : list (string * string)
}.

Definition with_tree (w : world) (t : list (string * kind)) : world :=
  World (mount_out w) (losetup_out w) (pvdisplay_out w) t (mounted w) (busy w) (env w).

Definition with_mounted (w : world) (m : list string) : world :=
  World (mount_out w) (losetup_out w) (pvdisplay_out w) (tree w) m (busy w) (env w).

Definition lookup_kind (p : string) (w : world) : option kind :=
  snd <$> List.find (fun e => String.eqb (fst e) p) (tree w).

Definition drop_path (p : string) (w : world) : world :=
  with_tree w (List.filter (fun e => negb (String.eqb (fst e) p)) (tree w)).

Fixpoint drop_first (p : string) (l : list string) : list string :=
  match l with
  | [] => []
  | x :: l' => if String.eqb x p then l' else x :: drop_first p l'
  end.

Definition is_mounted (p : string) (w : world) : bool :=
  existsb (String.eqb p) (mounted w).

Definition unmount (p : string) (w : world) : option (list string) * world :=
  if is_mounted p w && negb (existsb (String.eqb p) (busy w))
  then (Some [], with_mounted w (drop_first p (mounted w)))
  else (None, w).

Definition run (argv : list string) (w : world) : option (list string) * world :=
  match argv with
  | ["mount"] => (mount_out w, w)
  | ["losetup"; "-a"] => (losetup_out w, w)
  | ["pvdisplay"] => (pvdisplay_out w, w)
  | ["umount"; p] => unmount p w
  | ["fusermount"; "-u"; p] => unmount p w
  | _ => (Some [], w)
  end.

(** Globs that end in one [*]: the rest of the name, without [/]. *)
Fixpoint glob_match (pat s : string) : bool :=
  match pat with
  | EmptyString => match s with EmptyString => true | _ => false end
  | String "*" EmptyString => negb (PyStr.contains "/" s)
  | String c pat' =>
      match s with
      | String d s' => Ascii.eqb c d && glob_match pat' s'
      | EmptyString => false
      end
  end.

Definition glob (pat : string) (w : world) : list string :=
  List.filter (glob_match pat) (List.map fst (tree w)).

Definition exists_ (p : string) (w : world) : bool :=
  match lookup_kind p w with Some _ => true | None => false end.

Definition islink (p : string) (w : world) : bool :=
  match lookup_kind p w with Some (KLink _) => true | _ => false end.

Definition isdir (p : string) (w : world) : bool :=
  match lookup_kind p w with
  | Some KDir => true
  | Some (KLink target) =>
      match lookup_kind target w with Some KDir => true | _ => false end
  | _ => false
  end.

Definition ismount (p : string) (w : world) : bool :=
  negb (islink p w) && is_mounted p w.

(** [os.remove] and [os.unlink]: files and links only. *)
Definition remove (p : string) (w : world) : bool * world :=
  match lookup_kind p w with
  | Some KFile | Some (KLink _) => (true, drop_path p w)
  | _ => (false, w)
  end.

Definition has_entries (p : string) (w : world) : bool :=
  existsb (fun e => String.prefix (p +:+ "/") (fst e)) (tree w).

(** [os.rmdir]: an empty directory that is not a mountpoint. *)
Definition rmdir (p : string) (w : world) : bool * world :=
  match lookup_kind p w with
  | Some KDir =>
      if has_entries p w || is_mounted p w then (false, w) else (true, drop_path p w)
  | _ => (false, w)
  end.

Definition setenv (k v : string) (w : world) : world :=
  World (mount_out w) (losetup_out w) (pvdisplay_out w) (tree w) (mounted w) (busy w)
        ((k, v) :: env w).

Definition ismount_link (p : string) (w : world) (H : islink p w = true)
  : ismount p w = false :=
  eq_ind_r (fun b : bool => negb b && is_mounted p w = false)
           (eq_refl : negb true && is_mounted p w = false) H.

#[global] Instance os : OS world := {|
  os_setenv := setenv;
  os_run := run;
  os_glob := glob;
  os_exists := exists_;
  os_islink := islink;
  os_ismount := ismount;
  os_isdir := isdir;
  os_remove := remove;
  os_unlink := remove;
  os_rmdir := rmdir;
  os_sleep := fun w => w;
  os_ismount_link := ismount_link
|}.

Definition start (w : world) : state world := State w ∅.

End Sim.

(** ** Concrete systems *)

Module Scenario.

Import Sim.

(** The default value of [pattern]. *)
Definition im_pattern : string -> bool := Re.matches Re.default_pattern.

(** A state that holds the list object [['umount']] at reference 0. *)
Definition with_cmd (w : world) : state world := State w {[ 0 := ["umount"] ]}.

Definition pv_block (pvname vgname : string) : list string :=
  ["  --- Physical volume ---";
   "  PV Name               " +:+ pvname;
   "  VG Name               " +:+ vgname;
   "  PV Size               100.00 MiB / not usable 4.00 MiB";
   "  Allocatable           yes";
   "  PE Size               4.00 MiB";
   "  Total PE              24";
   "  PV UUID               Xq3v9c-1f2B-77aa-Zk0p-mmN4-h6Tt-aB12cd";
   "   "].

(** A bind mount on a directory of the naming convention, a mount below
    it, and a volume group on a loopback device of a disk image. *)
Definition forensic_stack : world :=
  World
    (Some ["/dev/sda1 on / type ext4 (rw,relatime)";
           "/tmp/im_1234.0_abc/sub on /tmp/im_1234.0_abc type none (rw,bind)";
           "/dev/loop1 on /tmp/im_1234.0_abc/sub type ext4 (ro)"])
    (Some ["/dev/loop0: [2049]:1234 (/tmp/image_mounter_1/file.dd)"])
    (Some (pv_block "/dev/loop0" "vg1"))
    [("/tmp", KDir); ("/tmp/im_1234.0_abc", KDir); ("/tmp/im_1234.0_abc/sub", KDir);
     ("/tmp/image_mounter_1", KDir); ("/tmp/image_mounter_1/file.dd", KFile)]
    ["/tmp/im_1234.0_abc"; "/tmp/im_1234.0_abc/sub"]
    []
    [].

(** A mountpoint of the naming convention whose directory is not empty
    once the volume is unmounted. *)
Definition leftover_files : world :=
  World
    (Some ["/dev/sda1 on / type ext4 (rw,relatime)";
           "/dev/loop0 on /tmp/im_1_a type ext4 (ro)"])
    (Some [])
    None
    [("/tmp", KDir); ("/tmp/im_1_a", KDir); ("/tmp/im_1_a/notes.txt", KFile)]
    ["/tmp/im_1_a"]
    []
    [].

(** A volume group on two loopback devices of disk images. *)
Definition two_pv_group : world :=
  World
    (Some ["/dev/sda1 on / type ext4 (rw,relatime)"])
    (Some ["/dev/loop0: [2049]:1234 (/tmp/image_mounter_1/disk1.dd)";
           "/dev/loop1: [2049]:1235 (/tmp/image_mounter_1/disk2.dd)"])
    (Some (pv_block "/dev/loop0" "vg1" ++ pv_block "/dev/loop1" "vg1"))
    [("/tmp", KDir); ("/tmp/image_mounter_1", KDir);
     ("/tmp/image_mounter_1/disk1.dd", KFile); ("/tmp/image_mounter_1/disk2.dd", KFile)]
    []
    []
    [].

(** A mountpoint that is a symbolic link to a directory. *)
Definition linked_case : world :=
  World None None None
    [("/mnt/case", KLink "/data/case"); ("/data/case", KDir)] [] [] [].

(** Two mounts stacked on one mountpoint: unmounting uncovers the
    other. *)
Definition stacked_mounts : world :=
  World None None None [("/tmp/im_1_a", KDir)] ["/tmp/im_1_a"; "/tmp/im_1_a"] [] [].

(** The list that [force_clean] returns for [forensic_stack]. *)
Definition forensic_plan : list string :=
  ["umount /tmp/im_1234.0_abc"; "umount /tmp/im_1234.0_abc/sub";
   "rm -Rf /tmp/im_1234.0_abc/sub"; "lvchange -a n vg1"; "losetup -d /dev/loop0";
   "rm -Rf /tmp/im_1234.0_abc"; "rm -Rf /tmp/image_mounter_1"].

(** [force_clean] with the default pattern and glob. *)
Definition cleanup (execute : bool) (w : world)
  : outcome (list string) * state world * list event :=
  force_clean execute im_pattern "/tmp/im_*" (start w).

End Scenario.

(** ** What a run read, and what it planned

    The vocabulary of the statements below: the tables that a run of
    [force_clean] read, taken from its trace, and the entries that each
    stage enqueues as a function of these tables. *)

Definition tmp_glob : string := "/tmp/image_mounter_*".

(** The output of the first run of [argv] in a trace; no lines when the
    command failed or was not run. *)
Fixpoint run_lines (argv : list string) (tr : list event) : list string :=
  match tr with
  | [] => []
  | EvRun a r :: tr' => if decide (a = argv) then default [] r else run_lines argv tr'
  | _ :: tr' => run_lines argv tr'
  end.

(** The results of the [glob.glob] calls, in order. *)
Fixpoint globs (tr : list event) : list (string * list string) :=
  match tr with
  | [] => []
  | EvGlob p g :: tr' => (p, g) :: globs tr'
  | _ :: tr' => globs tr'
  end.

Definition mounts_seen (tr : list event) : dict mount_info :=
  read_mounts (run_lines ["mount"] tr).

Definition loopbacks_seen (tr : list event) : gmap string string :=
  read_loopbacks (run_lines ["losetup"; "-a"] tr).

Definition pv_lines_seen (tr : list event) : list string := run_lines ["pvdisplay"] tr.

(** Everything a [glob.glob("/tmp/image_mounter_*")] of the run returned. *)
Definition tmp_folders_seen (tr : list event) : list string :=
  flat_map (fun pg => if decide (fst pg = tmp_glob) then snd pg else []) (globs tr).

(** The listing commands and [glob.glob] calls of a trace. *)
Definition is_query (ev : event) : bool :=
  match ev with
  | EvRun argv _ =>
      bool_decide (argv = ["mount"]) || bool_decide (argv = ["losetup"; "-a"])
      || bool_decide (argv = ["pvdisplay"])
  | EvGlob _ _ => true
  | _ => false
  end.

Definition queries (tr : list event) : list event := List.filter is_query tr.

(** The mountpoints that lines 153, 159 and 206 select. *)
Definition is_bind_target (pattern : string -> bool) (item : string * mount_info) : bool :=
  let '(mountpoint, (orig, fs, opts)) := item in
  PyStr.contains "bind" opts && pattern mountpoint.

Definition is_mount_target (pattern : string -> bool) (item : string * mount_info) : bool :=
  let '(mountpoint, (orig, fs, opts)) := item in
  negb (PyStr.contains "bind" opts) && (PyStr.contains marker orig || pattern mountpoint).

Definition is_base_target (item : string * mount_info) : bool :=
  PyStr.contains marker (fst item).

Definition bind_targets (pattern : string -> bool) (mounts : dict mount_info) : list string :=
  List.map fst (List.filter (is_bind_target pattern) mounts).

Definition mount_targets (pattern : string -> bool) (mounts : dict mount_info) : list string :=
  List.map fst (List.filter (is_mount_target pattern) mounts).

Definition base_targets (mounts : dict mount_info) : list string :=
  List.map fst (List.filter is_base_target mounts).

(** The [(pvname, vgname)] pairs that the loop over the lines of
    [pvdisplay] completes, starting with [pvname] and [vgname] as given. *)
Fixpoint pairings (lines : list string) (pvname vgname : option string)
  : list (string * string) :=
  match lines with
  | [] => []
  | line :: lines' =>
      let '(pvname, vgname) := read_pv_line line pvname vgname in
      if PyStr.truthy pvname && PyStr.truthy vgname
      then (default "" pvname, default "" vgname) :: pairings lines' None None
      else pairings lines' pvname vgname
  end.

(** A physical volume that is a loopback device of a disk image. *)
Definition image_backed (loopbacks : gmap string string) (pvname : string) : bool :=
  match loopbacks !! pvname with
  | Some backing => PyStr.contains marker backing
  | None => false
  end.

Definition vg_targets (loopbacks : gmap string string) (lines : list string)
  : list (string * string) :=
  List.filter (fun pair => image_backed loopbacks (fst pair)) (pairings lines None None).

Definition bind_cmds (targets : list string) : list string :=
  List.map umount_cmd targets.

Definition mount_cmds (targets : list string) : list string :=
  flat_map (fun mountpoint => [umount_cmd mountpoint; rm_cmd mountpoint]) targets.

Definition vg_cmds (targets : list (string * string)) : list string :=
  flat_map (fun pair => [lvchange_cmd (snd pair); losetup_cmd (fst pair)]) targets.

Definition base_cmds (targets : list string) : list string :=
  flat_map (fun mountpoint => [fusermount_cmd mountpoint; rm_cmd mountpoint]) targets.

(** The entries of lines 152-210. *)
Definition teardown_plan (pattern : string -> bool) (mounts : dict mount_info)
    (loopbacks : gmap string string) (pv_lines : list string) : list string :=
  bind_cmds (bind_targets pattern mounts)
    ++ mount_cmds (mount_targets pattern mounts)
    ++ vg_cmds (vg_targets loopbacks pv_lines)
    ++ base_cmds (base_targets mounts).

(** Lines 215-217 and 224-226. *)
Definition add_unique (commands : list string) (folder : string) : list string :=
  if decide (rm_cmd folder ∈ commands) then commands else commands ++ [rm_cmd folder].

Definition sweep_plan (folders : list string) (commands : list string) : list string :=
  fold_left add_unique folders commands.

(** The list that [force_clean] returns when it has read these tables. *)
Definition plan (pattern : string -> bool) (mounts : dict mount_info)
    (loopbacks : gmap string string) (pv_lines : list string)
    (folders tmp_folders : list string) : list string :=
  sweep_plan tmp_folders
    (sweep_plan (List.filter pattern folders)
       (teardown_plan pattern mounts loopbacks pv_lines)).

(** *** Resources, entries and operations *)

(** The signals by which [force_clean] takes a resource [r] (a mountpoint,
    a loopback device, a volume group or a folder) for its own, relative to
    what the run read: the path matches [pattern]; the path contains the
    marker; it is a mountpoint whose source contains the marker; it is a
    loopback device whose backing file contains the marker; it is a volume
    group paired with such a device; [glob.glob("/tmp/image_mounter_*")]
    returned it. *)
Definition owned (pattern : string -> bool) (tr : list event) (r : string) : bool :=
  pattern r
  || PyStr.contains marker r
  || existsb (fun item : string * mount_info =>
                String.eqb (fst item) r && PyStr.contains marker (fst (fst (snd item))))
             (mounts_seen tr)
  || image_backed (loopbacks_seen tr) r
  || existsb (fun pair : string * string =>
                String.eqb (snd pair) r && image_backed (loopbacks_seen tr) (fst pair))
             (pairings (pv_lines_seen tr) None None)
  || bool_decide (r ∈ tmp_folders_seen tr).

(** The entry [e] of the command list names the resource [r]. *)
Definition names (e r : string) : Prop :=
  e = umount_cmd r \/ e = rm_cmd r \/ e = fusermount_cmd r
  \/ e = lvchange_cmd r \/ e = losetup_cmd r.

(** The event [ev] is a release operation on the resource [r]. *)
Definition releases (ev : event) (r : string) : Prop :=
  match ev with
  | EvRun argv _ =>
      argv = ["umount"; r] \/ argv = ["fusermount"; "-u"; r]
      \/ argv = ["lvchange"; "-a"; "n"; r] \/ argv = ["losetup"; "-d"; r]
  | EvUnlink path _ | EvRmdir path _ => path = r
  | _ => False
  end.

(** The events that change the system: everything but the listing
    commands, [glob.glob] and [time.sleep]. *)
Definition is_mutation (ev : event) : bool :=
  match ev with
  | EvSleep => false
  | _ => negb (is_query ev)
  end.

Definition mutations (tr : list event) : list event := List.filter is_mutation tr.

(** The events of [clean_unmount(cmd, mountpoint)], where [argv] is the
    list [cmd] after line 19. *)
Inductive unmount_event (argv : list string) (mountpoint : string) : event -> Prop :=
| ue_run r : unmount_event argv mountpoint (EvRun argv r)
| ue_remove ok : unmount_event argv mountpoint (EvRemove (PyStr.path_join mountpoint "avfs") ok)
| ue_unlink ok : unmount_event argv mountpoint (EvUnlink mountpoint ok)
| ue_rmdir ok : unmount_event argv mountpoint (EvRmdir mountpoint ok)
| ue_sleep : unmount_event argv mountpoint EvSleep.

(** The events of a loop that calls [clean_unmount(prog, m)] for the
    mountpoints [m] of [targets]; none in a dry run. *)
Definition unmount_trace (execute : bool) (prog : list string) (targets : list string)
    (t : list event) : Prop :=
  if execute
  then Forall (fun ev => exists m, In m targets /\ unmount_event (prog ++ [m]) m ev) t
  else t = [].

(** The events of lines 195-196 for the pairs of [targets]. *)
Definition vg_trace (execute : bool) (targets : list (string * string)) (t : list event)
  : Prop :=
  if execute
  then Forall (fun ev => exists pv vg r, In (pv, vg) targets /\
                 (ev = EvRun ["lvchange"; "-a"; "n"; vg] r
                  \/ ev = EvRun ["losetup"; "-d"; pv] r)) t
  else t = [].

(** The events of lines 218-222 and 227-231: one [os.rmdir] per folder. *)
Definition sweep_trace (execute : bool) (folders : list string) (t : list event) : Prop :=
  if execute
  then Forall2 (fun folder ev => exists ok, ev = EvRmdir folder ok) folders t
  else t = [].

(** How a run of [force_clean] ends and what it does: an exception leaves
    one of the [clean_unmount] calls of lines 156 and 163, or of line 210,
    or the run returns its plan. *)
Inductive force_clean_run (execute : bool) (pattern : string -> bool) (glob_pattern : string)
  : outcome (list string) -> list event -> Prop :=
| run_raised_unmount r1 t e :
    unmount_trace execute ["umount"]
      (bind_targets pattern (read_mounts (default [] r1))
         ++ mount_targets pattern (read_mounts (default [] r1))) t ->
    execute = true ->
    force_clean_run execute pattern glob_pattern (Raise e)
      ([EvSetenv "LVM_SUPPRESS_FD_WARNINGS" "1"; EvRun ["mount"] r1] ++ t)
| run_raised_base r1 t12 r2 r3 t3 t4 e :
    let mounts := read_mounts (default [] r1) in
    let loopbacks := read_loopbacks (default [] r2) in
    unmount_trace execute ["umount"]
      (bind_targets pattern mounts ++ mount_targets pattern mounts) t12 ->
    vg_trace execute (vg_targets loopbacks (default [] r3)) t3 ->
    unmount_trace execute ["fusermount"; "-u"] (base_targets mounts) t4 ->
    execute = true ->
    force_clean_run execute pattern glob_pattern (Raise e)
      ([EvSetenv "LVM_SUPPRESS_FD_WARNINGS" "1"; EvRun ["mount"] r1] ++ t12
         ++ [EvRun ["losetup"; "-a"] r2; EvRun ["pvdisplay"] r3] ++ t3 ++ t4)
| run_returned r1 t12 r2 r3 t3 t4 g1 t5 g2 t6 :
    let mounts := read_mounts (default [] r1) in
    let loopbacks := read_loopbacks (default [] r2) in
    unmount_trace execute ["umount"]
      (bind_targets pattern mounts ++ mount_targets pattern mounts) t12 ->
    vg_trace execute (vg_targets loopbacks (default [] r3)) t3 ->
    unmount_trace execute ["fusermount"; "-u"] (base_targets mounts) t4 ->
    sweep_trace execute (List.filter pattern g1) t5 ->
    sweep_trace execute g2 t6 ->
    force_clean_run execute pattern glob_pattern
      (Return (plan pattern mounts loopbacks (default [] r3) g1 g2))
      ([EvSetenv "LVM_SUPPRESS_FD_WARNINGS" "1"; EvRun ["mount"] r1] ++ t12
         ++ [EvRun ["losetup"; "-a"] r2; EvRun ["pvdisplay"] r3] ++ t3 ++ t4
         ++ [EvGlob glob_pattern g1] ++ t5 ++ [EvGlob tmp_glob g2] ++ t6).

(** Every event of a run that changes the system is line 136, or belongs
    to one of the stages, for a target taken from the tables the run
    read. *)
Inductive staged (pattern : string -> bool) (tr : list event) : event -> Prop :=
| staged_setenv : staged pattern tr (EvSetenv "LVM_SUPPRESS_FD_WARNINGS" "1")
| staged_unmount m ev :
    In m (bind_targets pattern (mounts_seen tr)
            ++ mount_targets pattern (mounts_seen tr)) ->
    unmount_event ["umount"; m] m ev -> staged pattern tr ev
| staged_vg pv vg r ev :
    In (pv, vg) (vg_targets (loopbacks_seen tr) (pv_lines_seen tr)) ->
    ev = EvRun ["lvchange"; "-a"; "n"; vg] r \/ ev = EvRun ["losetup"; "-d"; pv] r ->
    staged pattern tr ev
| staged_base m ev :
    In m (base_targets (mounts_seen tr)) ->
    unmount_event ["fusermount"; "-u"; m] m ev -> staged pattern tr ev
| staged_sweep folder ok :
    pattern folder = true \/ In folder (tmp_folders_seen tr) ->
    staged pattern tr (EvRmdir folder ok).

(** A trace without listing commands and globs. *)
Definition quiet (t : list event) : Prop := Forall (fun ev => is_query ev = false) t.

(** The target of one completed pair of [pvdisplay] lines, if any. *)
Definition one_target (loopbacks : gmap string string) (pvname vgname : string)
  : list (string * string) :=
  List.filter (fun pair => image_backed loopbacks (fst pair)) [(pvname, vgname)].

(** ** Further vocabulary *)

(** A file operation of [clean_unmount(_, mountpoint)] that raised. *)
Definition failed_file_op (mountpoint : string) (ev : event) : Prop :=
  ev = EvRemove (PyStr.path_join mountpoint "avfs") false
  \/ ev = EvUnlink mountpoint false
  \/ ev = EvRmdir mountpoint false.

(** An exception that leaves [clean_unmount]: an [OSError], and the last
    thing that happened is the file operation that raised it. *)
Definition escapes (e : exn) (tr : list event) : Prop :=
  e = OSError /\ exists t mountpoint ev, tr = t ++ [ev] /\ failed_file_op mountpoint ev.

(** The argument lists of the commands that [force_clean] runs. *)
Definition listing_argv (argv : list string) : Prop :=
  argv = ["mount"] \/ argv = ["losetup"; "-a"] \/ argv = ["pvdisplay"].

Definition release_argv (argv : list string) : Prop :=
  (exists m, argv = ["umount"; m]) \/ (exists m, argv = ["fusermount"; "-u"; m])
  \/ (exists vg, argv = ["lvchange"; "-a"; "n"; vg])
  \/ (exists pv, argv = ["losetup"; "-d"; pv]).

(** Lines 195-196 share one [try] block: in a trace, [losetup -d] is run
    only directly after an [lvchange -a n] that succeeded. *)
Definition detach_guarded (tr : list event) : Prop :=
  forall t1 pv r t2, tr = t1 ++ EvRun ["losetup"; "-d"; pv] r :: t2 ->
    exists t0 vg out, t1 = t0 ++ [EvRun ["lvchange"; "-a"; "n"; vg] (Some out)].

(** More concrete systems. *)
Module Cases.

Import Sim.

(** A mounted volume that is in use. *)
Definition busy_mount : world :=
  World None None None [("/tmp/im_1_a", KDir)] ["/tmp/im_1_a"] ["/tmp/im_1_a"] [].

(** A mountpoint with an [avfs] link in it. *)
Definition avfs_mount : world :=
  World None None None
    [("/tmp/im_2_b", KDir); ("/tmp/im_2_b/avfs", KLink "/root/.avfs/tmp/image.zip#")]
    [] [] [].

(** One volume mounted on an empty directory. *)
Definition plain_mount : world :=
  World
    (Some ["/dev/loop0 on /tmp/im_1_a type ext4 (ro)"])
    (Some []) (Some [])
    [("/tmp", KDir); ("/tmp/im_1_a", KDir)] ["/tmp/im_1_a"] [] [].

(** No listing command works. *)
Definition no_tools : world :=
  World None None None [("/tmp", KDir); ("/tmp/im_1_a", KDir)] [] [] [].

(** A bind mount on a mountpoint that matches the pattern and carries
    the marker, a mounted volume and a volume group on a loopback device
    of a disk image. *)
Definition marked_bind : world :=
  World
    (Some ["/srv/evidence on /tmp/image_mounter_1/im_1_a type none (rw,bind)";
           "/dev/loop1 on /tmp/im_2_b type ext4 (ro)"])
    (Some ["/dev/loop0: [2049]:1234 (/tmp/image_mounter_1/file.dd)"])
    (Some (Scenario.pv_block "/dev/loop0" "vg1"))
    [("/tmp", KDir); ("/tmp/image_mounter_1", KDir); ("/tmp/image_mounter_1/im_1_a", KDir);
     ("/tmp/image_mounter_1/file.dd", KFile); ("/tmp/im_2_b", KDir)]
    ["/tmp/image_mounter_1/im_1_a"; "/tmp/im_2_b"] [] [].

(** The chain of [vg1] on [/dev/loop0] beside a loopback device and a
    volume group that have nothing to do with disk images. *)
Definition chain_among_others : world :=
  World
    (Some ["/dev/sda1 on / type ext4 (rw,relatime)"])
    (Some ["/dev/loop0: [2049]:1234 (/tmp/image_mounter_1/file.dd)";
           "/dev/loop7: [2049]:77 (/var/lib/snapd/snaps/core_1.snap)"])
    (Some (Scenario.pv_block "/dev/sda2" "system" ++ Scenario.pv_block "/dev/loop0" "vg1"))
    [("/tmp", KDir); ("/tmp/image_mounter_1", KDir); ("/tmp/image_mounter_1/file.dd", KFile)]
    [] [] [].

End Cases.

(** ** [force_clean] for any [pattern] argument

    [force_clean] above is given [re.match(pattern, _)] as a predicate,
    which is what a pattern that [re] can compile has. For a pattern that
    [re] cannot compile every [re.match(pattern, _)] raises [re.error],
    and the calls at lines 153, 159 and 214 are outside every [try]. *)

Inductive pattern_arg :=
| Compiled (matches : string -> bool)
| Malformed.

Section ForceCleanRe.

Context {world : Type} `{!OS world}.

Variable execute : bool.
Variable pattern : pattern_arg.
Variable glob_pattern : string.

(** [re.match(pattern, s)], for its truth value. *)
Definition re_match (s : string) : M world bool :=
  match pattern with
  | Compiled matches => ret (matches s)
  | Malformed => raise ReError
  end.

(** Lines 152-156: [and] evaluates [re.match] only when ['bind' in opts]. *)
Fixpoint unmount_binds_re (items : dict mount_info) (commands : list string)
  : M world (list string) :=
  match items with
  | [] => ret commands
  | (mountpoint, (orig, fs, opts)) :: items' =>
      do selected <- (if PyStr.contains "bind" opts then re_match mountpoint else ret false);
      if selected then
        let commands := commands ++ [umount_cmd mountpoint] in
        when_ execute
          (do cmd <- new_list ["umount"]; clean_unmount cmd mountpoint 5 false ;; ret tt) ;;
        unmount_binds_re items' commands
      else unmount_binds_re items' commands
  end.

(** Lines 158-163: [or] evaluates [re.match] only when the marker is not
    in [orig]. *)
Fixpoint unmount_mounts_re (items : dict mount_info) (commands : list string)
  : M world (list string) :=
  match items with
  | [] => ret commands
  | (mountpoint, (orig, fs, opts)) :: items' =>
      do selected <- (if negb (PyStr.contains "bind" opts)
                      then if PyStr.contains marker orig then ret true
                           else re_match mountpoint
                      else ret false);
      if selected then
        let commands := commands ++ [umount_cmd mountpoint; rm_cmd mountpoint] in
        when_ execute
          (do cmd <- new_list ["umount"]; clean_unmount cmd mountpoint 5 true ;; ret tt) ;;
        unmount_mounts_re items' commands
      else unmount_mounts_re items' commands
  end.

(** Lines 213-222. *)
Fixpoint sweep_glob_re (folders : list string) (commands : list string)
  : M world (list string) :=
  match folders with
  | [] => ret commands
  | folder :: folders' =>
      do selected <- re_match folder;
      if selected then
        do commands <- sweep_folder execute folder commands;
        sweep_glob_re folders' commands
      else sweep_glob_re folders' commands
  end.

Definition force_clean_re : M world (list string) :=
  setenv "LVM_SUPPRESS_FD_WARNINGS" "1" ;;
  let commands := [] in
  do mountpoints <- find_mountpoints;
  do commands <- unmount_binds_re mountpoints commands;
  do commands <- unmount_mounts_re mountpoints commands;
  do loopbacks <- find_loopbacks;
  do commands <- find_volume_groups execute loopbacks commands;
  do commands <- unmount_base execute mountpoints commands;
  do folders <- glob glob_pattern;
  do commands <- sweep_glob_re folders commands;
  do folders <- glob "/tmp/image_mounter_*";
  do commands <- sweep_tmp execute folders commands;
  ret commands.

End ForceCleanRe.

(** How an exception leaves [force_clean]: as the [re.error] of a pattern
    that does not compile, or, in execute mode, as the [OSError] of a file
    operation of [clean_unmount]. *)
Definition leaves (execute : bool) (pattern : pattern_arg) (e : exn) (tr : list event)
  : Prop :=
  (e = ReError /\ pattern = Malformed) \/ (execute = true /\ escapes e tr).

(** The mountpoints that [clean_unmount] is asked to remove (lines 163
    and 210), for which the list has an [rm -Rf] entry before the folder
    sweeps. *)
Definition removed_mountpoints (pattern : string -> bool) (mounts : dict mount_info)
  : list string :=
  mount_targets pattern mounts ++ base_targets mounts.

(** ** The other functions of the module *)

(** *** More of Python's strings and of [posixpath] *)

Module PyText.

(** The first [n] characters, or all of them. *)
Fixpoint first (n : nat) (s : string) : string :=
  match n, s with
  | S n', String c s' => String c (first n' s')
  | _, _ => EmptyString
  end.

Fixpoint drop (n : nat) (s : string) : string :=
  match n, s with
  | S n', String _ s' => drop n' s'
  | _, _ => s
  end.

(** [s[:stop]]: a negative [stop] counts from the end. *)
Definition slice_to (stop : Z) (s : string) : string :=
  let len := Z.of_nat (String.length s) in
  first (Z.to_nat (if (stop <? 0)%Z then Z.max 0 (len + stop) else stop)) s.

(** [s[start:]] *)
Definition slice_from (start : Z) (s : string) : string :=
  let len := Z.of_nat (String.length s) in
  drop (Z.to_nat (if (start <? 0)%Z then Z.max 0 (len + start) else start)) s.

Fixpoint last_index (c : ascii) (s : string) : option nat :=
  match s with
  | EmptyString => None
  | String c' s' =>
      match last_index c s' with
      | Some i => Some (S i)
      | None => if Ascii.eqb c' c then Some 0 else None
      end
  end.

(** [s.rfind(c)] for a single character [c]: the highest index, or -1. *)
Definition rfind (c : ascii) (s : string) : Z :=
  match last_index c s with
  | Some i => Z.of_nat i
  | None => (-1)%Z
  end.

(** [s.split(sep)] for a single character [sep]. *)
Fixpoint split (sep : ascii) (s : string) : list string :=
  match s with
  | EmptyString => [EmptyString]
  | String c s' =>
      if Ascii.eqb c sep then EmptyString :: split sep s'
      else match split sep s' with
           | piece :: pieces => String c piece :: pieces
           | [] => [String c EmptyString]
           end
  end.

Fixpoint lstrip_chr (c : ascii) (s : string) : string :=
  match s with
  | EmptyString => EmptyString
  | String c' s' => if Ascii.eqb c' c then lstrip_chr c s' else s
  end.

Fixpoint rstrip_chr (c : ascii) (s : string) : string :=
  match s with
  | EmptyString => EmptyString
  | String c' s' =>
      match rstrip_chr c s' with
      | EmptyString => if Ascii.eqb c' c then EmptyString else String c' EmptyString
      | r => String c' r
      end
  end.

(** [s.strip(c)] for a single character [c]. *)
Definition strip_chr (c : ascii) (s : string) : string := rstrip_chr c (lstrip_chr c s).

Fixpoint all_chr (c : ascii) (s : string) : bool :=
  match s with
  | EmptyString => true
  | String c' s' => Ascii.eqb c' c && all_chr c s'
  end.

(** [os.path.split(p)] (posixpath): the head ends before the last slash
    and loses its trailing slashes unless it is made of slashes only. *)
Definition path_split (p : string) : string * string :=
  let i := (rfind "/" p + 1)%Z in
  let head := slice_to i p in
  let tail := slice_from i p in
  (if PyStr.truthy (Some head) && negb (all_chr "/" head) then rstrip_chr "/" head else head,
   tail).

End PyText.

(** *** Patterns with alternatives and [$]

    The patterns of [is_encase], [is_compressed], [is_vmware] and
    [expand_path] are only tested for a match. [walk r k s] tries [r] at
    the start of [s] and hands what is left to [k], backtracking into [r]
    when [k] refuses. [\w] and [\d] are taken on the ASCII range. *)

Module Rx.

Inductive rx :=
| Atom (a : Re.atom)
| Lit (l : string)
| Seq (r1 r2 : rx)
| Alt (r1 r2 : rx)
| Opt (r : rx)
| Star (a : Re.atom)
| Eos.                                   (* [$] *)

(** [\w] *)
Definition word : Re.atom :=
  Re.OneOf [("a", "z"); ("A", "Z"); ("0", "9"); ("_", "_")]%char.

(** [\d] *)
Definition digit : Re.atom := Re.OneOf [("0", "9")]%char.

Fixpoint strip_prefix (l s : string) : option string :=
  match l with
  | EmptyString => Some s
  | String c l' =>
      match s with
      | String d s' => if Ascii.eqb c d then strip_prefix l' s' else None
      | EmptyString => None
      end
  end.

(** [$] matches at the end of the string and before a newline that ends
    the string. *)
Definition at_end (s : string) : bool :=
  match s with
  | EmptyString => true
  | String c EmptyString => Ascii.eqb c "010"%char
  | _ => false
  end.

(** [a*] followed by [k]: the longest run first. *)
Fixpoint star (a : Re.atom) (k : string -> bool) (s : string) : bool :=
  match s with
  | EmptyString => k s
  | String c s' => (Re.atom_match a c && star a k s') || k s
  end.

Fixpoint walk (r : rx) (k : string -> bool) (s : string) : bool :=
  match r with
  | Atom a =>
      match s with
      | String c s' => Re.atom_match a c && k s'
      | EmptyString => false
      end
  | Lit l =>
      match strip_prefix l s with
      | Some s' => k s'
      | None => false
      end
  | Seq r1 r2 => walk r1 (walk r2 k) s
  | Alt r1 r2 => walk r1 k s || walk r2 k s
  | Opt r' => walk r' k s || k s
  | Star a => star a k s
  | Eos => at_end s && k s
  end.

(** Whether [re.match(r, s)] gives a match object. *)
Definition accepts (r : rx) (s : string) : bool := walk r (fun _ => true) s.

(** [^.*\.E\w\w$] *)
Definition encase : rx :=
  Seq (Star Re.Dot) (Seq (Lit ".E") (Seq (Atom word) (Seq (Atom word) Eos))).

(** [^.*\.((zip)|(rar)|((t(ar\.)?)?gz))$] *)
Definition compressed : rx :=
  Seq (Star Re.Dot)
    (Seq (Lit ".")
       (Seq (Alt (Lit "zip")
               (Alt (Lit "rar") (Seq (Opt (Seq (Lit "t") (Opt (Lit "ar.")))) (Lit "gz"))))
          Eos)).

(** [^.*\.vmdk] *)
Definition vmware : rx := Seq (Star Re.Dot) (Lit ".vmdk").

(** [^.*\.\d{2,3}$]: two digits and, if there is one, a third. *)
Definition numbered : rx :=
  Seq (Star Re.Dot)
    (Seq (Lit ".") (Seq (Atom digit) (Seq (Atom digit) (Seq (Opt (Atom digit)) Eos)))).

(** What [r] can match at the start of a string: [den r u v] when [r]
    matches [u] and [v] follows. *)
Fixpoint den (r : rx) (u v : string) : Prop :=
  match r with
  | Atom a => exists c, u = String c EmptyString /\ Re.atom_match a c = true
  | Lit l => u = l
  | Seq r1 r2 => exists u1 u2, u = u1 +:+ u2 /\ den r1 u1 (u2 +:+ v) /\ den r2 u2 v
  | Alt r1 r2 => den r1 u v \/ den r2 u v
  | Opt r' => u = EmptyString \/ den r' u v
  | Star a => Forall (fun c => Re.atom_match a c = true) (list_ascii_of_string u)
  | Eos => u = EmptyString /\ at_end v = true
  end.

End Rx.

(** *** [is_encase], [is_compressed], [is_vmware] (lines 57-66)

    The truth value of the match object that the function returns. *)

Definition is_encase (path : string) : bool := Rx.accepts Rx.encase path.

Definition is_compressed (path : string) : bool := Rx.accepts Rx.compressed path.

Definition is_vmware (path : string) : bool := Rx.accepts Rx.vmware path.

Definition newline : string := String "010"%char EmptyString.

(** A string without a newline: what [.*] can match. *)
Definition one_line (s : string) : bool := negb (PyStr.contains newline s).

Definition is_word (c : ascii) : bool := Re.atom_match Rx.word c.

Definition is_digit (c : ascii) : bool := Re.atom_match Rx.digit c.

(** *** [expand_path] (lines 69-82) *)

Section ExpandPath.

Context {world : Type} `{!OS world}.

Definition expand_path (path : string) : M world (list string) :=
  if is_encase path then glob (PyText.slice_to (-2) path +:+ "??")
  else if Rx.accepts Rx.numbered path
       then glob (PyText.slice_to (PyText.rfind "." path) path +:+ ".[0-9][0-9]?")
  else ret [path].

End ExpandPath.

(** *** [command_exists] (lines 85-96) *)

Section CommandExists.

(** [os.path.isfile], [os.access(_, os.X_OK)] and the value of [PATH] in
    [os.environ], if it is set, at the time of the call. *)
Variables (isfile executable : string -> bool) (env_path : option string).

(** Lines 90-94. *)
Fixpoint search_path (dirs : list string) (cmd : string) : bool :=
  match dirs with
  | [] => false
  | p :: dirs' =>
      let p := PyText.strip_chr "034"%char p in
      let fp := PyStr.path_join p cmd in
      if isfile fp && executable fp then true else search_path dirs' cmd
  end.

Definition command_exists (cmd : string) : outcome bool :=
  let '(fpath, fname) := PyText.path_split cmd in
  if PyStr.truthy (Some fpath) then Return (isfile cmd && executable cmd)
  else match env_path with
       | Some path => Return (search_path (PyText.split ":" path) cmd)
       | None => Raise KeyError
       end.

End CommandExists.

(** *** [determine_slot] (lines 236-240), for arguments that are integers *)

Definition determine_slot (table slot : Z) : Z :=
  if (0 <=? table)%Z then (table * 4 + slot + 1)%Z else (slot + 1)%Z.

(** ** Running computations *)

Section Runs.

Context {world : Type} `{!OS world}.

Implicit Types (s : state world) (tr t : list event).

Lemma bind_inv {A B : Type} (m : M world A) (f : A -> M world B) s o s' tr :
  bind m f s = (o, s', tr) ->
  (exists a s1 t1 t2, m s = (Return a, s1, t1) /\ f a s1 = (o, s', t2) /\ tr = t1 ++ t2)
  \/ (exists e, m s = (Raise e, s', tr) /\ o = Raise e).
Proof.
  unfold bind. destruct (m s) as [[[a|e] s1] t1].
  - destruct (f a s1) as [[o2 s2] t2] eqn:Hf. intros [= <- <- <-].
    left. exists a, s1, t1, t2. auto.
  - intros [= <- <- <-]. right. eauto.
Qed.

Lemma try_except_inv {A : Type} (body handler : M world A) s o s' tr :
  try_except body handler s = (o, s', tr) ->
  (exists a, body s = (Return a, s', tr) /\ o = Return a)
  \/ (exists e s1 t1 t2, body s = (Raise e, s1, t1) /\ handler s1 = (o, s', t2)
                         /\ tr = t1 ++ t2).
Proof.
  unfold try_except. destruct (body s) as [[[a|e] s1] t1].
  - intros [= <- <- <-]. left. eauto.
  - destruct (handler s1) as [[o2 s2] t2] eqn:Hh. intros [= <- <- <-].
    right. exists e, s1, t1, t2. auto.
Qed.

Lemma ret_inv {A : Type} (a : A) s o s' tr :
  ret a s = (o, s', tr) -> o = Return a /\ s' = s /\ tr = [].
Proof. unfold ret. intros [= <- <- <-]. auto. Qed.

Lemma when_false (m : M world unit) s : when_ false m s = (Return tt, s, []).
Proof. reflexivity. Qed.

(** *** [clean_unmount] *)

Lemma perform_unmount_run cmd mountpoint s o s' tr :
  perform_unmount cmd mountpoint s = (o, s', tr) ->
  st_heap s' = st_heap s
  /\ Forall (unmount_event (st_heap s !!! cmd) mountpoint) tr.
Proof.
  cbv [perform_unmount bind query remove file_op try_except list_read
         check_call_ check_output_ subprocess ret].
  destruct (os_exists _ (st_world s)).
  - destruct (os_remove _ (st_world s)) as [[] w]; intros [= <- <- <-]; simpl;
      (split; [reflexivity | repeat constructor]).
  - destruct (os_islink _ (st_world s)).
    + intros [= <- <- <-]. simpl. auto.
    + destruct (os_run _ (st_world s)) as [[out|] w]; intros [= <- <- <-]; simpl;
        (split; [reflexivity | repeat constructor]).
Qed.

Lemma remove_when_unmounted_run tries mountpoint argv s o s' tr :
  remove_when_unmounted tries mountpoint s = (o, s', tr) ->
  st_heap s' = st_heap s /\ Forall (unmount_event argv mountpoint) tr.
Proof.
  revert s tr. induction tries as [|n IH]; intros s tr; simpl.
  - intros [= <- <- <-]. auto.
  - unfold bind at 1. unfold query at 1.
    destruct (os_ismount mountpoint (st_world s)); simpl.
    + unfold bind, sleep.
      destruct (remove_when_unmounted n mountpoint _) as [[o2 s2] t2] eqn:Hrec.
      intros [= <- <- <-]. apply IH in Hrec as [Hh Hev]. simpl in Hh.
      split; [exact Hh | constructor; [constructor | exact Hev]].
    + unfold bind, query, unlink, rmdir, file_op.
      destruct (os_islink mountpoint (st_world s)).
      * destruct (os_unlink mountpoint (st_world s)) as [[] w]; intros [= <- <- <-]; simpl;
          (split; [reflexivity | repeat constructor]).
      * destruct (os_rmdir mountpoint (st_world s)) as [[] w]; intros [= <- <- <-]; simpl;
          (split; [reflexivity | repeat constructor]).
Qed.

(** Line 19 happens whatever comes after it, and nothing else touches the
    list objects. *)
Lemma clean_unmount_heap cmd mountpoint tries rm s o s' tr :
  clean_unmount cmd mountpoint tries rm s = (o, s', tr) ->
  st_heap s' = <[cmd := (st_heap s !!! cmd) ++ [mountpoint]]> (st_heap s).
Proof.
  unfold clean_unmount. intros H.
  apply bind_inv in H as [(a & s1 & t1 & t2 & Ha & H & ->) | (e & Ha & ->)];
    [|discriminate Ha].
  injection Ha as <- <- <-.
  apply bind_inv in H as [(u & s2 & t3 & t4 & Hu & H & ->) | (e & Hu & ->)].
  - apply perform_unmount_run in Hu as [Hh _]. simpl in Hh. rewrite <- Hh.
    destruct u; simpl in H.
    + destruct rm; simpl in H.
      * apply bind_inv in H as [(a & s3 & t5 & t6 & Hl & H & ->) | (e & Hl & ->)].
        -- apply (remove_when_unmounted_run _ _ []) in Hl as [Hh3 _].
           unfold bind, query, ret in H.
           destruct (os_isdir mountpoint (st_world s3)); injection H as <- <- <-; congruence.
        -- apply (remove_when_unmounted_run _ _ []) in Hl as [Hh3 _]. congruence.
      * apply ret_inv in H as (_ & -> & _). reflexivity.
    + apply ret_inv in H as (_ & -> & _). reflexivity.
  - apply perform_unmount_run in Hu as [Hh _]. exact Hh.
Qed.

Lemma clean_unmount_events cmd mountpoint tries rm s o s' tr :
  clean_unmount cmd mountpoint tries rm s = (o, s', tr) ->
  Forall (unmount_event ((st_heap s !!! cmd) ++ [mountpoint]) mountpoint) tr.
Proof.
  unfold clean_unmount. intros H.
  apply bind_inv in H as [(a & s1 & t1 & t2 & Ha & H & ->) | (e & Ha & ->)];
    [|discriminate Ha].
  injection Ha as <- <- <-. simpl.
  set (argv := (st_heap s !!! cmd) ++ [mountpoint]) in *.
  apply bind_inv in H as [(u & s2 & t3 & t4 & Hu & H & ->) | (e & Hu & ->)].
  - apply perform_unmount_run in Hu as [_ Hev].
    simpl in Hev. rewrite lookup_total_insert_eq in Hev.
    apply Forall_app; split; [exact Hev|].
    destruct u; simpl in H.
    + destruct rm; simpl in H.
      * apply bind_inv in H as [(a & s3 & t5 & t6 & Hl & H & ->) | (e & Hl & ->)].
        -- apply (remove_when_unmounted_run _ _ argv) in Hl as [_ Hev3].
           apply Forall_app; split; [exact Hev3|].
           unfold bind, query, ret in H.
           destruct (os_isdir mountpoint (st_world s3)); injection H as <- <- <-; constructor.
        -- apply (remove_when_unmounted_run _ _ argv) in Hl as [_ Hev3]. exact Hev3.
      * apply ret_inv in H as (_ & _ & ->). constructor.
    + apply ret_inv in H as (_ & _ & ->). constructor.
  - apply perform_unmount_run in Hu as [_ Hev].
    simpl in Hev. rewrite lookup_total_insert_eq in Hev. exact Hev.
Qed.

(** *** The loops of [force_clean] *)

Lemma unmount_call_run prog mountpoint rm s o s' tr :
  (do cmd <- new_list prog; clean_unmount cmd mountpoint 5 rm ;; ret tt) s = (o, s', tr) ->
  Forall (unmount_event (prog ++ [mountpoint]) mountpoint) tr.
Proof.
  intros H.
  apply bind_inv in H as [(r & s1 & t1 & t2 & Hn & H & ->) | (e & Hn & ->)];
    [|discriminate Hn].
  injection Hn as <- <- <-. simpl.
  apply bind_inv in H as [(b & s2 & t3 & t4 & Hc & H & ->) | (e & Hc & ->)].
  - apply ret_inv in H as (_ & _ & ->). rewrite app_nil_r.
    apply clean_unmount_events in Hc. simpl in Hc.
    rewrite lookup_total_insert_eq in Hc. exact Hc.
  - apply clean_unmount_events in Hc. simpl in Hc.
    rewrite lookup_total_insert_eq in Hc. exact Hc.
Qed.

Lemma unmount_trace_nil execute prog targets : unmount_trace execute prog targets [].
Proof. unfold unmount_trace. destruct execute; auto. Qed.

Lemma unmount_trace_weaken execute prog targets targets' t :
  (forall m, In m targets -> In m targets') ->
  unmount_trace execute prog targets t -> unmount_trace execute prog targets' t.
Proof.
  unfold unmount_trace. intros Hsub. destruct execute; [|auto].
  apply List.Forall_impl. intros ev (m & Hm & Hev). eauto.
Qed.

Lemma unmount_trace_app execute prog targets t1 t2 :
  unmount_trace execute prog targets t1 -> unmount_trace execute prog targets t2 ->
  unmount_trace execute prog targets (t1 ++ t2).
Proof.
  unfold unmount_trace. destruct execute.
  - intros. apply Forall_app. auto.
  - intros -> ->. reflexivity.
Qed.

(** One round of the three loops over [mountpoints]: the optional call of
    [clean_unmount], then the rest of the loop. *)
Lemma unmount_round_run (execute : bool) prog mountpoint rm targets
    (rest : M world (list string)) (expected : list string) s o s' tr :
  (when_ execute (do cmd <- new_list prog; clean_unmount cmd mountpoint 5 rm ;; ret tt) ;;
   rest) s = (o, s', tr) ->
  (forall s1 t2, rest s1 = (o, s', t2) ->
     unmount_trace execute prog targets t2
     /\ match o with Return cmds => cmds = expected | Raise _ => execute = true end) ->
  unmount_trace execute prog (mountpoint :: targets) tr
  /\ match o with Return cmds => cmds = expected | Raise _ => execute = true end.
Proof.
  intros H Hrest.
  apply bind_inv in H as [(u & s1 & t1 & t2 & Hw & H & ->) | (e & Hw & ->)].
  - apply Hrest in H as [Htr Ho]. split; [|exact Ho].
    apply unmount_trace_app.
    + destruct execute; simpl in Hw.
      * apply unmount_call_run in Hw. unfold unmount_trace.
        eapply List.Forall_impl; [|exact Hw]. intros ev Hev. exists mountpoint.
        split; [left; reflexivity | exact Hev].
      * injection Hw as _ _ <-. reflexivity.
    + eapply unmount_trace_weaken; [|exact Htr]. intros m Hm. right. exact Hm.
  - destruct execute; simpl in Hw; [|discriminate Hw].
    apply unmount_call_run in Hw. split; [|reflexivity].
    unfold unmount_trace. eapply List.Forall_impl; [|exact Hw]. intros ev Hev.
    exists mountpoint. split; [left; reflexivity | exact Hev].
Qed.

Lemma unmount_binds_run execute pattern items commands s o s' tr :
  unmount_binds execute pattern items commands s = (o, s', tr) ->
  unmount_trace execute ["umount"] (bind_targets pattern items) tr
  /\ match o with
     | Return cmds => cmds = commands ++ bind_cmds (bind_targets pattern items)
     | Raise _ => execute = true
     end.
Proof.
  revert commands s tr.
  induction items as [|[mountpoint [[orig fs] opts]] items IH]; intros commands s tr H.
  - apply ret_inv in H as (-> & _ & ->). split; [apply unmount_trace_nil|].
    simpl. rewrite app_nil_r. reflexivity.
  - simpl in H. unfold bind_targets. simpl.
    destruct (PyStr.contains "bind" opts && pattern mountpoint); simpl.
    + eapply unmount_round_run; [exact H|]. intros s1 t2 Hr.
      apply IH in Hr as [Htr Ho]. split; [exact Htr|].
      destruct o; [|exact Ho]. rewrite Ho, <- app_assoc. reflexivity.
    + apply IH in H. exact H.
Qed.

Lemma unmount_mounts_run execute pattern items commands s o s' tr :
  unmount_mounts execute pattern items commands s = (o, s', tr) ->
  unmount_trace execute ["umount"] (mount_targets pattern items) tr
  /\ match o with
     | Return cmds => cmds = commands ++ mount_cmds (mount_targets pattern items)
     | Raise _ => execute = true
     end.
Proof.
  revert commands s tr.
  induction items as [|[mountpoint [[orig fs] opts]] items IH]; intros commands s tr H.
  - apply ret_inv in H as (-> & _ & ->). split; [apply unmount_trace_nil|].
    simpl. rewrite app_nil_r. reflexivity.
  - simpl in H. unfold mount_targets. simpl.
    destruct (negb (PyStr.contains "bind" opts)
              && (PyStr.contains marker orig || pattern mountpoint)); simpl.
    + eapply unmount_round_run; [exact H|]. intros s1 t2 Hr.
      apply IH in Hr as [Htr Ho]. split; [exact Htr|].
      destruct o; [|exact Ho]. rewrite Ho, <- app_assoc. reflexivity.
    + apply IH in H. exact H.
Qed.

Lemma unmount_base_run execute items commands s o s' tr :
  unmount_base execute items commands s = (o, s', tr) ->
  unmount_trace execute ["fusermount"; "-u"] (base_targets items) tr
  /\ match o with
     | Return cmds => cmds = commands ++ base_cmds (base_targets items)
     | Raise _ => execute = true
     end.
Proof.
  revert commands s tr.
  induction items as [|[mountpoint info] items IH]; intros commands s tr H.
  - apply ret_inv in H as (-> & _ & ->). split; [apply unmount_trace_nil|].
    simpl. rewrite app_nil_r. reflexivity.
  - simpl in H. unfold base_targets, is_base_target. simpl.
    destruct (PyStr.contains marker mountpoint); simpl.
    + eapply unmount_round_run; [exact H|]. intros s1 t2 Hr.
      apply IH in Hr as [Htr Ho]. split; [exact Htr|].
      destruct o; [|exact Ho]. rewrite Ho, <- app_assoc. reflexivity.
    + apply IH in H. exact H.
Qed.

Lemma vg_trace_nil execute targets : vg_trace execute targets [].
Proof. unfold vg_trace. destruct execute; auto. Qed.

Lemma vg_trace_weaken execute targets targets' t :
  (forall p, In p targets -> In p targets') ->
  vg_trace execute targets t -> vg_trace execute targets' t.
Proof.
  unfold vg_trace. intros Hsub. destruct execute; [|auto].
  apply List.Forall_impl. intros ev (pv & vg & r & Hin & Hev). eauto 6.
Qed.

Lemma vg_trace_app execute targets t1 t2 :
  vg_trace execute targets t1 -> vg_trace execute targets t2 ->
  vg_trace execute targets (t1 ++ t2).
Proof.
  unfold vg_trace. destruct execute.
  - intros. apply Forall_app. auto.
  - intros -> ->. reflexivity.
Qed.

Lemma deactivate_run execute loopbacks pvname vgname commands s o s' tr :
  deactivate execute loopbacks pvname vgname commands s = (o, s', tr) ->
  o = Return (commands ++ vg_cmds (one_target loopbacks pvname vgname))
  /\ vg_trace execute (one_target loopbacks pvname vgname) tr.
Proof.
  unfold deactivate, one_target, image_backed. simpl.
  destruct (loopbacks !! pvname) as [backing|] eqn:Hl.
  - destruct (PyStr.contains marker backing); simpl.
    + destruct execute; cbv [when_ bind try_except check_output_ subprocess ret].
      * destruct (os_run ["lvchange"; "-a"; "n"; vgname] (st_world s)) as [[out|] w].
        -- simpl. destruct (os_run ["losetup"; "-d"; pvname] w) as [[out2|] w2];
             intros [= <- <- <-]; (split; [reflexivity|]);
             repeat constructor; exists pvname, vgname; eauto 6 using in_eq.
        -- intros [= <- <- <-]. split; [reflexivity|].
           repeat constructor; exists pvname, vgname; eauto 6 using in_eq.
      * intros [= <- <- <-]. split; reflexivity.
    + intros H. apply ret_inv in H as (-> & _ & ->).
      rewrite app_nil_r. split; [reflexivity | apply vg_trace_nil].
  - unfold getitem. rewrite Hl. cbv [try_except bind raise ret].
    intros [= <- <- <-]. rewrite app_nil_r. split; [reflexivity | apply vg_trace_nil].
Qed.

Lemma deactivate_volume_groups_run execute loopbacks lines pvname vgname commands
    s o s' tr :
  deactivate_volume_groups execute loopbacks lines pvname vgname commands s = (o, s', tr) ->
  let targets :=
    List.filter (fun pair => image_backed loopbacks (fst pair))
                (pairings lines pvname vgname) in
  o = Return (commands ++ vg_cmds targets) /\ vg_trace execute targets tr.
Proof.
  revert pvname vgname commands s tr.
  induction lines as [|line lines IH]; intros pvname vgname commands s tr H; simpl in *.
  - apply ret_inv in H as (-> & _ & ->). rewrite app_nil_r.
    split; [reflexivity | apply vg_trace_nil].
  - destruct (read_pv_line line pvname vgname) as [pv vg].
    destruct (PyStr.truthy pv && PyStr.truthy vg).
    + apply bind_inv in H as [(c & s1 & t1 & t2 & Hd & H & ->) | (e & Hd & ->)].
      * apply deactivate_run in Hd as [Hc Ht1]. injection Hc as ->.
        apply IH in H as [-> Ht2]. unfold one_target in *. simpl in *.
        destruct (image_backed loopbacks (default "" pv)); simpl in *.
        -- split; [rewrite <- app_assoc; reflexivity|].
           apply vg_trace_app.
           ++ eapply vg_trace_weaken; [|exact Ht1]. simpl. intros p [<-|[]]. left. reflexivity.
           ++ eapply vg_trace_weaken; [|exact Ht2]. intros p Hp. right. exact Hp.
        -- rewrite app_nil_r. split; [reflexivity|].
           apply vg_trace_app; [|exact Ht2].
           eapply vg_trace_weaken; [|exact Ht1]. intros p [].
      * apply deactivate_run in Hd as [Hc _]. discriminate Hc.
    + apply IH in H. exact H.
Qed.

Lemma find_volume_groups_run execute loopbacks commands s o s' tr :
  find_volume_groups execute loopbacks commands s = (o, s', tr) ->
  exists r3 t3,
    tr = EvRun ["pvdisplay"] r3 :: t3
    /\ o = Return (commands ++ vg_cmds (vg_targets loopbacks (default [] r3)))
    /\ vg_trace execute (vg_targets loopbacks (default [] r3)) t3.
Proof.
  unfold find_volume_groups. intros H.
  apply bind_inv in H as [(res & s1 & t1 & t2 & Hq & H & ->) | (e & Hq & ->)].
  - revert Hq. cbv [try_except bind check_output_ subprocess ret].
    destruct (os_run ["pvdisplay"] (st_world s)) as [[out|] w]; intros [= <- <- <-].
    + apply deactivate_volume_groups_run in H as [-> Ht].
      exists (Some out), t2. auto.
    + apply ret_inv in H as (-> & _ & ->).
      exists None, []. simpl. rewrite app_nil_r.
      split; [reflexivity | split; [reflexivity | apply vg_trace_nil]].
  - revert Hq. cbv [try_except bind check_output_ subprocess ret].
    destruct (os_run ["pvdisplay"] (st_world s)) as [[out|] w]; intros [= ].
Qed.

Lemma find_mountpoints_run s o s' tr :
  find_mountpoints s = (o, s', tr) ->
  exists r1, tr = [EvRun ["mount"] r1] /\ o = Return (read_mounts (default [] r1)).
Proof.
  cbv [find_mountpoints try_except bind check_output_ subprocess ret].
  destruct (os_run ["mount"] (st_world s)) as [[out|] w]; intros [= <- <- <-].
  - exists (Some out). auto.
  - exists None. auto.
Qed.

Lemma find_loopbacks_run s o s' tr :
  find_loopbacks s = (o, s', tr) ->
  exists r2, tr = [EvRun ["losetup"; "-a"] r2]
             /\ o = Return (read_loopbacks (default [] r2)).
Proof.
  cbv [find_loopbacks try_except bind check_output_ subprocess ret].
  destruct (os_run ["losetup"; "-a"] (st_world s)) as [[out|] w]; intros [= <- <- <-].
  - exists (Some out). auto.
  - exists None. auto.
Qed.

Lemma sweep_folder_run execute folder commands s o s' tr :
  sweep_folder execute folder commands s = (o, s', tr) ->
  o = Return (add_unique commands folder) /\ sweep_trace execute [folder] tr.
Proof.
  unfold sweep_folder, add_unique, sweep_trace.
  destruct execute; cbv [when_ bind try_except rmdir file_op ret].
  - destruct (os_rmdir folder (st_world s)) as [[] w]; intros [= <- <- <-];
      (split; [reflexivity|]); repeat constructor; eauto.
  - intros [= <- <- <-]. auto.
Qed.

Lemma sweep_trace_nil execute : sweep_trace execute [] [].
Proof. unfold sweep_trace. destruct execute; auto. Qed.

Lemma sweep_trace_cons execute folder folders t1 t2 :
  sweep_trace execute [folder] t1 -> sweep_trace execute folders t2 ->
  sweep_trace execute (folder :: folders) (t1 ++ t2).
Proof.
  unfold sweep_trace. destruct execute.
  - intros H1 H2. change (folder :: folders) with ([folder] ++ folders).
    apply Forall2_app; assumption.
  - intros -> ->. reflexivity.
Qed.

Lemma sweep_glob_run execute pattern folders commands s o s' tr :
  sweep_glob execute pattern folders commands s = (o, s', tr) ->
  o = Return (sweep_plan (List.filter pattern folders) commands)
  /\ sweep_trace execute (List.filter pattern folders) tr.
Proof.
  revert commands s tr.
  induction folders as [|folder folders IH]; intros commands s tr H; simpl in *.
  - apply ret_inv in H as (-> & _ & ->). split; [reflexivity | apply sweep_trace_nil].
  - destruct (pattern folder).
    + apply bind_inv in H as [(c & s1 & t1 & t2 & Hf & H & ->) | (e & Hf & ->)].
      * apply sweep_folder_run in Hf as [Hc Ht1]. injection Hc as ->.
        apply IH in H as [-> Ht2]. split; [reflexivity|].
        apply sweep_trace_cons; assumption.
      * apply sweep_folder_run in Hf as [Hc _]. discriminate Hc.
    + apply IH in H. exact H.
Qed.

Lemma sweep_tmp_run execute folders commands s o s' tr :
  sweep_tmp execute folders commands s = (o, s', tr) ->
  o = Return (sweep_plan folders commands) /\ sweep_trace execute folders tr.
Proof.
  revert commands s tr.
  induction folders as [|folder folders IH]; intros commands s tr H; simpl in *.
  - apply ret_inv in H as (-> & _ & ->). split; [reflexivity | apply sweep_trace_nil].
  - apply bind_inv in H as [(c & s1 & t1 & t2 & Hf & H & ->) | (e & Hf & ->)].
    + apply sweep_folder_run in Hf as [Hc Ht1]. injection Hc as ->.
      apply IH in H as [-> Ht2]. split; [reflexivity|].
      apply sweep_trace_cons; assumption.
    + apply sweep_folder_run in Hf as [Hc _]. discriminate Hc.
Qed.

(** *** [force_clean] as a whole *)

Lemma unmount_trace_both execute pattern mounts t1 t2 :
  unmount_trace execute ["umount"] (bind_targets pattern mounts) t1 ->
  unmount_trace execute ["umount"] (mount_targets pattern mounts) t2 ->
  unmount_trace execute ["umount"]
    (bind_targets pattern mounts ++ mount_targets pattern mounts) (t1 ++ t2).
Proof.
  intros H1 H2. apply unmount_trace_app.
  - eapply unmount_trace_weaken; [|exact H1]. intros m Hm. apply in_or_app. auto.
  - eapply unmount_trace_weaken; [|exact H2]. intros m Hm. apply in_or_app. auto.
Qed.

Lemma force_clean_runs execute pattern glob_pattern s o s' tr :
  force_clean execute pattern glob_pattern s = (o, s', tr) ->
  force_clean_run execute pattern glob_pattern o tr.
Proof.
  unfold force_clean. intros H.
  apply bind_inv in H as [(u & s0 & t0 & q1 & He & H & ->) | (e & He & ->)];
    [|discriminate He].
  injection He as _ _ <-.
  apply bind_inv in H as [(mounts & sa & ta & q2 & Hm & H & ->) | (e & Hm & ->)];
    apply find_mountpoints_run in Hm as (r1 & -> & Hm); [|discriminate Hm].
  injection Hm as ->.
  (* lines 152-156 *)
  apply bind_inv in H as [(c1 & sb & t1 & q3 & H1 & H & ->) | (e & H1 & ->)];
    apply unmount_binds_run in H1 as [Ht1 Hc1]; cycle 1.
  { apply (run_raised_unmount execute pattern glob_pattern r1 q2 e); [|exact Hc1].
    rewrite <- (app_nil_r q2). apply unmount_trace_both; [exact Ht1|].
    apply unmount_trace_nil. }
  simpl in Hc1. subst c1.
  (* lines 158-163 *)
  apply bind_inv in H as [(c2 & sc & t2 & q4 & H2 & H & ->) | (e & H2 & ->)];
    apply unmount_mounts_run in H2 as [Ht2 Hc2]; cycle 1.
  { apply (run_raised_unmount execute pattern glob_pattern r1 (t1 ++ q3) e); [|exact Hc2].
    apply unmount_trace_both; assumption. }
  subst c2.
  pose proof (unmount_trace_both _ _ _ _ _ Ht1 Ht2) as Ht12.
  (* lines 166-202 *)
  apply bind_inv in H as [(loopbacks & sd & td & q5 & Hl & H & ->) | (e & Hl & ->)];
    apply find_loopbacks_run in Hl as (r2 & -> & Hl); [|discriminate Hl].
  injection Hl as ->.
  apply bind_inv in H as [(c3 & se & t3' & q6 & H3 & H & ->) | (e & H3 & ->)];
    apply find_volume_groups_run in H3 as (r3 & t3 & -> & Hc3 & Ht3);
    [|discriminate Hc3].
  injection Hc3 as ->.
  (* lines 205-210 *)
  apply bind_inv in H as [(c4 & sf & t4 & q7 & H4 & H & ->) | (e & H4 & ->)];
    apply unmount_base_run in H4 as [Ht4 Hc4]; cycle 1.
  { replace ([EvSetenv "LVM_SUPPRESS_FD_WARNINGS" "1"] ++ [EvRun ["mount"] r1] ++ t1 ++ t2
               ++ [EvRun ["losetup"; "-a"] r2] ++ (EvRun ["pvdisplay"] r3 :: t3) ++ q6)
      with ([EvSetenv "LVM_SUPPRESS_FD_WARNINGS" "1"; EvRun ["mount"] r1] ++ (t1 ++ t2)
              ++ [EvRun ["losetup"; "-a"] r2; EvRun ["pvdisplay"] r3] ++ t3 ++ q6)
      by (simpl; rewrite <- !app_assoc; reflexivity).
    apply run_raised_base; assumption. }
  subst c4.
  (* lines 213-231 *)
  apply bind_inv in H as [(g1 & sg & tg & q8 & Hg & H & ->) | (e & Hg & ->)];
    [|discriminate Hg].
  injection Hg as <- <- <-.
  apply bind_inv in H as [(c5 & sh & t5 & q9 & H5 & H & ->) | (e & H5 & ->)];
    apply sweep_glob_run in H5 as [Hc5 Ht5]; [|discriminate Hc5].
  injection Hc5 as ->.
  apply bind_inv in H as [(g2 & si & ti & q10 & Hg & H & ->) | (e & Hg & ->)];
    [|discriminate Hg].
  injection Hg as <- <- <-.
  apply bind_inv in H as [(c6 & sj & t6 & q11 & H6 & H & ->) | (e & H6 & ->)];
    apply sweep_tmp_run in H6 as [Hc6 Ht6]; [|discriminate Hc6].
  injection Hc6 as ->.
  apply ret_inv in H as (-> & _ & ->).
  match goal with
  | |- force_clean_run _ _ _ _ ?T =>
      replace T
        with ([EvSetenv "LVM_SUPPRESS_FD_WARNINGS" "1"; EvRun ["mount"] r1] ++ (t1 ++ t2)
                ++ [EvRun ["losetup"; "-a"] r2; EvRun ["pvdisplay"] r3] ++ t3 ++ t4
                ++ [EvGlob glob_pattern (os_glob glob_pattern (st_world sf))] ++ t5
                ++ [EvGlob tmp_glob (os_glob "/tmp/image_mounter_*" (st_world sh))] ++ t6)
        by (simpl; rewrite <- ?app_assoc; simpl; rewrite ?app_nil_r; reflexivity)
  end.
  match goal with
  | |- force_clean_run _ _ _ (Return (sweep_plan _ (sweep_plan _ ?C))) _ =>
      replace C
        with (teardown_plan pattern (read_mounts (default [] r1))
                (read_loopbacks (default [] r2)) (default [] r3))
        by (unfold teardown_plan; simpl; rewrite <- ?app_assoc; reflexivity)
  end.
  apply run_returned; assumption.
Qed.

End Runs.

(** ** Entries, tables and traces *)

Section Plans.

Implicit Types (tr t : list event) (commands : list string).

(** An entry names one resource. *)
Lemma names_inj e r r' : names e r -> names e r' -> r = r'.
Proof.
  unfold names, umount_cmd, rm_cmd, fusermount_cmd, lvchange_cmd, losetup_cmd.
  intros [-> | [-> | [-> | [-> | ->]]]] [H | [H | [H | [H | H]]]];
    simpl in H; first [discriminate H | injection H as H; exact H].
Qed.

Lemma umount_cmd_inj a b : umount_cmd a = umount_cmd b -> a = b.
Proof. intros H. apply (names_inj (umount_cmd a)); [left; reflexivity | left; exact H]. Qed.

(** The keys of a [dict] stay distinct. *)
Lemma dict_set_keys {V : Type} (k : string) (v : V) (d : dict V) :
  forall k', In k' (List.map fst (dict_set k v d)) <-> k' = k \/ In k' (List.map fst d).
Proof.
  induction d as [|[k0 v0] d IH]; intros k'; simpl.
  - intuition congruence.
  - destruct (String.eqb_spec k k0) as [->|Hne]; simpl.
    + intuition congruence.
    + rewrite IH. intuition congruence.
Qed.

Lemma dict_set_nodup {V : Type} (k : string) (v : V) (d : dict V) :
  List.NoDup (List.map fst d) -> List.NoDup (List.map fst (dict_set k v d)).
Proof.
  induction d as [|[k0 v0] d IH]; simpl; intros Hd.
  - constructor; [intros [] | constructor].
  - inversion Hd as [|? ? Hnin Hd']; subst.
    destruct (String.eqb_spec k k0) as [->|Hne]; simpl.
    + constructor; assumption.
    + constructor; [|apply IH; exact Hd'].
      rewrite dict_set_keys. intros [->|Hin]; [congruence | contradiction].
Qed.

Lemma read_mounts_nodup lines : List.NoDup (List.map fst (read_mounts lines)).
Proof.
  unfold read_mounts.
  assert (Hgen : forall d : dict mount_info, List.NoDup (List.map fst d) ->
                   List.NoDup (List.map fst (fold_left read_mount_line lines d))).
  { induction lines as [|line lines IH]; intros d Hd; simpl; [exact Hd|].
    apply IH. unfold read_mount_line.
    destruct (Re.rmatch Re.mount_line line) as [[|g1 [|g2 [|g3 [|g4 [|? ?]]]]]|];
      auto using dict_set_nodup. }
  apply Hgen. constructor.
Qed.

Lemma dict_functional {V : Type} (d : dict V) k v v' :
  List.NoDup (List.map fst d) -> In (k, v) d -> In (k, v') d -> v = v'.
Proof.
  induction d as [|[k0 v0] d IH]; simpl; intros Hd H1 H2; [contradiction|].
  inversion Hd as [|? ? Hnin Hd']; subst.
  destruct H1 as [[= -> ->]|H1], H2 as [[= <-]|H2]; try reflexivity.
  - exfalso. apply Hnin. apply (in_map fst) in H2. exact H2.
  - subst. exfalso. apply Hnin. apply (in_map fst) in H1. exact H1.
  - auto.
Qed.

(** *** The two sweeps only add what is new *)

Lemma sweep_plan_spec folders commands :
  exists added,
    sweep_plan folders commands = commands ++ added
    /\ List.NoDup added
    /\ (forall c, In c added -> ~ In c commands /\ exists f, In f folders /\ c = rm_cmd f)
    /\ (forall f, In f folders -> In (rm_cmd f) (commands ++ added)).
Proof.
  revert commands. induction folders as [|f folders IH]; intros commands; simpl.
  - exists []. rewrite app_nil_r.
    split; [reflexivity|]. split; [constructor|]. split; intros ? [].
  - destruct (IH (add_unique commands f)) as (added & Heq & Hnd & Hnew & Hall).
    unfold add_unique in *. destruct (decide (rm_cmd f ∈ commands)) as [Hin|Hnin].
    + exists added. split; [exact Heq|]. split; [exact Hnd|]. split.
      * intros c Hc. destruct (Hnew c Hc) as [Hn (f' & Hf' & ->)]. eauto.
      * intros f' [<-|Hf']; [|auto].
        apply in_or_app. left. apply list_elem_of_In. exact Hin.
    + exists (rm_cmd f :: added). rewrite Heq, <- app_assoc. simpl.
      split; [reflexivity|]. split; [|split].
      * constructor; [|exact Hnd]. intros Hc. destruct (Hnew _ Hc) as [Hn _].
        apply Hn. apply in_or_app. right. left. reflexivity.
      * intros c [<-|Hc].
        -- split; [|eauto]. intros Hc. apply Hnin. apply list_elem_of_In. exact Hc.
        -- destruct (Hnew c Hc) as [Hn (f' & Hf' & ->)]. split; [|eauto].
           intros Hc'. apply Hn. apply in_or_app. auto.
      * intros f' [<-|Hf'].
        -- apply in_or_app. right. left. reflexivity.
        -- specialize (Hall f' Hf'). rewrite <- app_assoc in Hall. exact Hall.
Qed.

(** *** Traces without listing commands *)

Lemma queries_app t1 t2 : queries (t1 ++ t2) = queries t1 ++ queries t2.
Proof. apply List.filter_app. Qed.

Lemma queries_quiet t : quiet t -> queries t = [].
Proof.
  induction 1 as [|ev t Hev _ IH]; simpl; [reflexivity|].
  unfold queries in *. simpl. rewrite Hev. exact IH.
Qed.

Lemma run_lines_queries argv tr :
  argv = ["mount"] \/ argv = ["losetup"; "-a"] \/ argv = ["pvdisplay"] ->
  run_lines argv tr = run_lines argv (queries tr).
Proof.
  intros Hq. induction tr as [|ev tr IH]; [reflexivity|].
  destruct ev as [k v | a r | p g | p b | p b | p b | ]; simpl; try exact IH.
  destruct (bool_decide (a = ["mount"]) || bool_decide (a = ["losetup"; "-a"])
            || bool_decide (a = ["pvdisplay"])) eqn:Hb; simpl.
  - destruct (decide (a = argv)); [reflexivity | exact IH].
  - destruct (decide (a = argv)) as [->|]; [|exact IH].
    exfalso. destruct Hq as [-> | [-> | ->]]; discriminate Hb.
Qed.

Lemma globs_queries tr : globs tr = globs (queries tr).
Proof.
  induction tr as [|ev tr IH]; [reflexivity|].
  destruct ev as [k v | a r | p g | p b | p b | p b | ]; simpl; try exact IH.
  - destruct (bool_decide (a = ["mount"]) || bool_decide (a = ["losetup"; "-a"])
              || bool_decide (a = ["pvdisplay"])); simpl; exact IH.
  - f_equal. exact IH.
Qed.

Lemma unmount_event_quiet prog m ev :
  prog = ["umount"] \/ prog = ["fusermount"; "-u"] ->
  unmount_event (prog ++ [m]) m ev -> is_query ev = false.
Proof.
  intros Hp Hev. destruct Hev; try reflexivity.
  destruct Hp as [->| ->]; reflexivity.
Qed.

Lemma unmount_trace_quiet execute prog targets t :
  prog = ["umount"] \/ prog = ["fusermount"; "-u"] ->
  unmount_trace execute prog targets t -> quiet t.
Proof.
  unfold unmount_trace, quiet. intros Hp. destruct execute.
  - apply List.Forall_impl. intros ev (m & _ & Hev).
    eapply unmount_event_quiet; eassumption.
  - intros ->. constructor.
Qed.

Lemma vg_trace_quiet execute targets t : vg_trace execute targets t -> quiet t.
Proof.
  unfold vg_trace, quiet. destruct execute.
  - apply List.Forall_impl. intros ev (pv & vg & r & _ & [-> | ->]); reflexivity.
  - intros ->. constructor.
Qed.

Lemma sweep_trace_quiet execute folders t : sweep_trace execute folders t -> quiet t.
Proof.
  unfold sweep_trace, quiet. destruct execute.
  - induction 1 as [|f ev fs t (ok & ->) _ IH]; constructor; [reflexivity | exact IH].
  - intros ->. constructor.
Qed.

Lemma sweep_trace_rmdir folders t folder :
  sweep_trace true folders t -> In folder folders -> exists ok, In (EvRmdir folder ok) t.
Proof.
  unfold sweep_trace. induction 1 as [|f ev fs t (ok & ->) _ IH]; simpl; [intros []|].
  intros [<-|Hin].
  - exists ok. left. reflexivity.
  - destruct (IH Hin) as (ok' & Hok). exists ok'. right. exact Hok.
Qed.

Lemma sweep_trace_events execute folders t ev :
  sweep_trace execute folders t -> In ev t ->
  exists folder ok, In folder folders /\ ev = EvRmdir folder ok.
Proof.
  unfold sweep_trace. destruct execute; [|intros -> []].
  induction 1 as [|f ev' fs t (ok & ->) _ IH]; simpl; [intros []|].
  intros [<-|Hin].
  - exists f, ok. auto.
  - destruct (IH Hin) as (f' & ok' & Hf' & ->). exists f', ok'. auto.
Qed.

End Plans.

(** ** What the plan contains *)

Section PlanFacts.

Variable pattern : string -> bool.

Implicit Types (mounts : dict mount_info) (loopbacks : gmap string string).

Lemma in_bind_targets mounts m :
  In m (bind_targets pattern mounts) <->
  exists orig fs opts, In (m, (orig, fs, opts)) mounts
                       /\ PyStr.contains "bind" opts = true /\ pattern m = true.
Proof.
  unfold bind_targets. rewrite in_map_iff. split.
  - intros ([m' [[orig fs] opts]] & <- & Hin). apply filter_In in Hin as [Hin Hb].
    simpl in Hb. apply andb_true_iff in Hb as [Hb Hp]. simpl. eauto 7.
  - intros (orig & fs & opts & Hin & Hb & Hp). exists (m, (orig, fs, opts)).
    split; [reflexivity|]. apply filter_In. split; [exact Hin|].
    simpl. rewrite Hb, Hp. reflexivity.
Qed.

Lemma in_mount_targets mounts m :
  In m (mount_targets pattern mounts) <->
  exists orig fs opts, In (m, (orig, fs, opts)) mounts
                       /\ PyStr.contains "bind" opts = false
                       /\ (PyStr.contains marker orig = true \/ pattern m = true).
Proof.
  unfold mount_targets. rewrite in_map_iff. split.
  - intros ([m' [[orig fs] opts]] & <- & Hin). apply filter_In in Hin as [Hin Hb].
    simpl in Hb. apply andb_true_iff in Hb as [Hb Hp].
    apply negb_true_iff in Hb. apply orb_true_iff in Hp. simpl. eauto 7.
  - intros (orig & fs & opts & Hin & Hb & Hp). exists (m, (orig, fs, opts)).
    split; [reflexivity|]. apply filter_In. split; [exact Hin|].
    simpl. rewrite Hb. simpl. apply orb_true_iff. exact Hp.
Qed.

Lemma in_base_targets mounts m :
  In m (base_targets mounts) -> PyStr.contains marker m = true.
Proof.
  unfold base_targets. rewrite in_map_iff.
  intros ([m' info] & <- & Hin). apply filter_In in Hin as [_ Hb]. exact Hb.
Qed.

Lemma in_vg_targets loopbacks lines pv vg :
  In (pv, vg) (vg_targets loopbacks lines) <->
  In (pv, vg) (pairings lines None None) /\ image_backed loopbacks pv = true.
Proof. unfold vg_targets. rewrite filter_In. reflexivity. Qed.

Lemma in_bind_cmds targets e :
  In e (bind_cmds targets) <-> exists m, In m targets /\ e = umount_cmd m.
Proof.
  unfold bind_cmds. rewrite in_map_iff. split; intros (m & H1 & H2); eauto.
Qed.

Lemma in_mount_cmds targets e :
  In e (mount_cmds targets) <->
  exists m, In m targets /\ (e = umount_cmd m \/ e = rm_cmd m).
Proof.
  unfold mount_cmds. rewrite in_flat_map. split.
  - intros (m & Hm & [<-|[<-|[]]]); eauto.
  - intros (m & Hm & [->| ->]); exists m; simpl; auto.
Qed.

Lemma in_vg_cmds targets e :
  In e (vg_cmds targets) <->
  exists pv vg, In (pv, vg) targets /\ (e = lvchange_cmd vg \/ e = losetup_cmd pv).
Proof.
  unfold vg_cmds. rewrite in_flat_map. split.
  - intros ([pv vg] & Hm & [<-|[<-|[]]]); simpl; eauto.
  - intros (pv & vg & Hm & [->| ->]); exists (pv, vg); simpl; auto.
Qed.

Lemma in_base_cmds targets e :
  In e (base_cmds targets) <->
  exists m, In m targets /\ (e = fusermount_cmd m \/ e = rm_cmd m).
Proof.
  unfold base_cmds. rewrite in_flat_map. split.
  - intros (m & Hm & [<-|[<-|[]]]); eauto.
  - intros (m & Hm & [->| ->]); exists m; simpl; auto.
Qed.

(** The plan is the teardown entries followed by what the sweeps add. *)
Lemma plan_shape mounts loopbacks lines folders tmp_folders :
  exists added,
    plan pattern mounts loopbacks lines folders tmp_folders
    = teardown_plan pattern mounts loopbacks lines ++ added
    /\ List.NoDup added
    /\ (forall c, In c added ->
          ~ In c (teardown_plan pattern mounts loopbacks lines)
          /\ exists f, c = rm_cmd f
                       /\ (In f tmp_folders \/ (In f folders /\ pattern f = true)))
    /\ (forall f, In f tmp_folders ->
          In (rm_cmd f) (plan pattern mounts loopbacks lines folders tmp_folders))
    /\ (forall f, In f folders -> pattern f = true ->
          In (rm_cmd f) (plan pattern mounts loopbacks lines folders tmp_folders)).
Proof.
  unfold plan. set (base := teardown_plan pattern mounts loopbacks lines).
  destruct (sweep_plan_spec (List.filter pattern folders) base)
    as (a1 & -> & Hnd1 & Hnew1 & Hall1).
  destruct (sweep_plan_spec tmp_folders (base ++ a1)) as (a2 & -> & Hnd2 & Hnew2 & Hall2).
  exists (a1 ++ a2). rewrite <- app_assoc. split; [reflexivity|]. split; [|split; [|split]].
  - apply NoDup_ListNoDup, NoDup_app. split; [apply NoDup_ListNoDup; exact Hnd1|].
    split; [|apply NoDup_ListNoDup; exact Hnd2].
    intros c Hc1 Hc2. apply list_elem_of_In in Hc1, Hc2.
    destruct (Hnew2 c Hc2) as [Hn _]. apply Hn. apply in_or_app. auto.
  - intros c Hc. apply in_app_or in Hc as [Hc|Hc].
    + destruct (Hnew1 c Hc) as [Hn (f & Hf & ->)]. split; [exact Hn|].
      apply filter_In in Hf. eauto.
    + destruct (Hnew2 c Hc) as [Hn (f & Hf & ->)]. split; [|eauto].
      intros Hc'. apply Hn. apply in_or_app. auto.
  - intros f Hf. specialize (Hall2 f Hf). rewrite <- app_assoc in Hall2. exact Hall2.
  - intros f Hf Hp. apply in_or_app.
    assert (Hin : In (rm_cmd f) (base ++ a1)) by (apply Hall1, filter_In; auto).
    apply in_app_or in Hin as [Hin|Hin]; [auto|]. right. apply in_or_app. auto.
Qed.

End PlanFacts.

(** ** What a run read and did *)

Section Observations.

Variables (execute : bool) (pattern : string -> bool) (glob_pattern : string).

Implicit Types (tr t : list event).

Lemma unmount_trace_in prog targets t ev :
  unmount_trace execute prog targets t -> In ev t ->
  exists m, In m targets /\ unmount_event (prog ++ [m]) m ev.
Proof.
  unfold unmount_trace. destruct execute; [|intros -> []].
  intros Hall Hin. rewrite List.Forall_forall in Hall. auto.
Qed.

Lemma vg_trace_in targets t ev :
  vg_trace execute targets t -> In ev t ->
  exists pv vg r, In (pv, vg) targets /\
    (ev = EvRun ["lvchange"; "-a"; "n"; vg] r \/ ev = EvRun ["losetup"; "-d"; pv] r).
Proof.
  unfold vg_trace. destruct execute; [|intros -> []].
  intros Hall Hin. rewrite List.Forall_forall in Hall. auto.
Qed.

(** The listing commands and globs of the three kinds of run. *)
Lemma queries_raised_unmount r1 t :
  quiet t ->
  queries ([EvSetenv "LVM_SUPPRESS_FD_WARNINGS" "1"; EvRun ["mount"] r1] ++ t)
  = [EvRun ["mount"] r1].
Proof. intros Ht. rewrite queries_app, (queries_quiet t Ht). reflexivity. Qed.

Lemma queries_raised_base r1 t12 r2 r3 t3 t4 :
  quiet t12 -> quiet t3 -> quiet t4 ->
  queries ([EvSetenv "LVM_SUPPRESS_FD_WARNINGS" "1"; EvRun ["mount"] r1] ++ t12
             ++ [EvRun ["losetup"; "-a"] r2; EvRun ["pvdisplay"] r3] ++ t3 ++ t4)
  = [EvRun ["mount"] r1; EvRun ["losetup"; "-a"] r2; EvRun ["pvdisplay"] r3].
Proof.
  intros H12 H3 H4.
  rewrite !queries_app, (queries_quiet t12 H12), (queries_quiet t3 H3),
    (queries_quiet t4 H4).
  reflexivity.
Qed.

Lemma queries_returned r1 t12 r2 r3 t3 t4 g1 t5 g2 t6 :
  quiet t12 -> quiet t3 -> quiet t4 -> quiet t5 -> quiet t6 ->
  queries ([EvSetenv "LVM_SUPPRESS_FD_WARNINGS" "1"; EvRun ["mount"] r1] ++ t12
             ++ [EvRun ["losetup"; "-a"] r2; EvRun ["pvdisplay"] r3] ++ t3 ++ t4
             ++ [EvGlob glob_pattern g1] ++ t5 ++ [EvGlob tmp_glob g2] ++ t6)
  = [EvRun ["mount"] r1; EvRun ["losetup"; "-a"] r2; EvRun ["pvdisplay"] r3;
     EvGlob glob_pattern g1; EvGlob tmp_glob g2].
Proof.
  intros H12 H3 H4 H5 H6.
  rewrite !queries_app, (queries_quiet t12 H12), (queries_quiet t3 H3),
    (queries_quiet t4 H4), (queries_quiet t5 H5), (queries_quiet t6 H6).
  reflexivity.
Qed.

Lemma mounts_seen_queries tr r1 rest :
  queries tr = EvRun ["mount"] r1 :: rest ->
  mounts_seen tr = read_mounts (default [] r1).
Proof.
  intros Hq. unfold mounts_seen. rewrite run_lines_queries, Hq by auto. reflexivity.
Qed.

Lemma tables_seen_queries tr r1 r2 r3 rest :
  queries tr = EvRun ["mount"] r1 :: EvRun ["losetup"; "-a"] r2
                 :: EvRun ["pvdisplay"] r3 :: rest ->
  loopbacks_seen tr = read_loopbacks (default [] r2)
  /\ pv_lines_seen tr = default [] r3.
Proof.
  intros Hq. unfold loopbacks_seen, pv_lines_seen.
  rewrite (run_lines_queries ["losetup"; "-a"] tr), (run_lines_queries ["pvdisplay"] tr),
    Hq by auto.
  split; reflexivity.
Qed.

Lemma globs_seen_queries tr r1 r2 r3 g1 g2 :
  queries tr = [EvRun ["mount"] r1; EvRun ["losetup"; "-a"] r2; EvRun ["pvdisplay"] r3;
                EvGlob glob_pattern g1; EvGlob tmp_glob g2] ->
  globs tr = [(glob_pattern, g1); (tmp_glob, g2)].
Proof. intros Hq. rewrite globs_queries, Hq. reflexivity. Qed.

Lemma tmp_folders_seen_in tr g folder :
  In (tmp_glob, g) (globs tr) -> In folder g -> In folder (tmp_folders_seen tr).
Proof.
  intros Hg Hf. unfold tmp_folders_seen. apply in_flat_map.
  exists (tmp_glob, g). split; [exact Hg|]. simpl.
  destruct (decide (tmp_glob = tmp_glob)); [exact Hf | congruence].
Qed.

Lemma run_staged o tr ev :
  force_clean_run execute pattern glob_pattern o tr ->
  In ev tr -> is_query ev = false -> staged pattern tr ev.
Proof.
  intros Hrun. inversion Hrun as
    [r1 t e Ht He Ho Htr
    | r1 t12 r2 r3 t3 t4 e mounts loopbacks Ht12 Ht3 Ht4 He Ho Htr
    | r1 t12 r2 r3 t3 t4 g1 t5 g2 t6 mounts loopbacks Ht12 Ht3 Ht4 Ht5 Ht6 Ho Htr];
    intros Hin Hq.
  - pose proof (unmount_trace_quiet _ _ _ _ (or_introl eq_refl) Ht) as Hqt.
    pose proof (queries_raised_unmount r1 t Hqt) as Hqs. rewrite Htr in Hqs. rewrite Htr.
    pose proof (mounts_seen_queries _ _ _ Hqs) as Hm.
    simpl in Hin.
    destruct Hin as [<-|[<-|Hin]]; [constructor | discriminate Hq |].
    destruct (unmount_trace_in _ _ _ _ Ht Hin) as (m & Hm' & Hev).
    apply (staged_unmount pattern tr m); [rewrite Hm; exact Hm' | exact Hev].
  - pose proof (unmount_trace_quiet _ _ _ _ (or_introl eq_refl) Ht12) as Hq12.
    pose proof (vg_trace_quiet _ _ _ Ht3) as Hq3.
    pose proof (unmount_trace_quiet _ _ _ _ (or_intror eq_refl) Ht4) as Hq4.
    pose proof (queries_raised_base r1 t12 r2 r3 t3 t4 Hq12 Hq3 Hq4) as Hqs.
    rewrite Htr in Hqs. rewrite Htr.
    pose proof (mounts_seen_queries _ _ _ Hqs) as Hm.
    destruct (tables_seen_queries _ _ _ _ _ Hqs) as [Hl Hp].
    simpl in Hin.
    destruct Hin as [<-|[<-|Hin]]; [constructor | discriminate Hq |].
    apply in_app_or in Hin as [Hin|Hin].
    { destruct (unmount_trace_in _ _ _ _ Ht12 Hin) as (m & Hm' & Hev).
      apply (staged_unmount pattern tr m); [rewrite Hm; exact Hm' | exact Hev]. }
    simpl in Hin. destruct Hin as [<-|[<-|Hin]]; [discriminate Hq | discriminate Hq |].
    apply in_app_or in Hin as [Hin|Hin].
    { destruct (vg_trace_in _ _ _ Ht3 Hin) as (pv & vg & r & Hpv & Hev).
      apply (staged_vg pattern tr pv vg r); [rewrite Hl, Hp; exact Hpv | exact Hev]. }
    destruct (unmount_trace_in _ _ _ _ Ht4 Hin) as (m & Hm' & Hev).
    apply (staged_base pattern tr m); [rewrite Hm; exact Hm' | exact Hev].
  - pose proof (unmount_trace_quiet _ _ _ _ (or_introl eq_refl) Ht12) as Hq12.
    pose proof (vg_trace_quiet _ _ _ Ht3) as Hq3.
    pose proof (unmount_trace_quiet _ _ _ _ (or_intror eq_refl) Ht4) as Hq4.
    pose proof (sweep_trace_quiet _ _ _ Ht5) as Hq5.
    pose proof (sweep_trace_quiet _ _ _ Ht6) as Hq6.
    pose proof (queries_returned r1 t12 r2 r3 t3 t4 g1 t5 g2 t6 Hq12 Hq3 Hq4 Hq5 Hq6)
      as Hqs.
    rewrite Htr in Hqs. rewrite Htr.
    pose proof (mounts_seen_queries _ _ _ Hqs) as Hm.
    destruct (tables_seen_queries _ _ _ _ _ Hqs) as [Hl Hp].
    pose proof (globs_seen_queries _ _ _ _ _ _ Hqs) as Hg.
    simpl in Hin.
    destruct Hin as [<-|[<-|Hin]]; [constructor | discriminate Hq |].
    apply in_app_or in Hin as [Hin|Hin].
    { destruct (unmount_trace_in _ _ _ _ Ht12 Hin) as (m & Hm' & Hev).
      apply (staged_unmount pattern tr m); [rewrite Hm; exact Hm' | exact Hev]. }
    simpl in Hin. destruct Hin as [<-|[<-|Hin]]; [discriminate Hq | discriminate Hq |].
    apply in_app_or in Hin as [Hin|Hin].
    { destruct (vg_trace_in _ _ _ Ht3 Hin) as (pv & vg & r & Hpv & Hev).
      apply (staged_vg pattern tr pv vg r); [rewrite Hl, Hp; exact Hpv | exact Hev]. }
    apply in_app_or in Hin as [Hin|Hin].
    { destruct (unmount_trace_in _ _ _ _ Ht4 Hin) as (m & Hm' & Hev).
      apply (staged_base pattern tr m); [rewrite Hm; exact Hm' | exact Hev]. }
    simpl in Hin. destruct Hin as [<-|Hin]; [discriminate Hq|].
    apply in_app_or in Hin as [Hin|Hin].
    { destruct (sweep_trace_events _ _ _ _ Ht5 Hin) as (f & ok & Hf & ->).
      apply staged_sweep. left. apply filter_In in Hf as [_ Hf]. exact Hf. }
    simpl in Hin. destruct Hin as [<-|Hin]; [discriminate Hq|].
    destruct (sweep_trace_events _ _ _ _ Ht6 Hin) as (f & ok & Hf & ->).
    apply staged_sweep. right. apply (tmp_folders_seen_in tr g2); [|exact Hf].
    rewrite Hg. right. left. reflexivity.
Qed.

End Observations.

(** ** The resources a run takes for its own *)

Section Ownership.

Variables (pattern : string -> bool) (tr : list event).

Lemma owned_pattern r : pattern r = true -> owned pattern tr r = true.
Proof. intros H. unfold owned. rewrite H. reflexivity. Qed.

Lemma owned_marker r : PyStr.contains marker r = true -> owned pattern tr r = true.
Proof. intros H. unfold owned. rewrite H, orb_true_r. reflexivity. Qed.

Lemma owned_source r orig fs opts :
  In (r, (orig, fs, opts)) (mounts_seen tr) -> PyStr.contains marker orig = true ->
  owned pattern tr r = true.
Proof.
  intros Hin Hm. unfold owned.
  apply orb_true_iff; left. apply orb_true_iff; left. apply orb_true_iff; left.
  apply orb_true_iff; right. apply existsb_exists. exists (r, (orig, fs, opts)).
  split; [exact Hin|]. simpl. rewrite String.eqb_refl, Hm. reflexivity.
Qed.

Lemma owned_loopback r : image_backed (loopbacks_seen tr) r = true -> owned pattern tr r = true.
Proof.
  intros H. unfold owned.
  apply orb_true_iff; left. apply orb_true_iff; left. apply orb_true_iff; right. exact H.
Qed.

Lemma owned_volume_group pv vg :
  In (pv, vg) (pairings (pv_lines_seen tr) None None) ->
  image_backed (loopbacks_seen tr) pv = true -> owned pattern tr vg = true.
Proof.
  intros Hin Hb. unfold owned.
  apply orb_true_iff; left. apply orb_true_iff; right.
  apply existsb_exists. exists (pv, vg). split; [exact Hin|].
  simpl. rewrite String.eqb_refl, Hb. reflexivity.
Qed.

Lemma owned_tmp_folder r : In r (tmp_folders_seen tr) -> owned pattern tr r = true.
Proof.
  intros H. unfold owned. apply orb_true_iff; right.
  apply bool_decide_eq_true, list_elem_of_In. exact H.
Qed.

Lemma owned_unmount_target m :
  In m (bind_targets pattern (mounts_seen tr) ++ mount_targets pattern (mounts_seen tr)) ->
  owned pattern tr m = true.
Proof.
  intros Hin. apply in_app_or in Hin as [Hin|Hin].
  - apply in_bind_targets in Hin as (orig & fs & opts & _ & _ & Hp).
    apply owned_pattern. exact Hp.
  - apply in_mount_targets in Hin as (orig & fs & opts & Hin & _ & [Hm|Hp]).
    + eapply owned_source; eassumption.
    + apply owned_pattern. exact Hp.
Qed.

Lemma owned_vg_target pv vg :
  In (pv, vg) (vg_targets (loopbacks_seen tr) (pv_lines_seen tr)) ->
  owned pattern tr vg = true /\ owned pattern tr pv = true.
Proof.
  intros Hin. apply in_vg_targets in Hin as [Hin Hb]. split.
  - eapply owned_volume_group; eassumption.
  - apply owned_loopback. exact Hb.
Qed.

Lemma owned_base_target m :
  In m (base_targets (mounts_seen tr)) -> owned pattern tr m = true.
Proof. intros Hin. apply owned_marker. eapply in_base_targets. exact Hin. Qed.

(** Every staged operation releases a resource that is owned. *)
Lemma staged_owned ev r : staged pattern tr ev -> releases ev r -> owned pattern tr r = true.
Proof.
  intros Hst Hrel. destruct Hst as [|m ev Hm Hev|pv vg out ev Hin Hev|m ev Hm Hev|f ok Hf].
  - destruct Hrel.
  - destruct Hev; simpl in Hrel; try contradiction.
    + destruct Hrel as [H|[H|[H|H]]]; try discriminate H.
      injection H as <-. apply owned_unmount_target. exact Hm.
    + subst r. apply owned_unmount_target. exact Hm.
    + subst r. apply owned_unmount_target. exact Hm.
  - apply owned_vg_target in Hin as [Hvg Hpv].
    destruct Hev as [-> | ->]; simpl in Hrel;
      destruct Hrel as [H|[H|[H|H]]]; try discriminate H; injection H as <-; assumption.
  - destruct Hev; simpl in Hrel; try contradiction.
    + destruct Hrel as [H|[H|[H|H]]]; try discriminate H.
      injection H as <-. apply owned_base_target. exact Hm.
    + subst r. apply owned_base_target. exact Hm.
    + subst r. apply owned_base_target. exact Hm.
  - simpl in Hrel. subst r. destruct Hf as [Hp|Hin].
    + apply owned_pattern. exact Hp.
    + apply owned_tmp_folder. exact Hin.
Qed.

(** [os.remove] is only used on the [avfs] entry of an owned mountpoint. *)
Lemma staged_remove path ok :
  staged pattern tr (EvRemove path ok) ->
  exists m, path = PyStr.path_join m "avfs" /\ owned pattern tr m = true.
Proof.
  intros Hst. inversion Hst as [|m ev Hm Hev|pv vg out ev Hin Hev|m ev Hm Hev|f b Hf]; subst.
  - inversion Hev; subst. exists m. split; [reflexivity|].
    apply owned_unmount_target. exact Hm.
  - destruct Hev as [H|H]; discriminate H.
  - inversion Hev; subst. exists m. split; [reflexivity|].
    apply owned_base_target. exact Hm.
Qed.

(** Every entry of the plan names a resource that is owned. *)
Lemma plan_owned folders tmp_folders e :
  (forall f, In f tmp_folders -> In f (tmp_folders_seen tr)) ->
  In e (plan pattern (mounts_seen tr) (loopbacks_seen tr) (pv_lines_seen tr)
          folders tmp_folders) ->
  exists r, names e r /\ owned pattern tr r = true.
Proof.
  intros Htmp Hin.
  destruct (plan_shape pattern (mounts_seen tr) (loopbacks_seen tr) (pv_lines_seen tr)
              folders tmp_folders) as (added & Heq & _ & Hnew & _).
  rewrite Heq in Hin. unfold teardown_plan in Hin.
  repeat (apply in_app_or in Hin as [Hin|Hin]).
  - apply in_bind_cmds in Hin as (m & Hm & ->). exists m. split; [left; reflexivity|].
    apply owned_unmount_target, in_or_app. auto.
  - apply in_mount_cmds in Hin as (m & Hm & He). exists m. split.
    + destruct He as [-> | ->]; unfold names; auto.
    + apply owned_unmount_target, in_or_app. auto.
  - apply in_vg_cmds in Hin as (pv & vg & Hm & He).
    apply owned_vg_target in Hm as [Hvg Hpv].
    destruct He as [-> | ->]; [exists vg | exists pv]; unfold names; auto 6.
  - apply in_base_cmds in Hin as (m & Hm & He). exists m. split.
    + destruct He as [-> | ->]; unfold names; auto.
    + apply owned_base_target. exact Hm.
  - destruct (Hnew e Hin) as [_ (f & -> & Hf)]. exists f. split; [unfold names; auto|].
    destruct Hf as [Hf|[_ Hp]].
    + apply owned_tmp_folder. auto.
    + apply owned_pattern. exact Hp.
Qed.

End Ownership.

(** ** Properties of [force_clean] *)

Section ForceCleanProperties.

Context {world : Type} `{!OS world}.

Variables (execute : bool) (pattern : string -> bool) (glob_pattern : string).

Implicit Types (s : state world) (tr : list event) (cmds : list string).

(** A run that returns has read the three tables and the two globs, and
    returns the plan for them. *)
Lemma force_clean_returned s cmds s' tr :
  force_clean execute pattern glob_pattern s = (Return cmds, s', tr) ->
  exists r1 r2 r3 g1 g2,
    queries tr = [EvRun ["mount"] r1; EvRun ["losetup"; "-a"] r2; EvRun ["pvdisplay"] r3;
                  EvGlob glob_pattern g1; EvGlob tmp_glob g2]
    /\ cmds = plan pattern (read_mounts (default [] r1)) (read_loopbacks (default [] r2))
                (default [] r3) g1 g2
    /\ (execute = true -> forall f, In f g2 -> exists ok, In (EvRmdir f ok) tr)
    /\ (execute = false -> tr = EvSetenv "LVM_SUPPRESS_FD_WARNINGS" "1" :: queries tr).
Proof.
  intros H. apply force_clean_runs in H.
  inversion H as
    [ | | r1 t12 r2 r3 t3 t4 g1 t5 g2 t6 mounts loopbacks Ht12 Ht3 Ht4 Ht5 Ht6 Ho Htr].
  exists r1, r2, r3, g1, g2.
  pose proof (unmount_trace_quiet _ _ _ _ (or_introl eq_refl) Ht12) as Hq12.
  pose proof (vg_trace_quiet _ _ _ Ht3) as Hq3.
  pose proof (unmount_trace_quiet _ _ _ _ (or_intror eq_refl) Ht4) as Hq4.
  pose proof (sweep_trace_quiet _ _ _ Ht5) as Hq5.
  pose proof (sweep_trace_quiet _ _ _ Ht6) as Hq6.
  pose proof (queries_returned glob_pattern r1 t12 r2 r3 t3 t4 g1 t5 g2 t6
                Hq12 Hq3 Hq4 Hq5 Hq6) as Hqs.
  split; [exact Hqs|]. split; [reflexivity|]. split.
  - intros -> f Hf. destruct (sweep_trace_rmdir _ _ _ Ht6 Hf) as (ok & Hok).
    exists ok. repeat (apply in_or_app; right). exact Hok.
  - intros ->. rewrite Hqs. unfold unmount_trace, vg_trace, sweep_trace in *.
    subst t12 t3 t4 t5 t6. reflexivity.
Qed.

(** What the run read, in terms of its listing events. *)
Lemma seen_returned tr r1 r2 r3 g1 g2 :
  queries tr = [EvRun ["mount"] r1; EvRun ["losetup"; "-a"] r2; EvRun ["pvdisplay"] r3;
                EvGlob glob_pattern g1; EvGlob tmp_glob g2] ->
  mounts_seen tr = read_mounts (default [] r1)
  /\ loopbacks_seen tr = read_loopbacks (default [] r2)
  /\ pv_lines_seen tr = default [] r3
  /\ globs tr = [(glob_pattern, g1); (tmp_glob, g2)].
Proof.
  intros Hq. split; [eapply mounts_seen_queries; exact Hq|].
  destruct (tables_seen_queries _ _ _ _ _ Hq) as [Hl Hp].
  split; [exact Hl|]. split; [exact Hp|].
  eapply globs_seen_queries. exact Hq.
Qed.

(** C2. A resource that carries no signal (its path does not match the
    caller's pattern, was not returned by the glob of
    [/tmp/image_mounter_*], does not contain the marker, and neither its
    mount source nor its loopback backing file nor the backing file of a
    physical volume of it does) is named by no entry of the returned
    list and released by no operation of the run, in either mode; the
    only other file operation, [os.remove], is applied to the [avfs]
    entry of mountpoints that carry a signal. *)
Theorem unowned_untouched s o s' tr :
  force_clean execute pattern glob_pattern s = (o, s', tr) ->
  forall r, owned pattern tr r = false ->
    (forall cmds e, o = Return cmds -> In e cmds -> ~ names e r)
    /\ (forall ev, In ev tr -> ~ releases ev r)
    /\ (forall path ok, In (EvRemove path ok) tr ->
          exists m, path = PyStr.path_join m "avfs" /\ owned pattern tr m = true).
Proof.
  intros Hrun r Hr. split; [|split].
  - intros cmds e -> He Hn.
    destruct (force_clean_returned _ _ _ _ Hrun) as (r1 & r2 & r3 & g1 & g2 & Hq & -> & _).
    destruct (seen_returned _ _ _ _ _ _ Hq) as (Hm & Hl & Hp & Hg).
    rewrite <- Hm, <- Hl, <- Hp in He.
    apply plan_owned in He as (r0 & Hn0 & Ho).
    + rewrite (names_inj _ _ _ Hn Hn0) in Hr. congruence.
    + intros f Hf. apply (tmp_folders_seen_in tr g2); [|exact Hf].
      rewrite Hg. right. left. reflexivity.
  - intros ev Hin Hrel.
    assert (Hq : is_query ev = false).
    { destruct ev as [k v | a out | p g | p b | p b | p b | ]; simpl in Hrel;
        try contradiction; try reflexivity.
      destruct Hrel as [-> | [-> | [-> | ->]]]; reflexivity. }
    apply force_clean_runs in Hrun.
    pose proof (run_staged _ _ _ _ _ _ Hrun Hin Hq) as Hst.
    rewrite (staged_owned _ _ _ _ Hst Hrel) in Hr. discriminate Hr.
  - intros path ok Hin. apply force_clean_runs in Hrun.
    apply (staged_remove pattern tr path ok).
    eapply run_staged; [exact Hrun | exact Hin | reflexivity].
Qed.

(** C1, as the code has it. In the returned list, the [umount] entry of
    a mountpoint that is mounted with [bind] among its options and
    matches the caller's pattern comes strictly before every [umount]
    entry of a mountpoint without [bind], every [lvchange -a n] entry and
    every [losetup -d] entry (and before every [fusermount -u] and
    [rm -Rf] entry). The [umount] entry is the only entry that is
    enqueued for it first: when its path carries the marker, lines
    207-208 enqueue [fusermount -u] and [rm -Rf] for it after all of
    these. *)
Theorem bind_unmounts_first s cmds s' tr :
  force_clean execute pattern glob_pattern s = (Return cmds, s', tr) ->
  forall (i j : nat) (mountpoint orig fs opts e : string),
    In (mountpoint, (orig, fs, opts)) (mounts_seen tr) ->
    PyStr.contains "bind" opts = true ->
    pattern mountpoint = true ->
    cmds !! i = Some (umount_cmd mountpoint) ->
    cmds !! j = Some e ->
    (exists m' orig' fs' opts',
        In (m', (orig', fs', opts')) (mounts_seen tr)
        /\ PyStr.contains "bind" opts' = false /\ e = umount_cmd m')
    \/ (exists vgname, e = lvchange_cmd vgname)
    \/ (exists pvname, e = losetup_cmd pvname)
    \/ (exists m', e = fusermount_cmd m')
    \/ (exists path, e = rm_cmd path) ->
    i < j.
Proof.
  intros Hrun i j m orig fs opts e Hin Hbind Hpat Hi Hj He.
  destruct (force_clean_returned _ _ _ _ Hrun) as (r1 & r2 & r3 & g1 & g2 & Hq & -> & _).
  destruct (seen_returned _ _ _ _ _ _ Hq) as (Hm & _).
  rewrite Hm in *.
  set (mounts := read_mounts (default [] r1)) in *.
  pose proof (read_mounts_nodup (default [] r1)) as Hnd. fold mounts in Hnd.
  destruct (plan_shape pattern mounts (read_loopbacks (default [] r2)) (default [] r3) g1 g2)
    as (added & Heq & _ & Hnew & _).
  rewrite Heq in Hi, Hj. unfold teardown_plan in Hi, Hj.
  rewrite <- !app_assoc in Hi, Hj.
  set (binds := bind_cmds (bind_targets pattern mounts)) in *.
  (* a bind mountpoint and a mountpoint without bind are different keys *)
  assert (Hkeys : forall m' orig' fs' opts',
             In (m', (orig', fs', opts')) mounts ->
             PyStr.contains "bind" opts' = false -> m' <> m).
  { intros m' orig' fs' opts' Hin' Hb' ->.
    pose proof (dict_functional _ _ _ _ Hnd Hin Hin') as [= _ _ ->]. congruence. }
  (* the entry at [i] is among the bind entries *)
  assert (Hlt : i < length binds).
  { destruct (Nat.lt_ge_cases i (length binds)) as [|Hge]; [assumption|exfalso].
    rewrite lookup_app_r in Hi by exact Hge.
    apply list_elem_of_lookup_2, list_elem_of_In in Hi.
    repeat (apply in_app_or in Hi as [Hi|Hi]).
    - apply in_mount_cmds in Hi as (m' & Hm' & [H|H]); [|discriminate H].
      apply umount_cmd_inj in H. subst m'.
      apply in_mount_targets in Hm' as (orig' & fs' & opts' & Hin' & Hb' & _).
      exact (Hkeys _ _ _ _ Hin' Hb' eq_refl).
    - apply in_vg_cmds in Hi as (pv & vg & _ & [H|H]); discriminate H.
    - apply in_base_cmds in Hi as (m' & _ & [H|H]); discriminate H.
    - destruct (Hnew _ Hi) as [_ (f & H & _)]. discriminate H. }
  (* the entry at [j] is not *)
  destruct (Nat.lt_ge_cases j (length binds)) as [Hj'|Hge]; [exfalso | lia].
  rewrite lookup_app_l in Hj by exact Hj'.
  apply list_elem_of_lookup_2, list_elem_of_In in Hj.
  apply in_bind_cmds in Hj as (b & Hb & ->).
  apply in_bind_targets in Hb as (origb & fsb & optsb & Hinb & Hbb & _).
  destruct He as [(m' & orig' & fs' & opts' & Hin' & Hb' & H)
                 | [(vg & H) | [(pv & H) | [(m' & H) | (path & H)]]]];
    try discriminate H.
  apply umount_cmd_inj in H. subst m'.
  pose proof (dict_functional _ _ _ _ Hnd Hinb Hin') as [= _ _ ->]. congruence.
Qed.

(** C5, as the code has it. The list is the entries of lines 152-210
    followed by the entries that the two sweeps of lines 213-231 add; the
    added entries are [rm -Rf] entries, pairwise distinct, and none of
    them is among the earlier entries. So the sweeps never enqueue
    an entry twice, and the list has no duplicates if lines 152-210
    enqueued none. *)
Theorem sweeps_add_new_entries s cmds s' tr :
  force_clean execute pattern glob_pattern s = (Return cmds, s', tr) ->
  let teardown :=
    teardown_plan pattern (mounts_seen tr) (loopbacks_seen tr) (pv_lines_seen tr) in
  exists added,
    cmds = teardown ++ added
    /\ List.NoDup added
    /\ (forall c, In c added -> ~ In c teardown /\ exists folder, c = rm_cmd folder)
    /\ (List.NoDup teardown -> List.NoDup cmds).
Proof.
  intros Hrun teardown.
  destruct (force_clean_returned _ _ _ _ Hrun) as (r1 & r2 & r3 & g1 & g2 & Hq & -> & _).
  destruct (seen_returned _ _ _ _ _ _ Hq) as (Hm & Hl & Hp & _).
  subst teardown. rewrite Hm, Hl, Hp.
  destruct (plan_shape pattern (read_mounts (default [] r1)) (read_loopbacks (default [] r2))
              (default [] r3) g1 g2) as (added & Heq & Hnd & Hnew & _).
  exists added. split; [exact Heq|]. split; [exact Hnd|]. split.
  - intros c Hc. destruct (Hnew c Hc) as [Hn (f & -> & _)]. eauto.
  - intros Hbase. rewrite Heq. apply NoDup_ListNoDup, NoDup_app.
    split; [apply NoDup_ListNoDup; exact Hbase|].
    split; [|apply NoDup_ListNoDup; exact Hnd].
    intros c Hc1 Hc2. apply list_elem_of_In in Hc1, Hc2.
    destruct (Hnew c Hc2) as [Hn _]. auto.
Qed.

(** C6. When the pair of [/dev/loop0] and [vg1] is the only pair of the
    volume-group table the run read whose physical volume the loopback
    table maps to a backing file with the marker (such as
    [/tmp/image_mounter_1/file.dd]), the returned list contains
    [lvchange -a n vg1] immediately followed by [losetup -d /dev/loop0],
    and no other [lvchange] or [losetup] entry. Loopback devices and
    volume groups that have nothing to do with a disk image may be there,
    and so may any mounts and folders. *)
Theorem single_volume_group_chain s cmds s' tr :
  force_clean execute pattern glob_pattern s = (Return cmds, s', tr) ->
  vg_targets (loopbacks_seen tr) (pv_lines_seen tr) = [("/dev/loop0", "vg1")] ->
  exists before after,
    cmds = before ++ [lvchange_cmd "vg1"; losetup_cmd "/dev/loop0"] ++ after
    /\ forall e, In e (before ++ after) ->
         forall x, e <> lvchange_cmd x /\ e <> losetup_cmd x.
Proof.
  intros Hrun Hchain.
  destruct (force_clean_returned _ _ _ _ Hrun) as (r1 & r2 & r3 & g1 & g2 & Hq & -> & _).
  destruct (seen_returned _ _ _ _ _ _ Hq) as (Hm & Hl & Hp & _).
  rewrite Hl, Hp in Hchain.
  destruct (plan_shape pattern (read_mounts (default [] r1)) (read_loopbacks (default [] r2))
              (default [] r3) g1 g2) as (added & Heq & _ & Hnew & _).
  set (mounts := read_mounts (default [] r1)) in *.
  exists (bind_cmds (bind_targets pattern mounts) ++ mount_cmds (mount_targets pattern mounts)),
         (base_cmds (base_targets mounts) ++ added).
  split.
  - rewrite Heq. unfold teardown_plan. fold mounts. rewrite Hchain, <- !app_assoc.
    reflexivity.
  - intros e He x. repeat (apply in_app_or in He as [He|He]).
    + apply in_bind_cmds in He as (m & _ & ->). split; discriminate.
    + apply in_mount_cmds in He as (m & _ & [-> | ->]); split; discriminate.
    + apply in_base_cmds in He as (m & _ & [-> | ->]); split; discriminate.
    + destruct (Hnew e He) as [_ (f & -> & _)]. split; discriminate.
Qed.

(** C7, as the code has it. For every folder that
    [glob.glob("/tmp/image_mounter_*")] returned at line 223, the
    returned list contains [rm -Rf folder], whether or not the caller's
    pattern matches the folder; and in execute mode the run calls
    [os.rmdir(folder)], which removes an empty directory only. *)
Theorem tmp_folders_swept s cmds s' tr :
  force_clean execute pattern glob_pattern s = (Return cmds, s', tr) ->
  exists folders tmp_folders,
    globs tr = [(glob_pattern, folders); (tmp_glob, tmp_folders)]
    /\ forall folder, In folder tmp_folders ->
         In (rm_cmd folder) cmds
         /\ (execute = true -> exists ok, In (EvRmdir folder ok) tr).
Proof.
  intros Hrun.
  destruct (force_clean_returned _ _ _ _ Hrun)
    as (r1 & r2 & r3 & g1 & g2 & Hq & -> & Hrm & _).
  destruct (seen_returned _ _ _ _ _ _ Hq) as (_ & _ & _ & Hg).
  exists g1, g2. split; [exact Hg|]. intros folder Hf. split.
  - destruct (plan_shape pattern (read_mounts (default [] r1))
                (read_loopbacks (default [] r2)) (default [] r3) g1 g2)
      as (added & _ & _ & _ & Hall & _).
    apply Hall. exact Hf.
  - intros He. apply Hrm; assumption.
Qed.

End ForceCleanProperties.

(** ** A pattern that compiles *)

Section PatternArgument.

Context {world : Type} `{!OS world}.

Variables (execute : bool) (glob_pattern : string).

Implicit Types (s : state world) (tr t : list event).

Lemma bind_ret {A B : Type} (a : A) (k : A -> M world B) s : bind (ret a) k s = k a s.
Proof. unfold bind, ret. destruct (k a s) as [[o s2] t2]. reflexivity. Qed.

Lemma bind_ext {A B : Type} (m m' : M world A) (k k' : A -> M world B) s :
  m s = m' s -> (forall a s1, k a s1 = k' a s1) -> bind m k s = bind m' k' s.
Proof.
  unfold bind. intros -> Hk.
  destruct (m' s) as [[[a|e] s1] t1]; [rewrite Hk|]; reflexivity.
Qed.

Lemma unmount_binds_re_compiled f items commands s :
  unmount_binds_re execute (Compiled f) items commands s
  = unmount_binds execute f items commands s.
Proof.
  revert commands s.
  induction items as [|[mountpoint [[orig fs] opts]] items IH]; intros commands s;
    [reflexivity|].
  cbn [unmount_binds_re unmount_binds re_match].
  destruct (PyStr.contains "bind" opts); rewrite bind_ret; cbn [andb]; [|apply IH].
  destruct (f mountpoint); [|apply IH].
  apply bind_ext; [reflexivity|]. intros a s1. apply IH.
Qed.

Lemma unmount_mounts_re_compiled f items commands s :
  unmount_mounts_re execute (Compiled f) items commands s
  = unmount_mounts execute f items commands s.
Proof.
  revert commands s.
  induction items as [|[mountpoint [[orig fs] opts]] items IH]; intros commands s;
    [reflexivity|].
  cbn [unmount_mounts_re unmount_mounts re_match].
  destruct (PyStr.contains "bind" opts); cbn [negb andb]; [rewrite bind_ret; apply IH|].
  destruct (PyStr.contains marker orig); cbn [orb]; rewrite bind_ret.
  - apply bind_ext; [reflexivity|]. intros a s1. apply IH.
  - destruct (f mountpoint); [|apply IH].
    apply bind_ext; [reflexivity|]. intros a s1. apply IH.
Qed.

Lemma sweep_glob_re_compiled f folders commands s :
  sweep_glob_re execute (Compiled f) folders commands s
  = sweep_glob execute f folders commands s.
Proof.
  revert commands s. induction folders as [|folder folders IH]; intros commands s;
    [reflexivity|].
  cbn [sweep_glob_re sweep_glob re_match]. rewrite bind_ret.
  destruct (f folder); [|apply IH].
  apply bind_ext; [reflexivity|]. intros a s1. apply IH.
Qed.

(** With a pattern that compiles, [force_clean_re] is [force_clean] on
    the predicate of the pattern. *)
Lemma force_clean_re_compiled f s :
  force_clean_re execute (Compiled f) glob_pattern s = force_clean execute f glob_pattern s.
Proof.
  unfold force_clean_re, force_clean.
  apply bind_ext; [reflexivity|]. intros _ s1.
  apply bind_ext; [reflexivity|]. intros mounts s2.
  apply bind_ext; [apply unmount_binds_re_compiled|]. intros c1 s3.
  apply bind_ext; [apply unmount_mounts_re_compiled|]. intros c2 s4.
  apply bind_ext; [reflexivity|]. intros loopbacks s5.
  apply bind_ext; [reflexivity|]. intros c3 s6.
  apply bind_ext; [reflexivity|]. intros c4 s7.
  apply bind_ext; [reflexivity|]. intros g1 s8.
  apply bind_ext; [apply sweep_glob_re_compiled|]. intros c5 s9.
  reflexivity.
Qed.

(** *** Folders that are gone when the sweeps look *)

Lemma add_unique_keeps commands f c : In c commands -> In c (add_unique commands f).
Proof.
  unfold add_unique. destruct (decide _); [auto|]. intros Hc. apply in_or_app. auto.
Qed.

Lemma sweep_plan_keeps folders commands c :
  In c commands -> In c (sweep_plan folders commands).
Proof.
  revert commands. induction folders as [|f folders IH]; intros commands Hc; [exact Hc|].
  apply IH. apply add_unique_keeps. exact Hc.
Qed.

(** A sweep adds nothing for a folder whose [rm -Rf] entry is in the
    list: leaving such folders out gives the same list. *)
Lemma sweep_plan_absorbs keep folders commands :
  (forall f, In f folders -> keep f = false -> In (rm_cmd f) commands) ->
  sweep_plan (List.filter keep folders) commands = sweep_plan folders commands.
Proof.
  revert commands. induction folders as [|f folders IH]; intros commands Hdrop;
    [reflexivity|].
  cbn [List.filter]. destruct (keep f) eqn:Hk.
  - cbn [sweep_plan fold_left]. apply IH. intros f' Hf' Hk'.
    apply add_unique_keeps. apply Hdrop; [right; exact Hf' | exact Hk'].
  - cbn [sweep_plan fold_left].
    assert (Hsame : add_unique commands f = commands).
    { unfold add_unique. destruct (decide _) as [|Hn]; [reflexivity|].
      destruct Hn. apply list_elem_of_In. apply Hdrop; [left; reflexivity | exact Hk]. }
    rewrite Hsame. apply IH. intros f' Hf' Hk'. apply Hdrop; [right; exact Hf' | exact Hk'].
Qed.

Lemma filter_filter_swap {A : Type} (f g : A -> bool) (l : list A) :
  List.filter f (List.filter g l) = List.filter g (List.filter f l).
Proof.
  induction l as [|x l IH]; [reflexivity|]. cbn [List.filter].
  destruct (g x) eqn:Hg, (f x) eqn:Hf; cbn [List.filter]; rewrite ?Hg, ?Hf, IH; reflexivity.
Qed.

Lemma removed_mountpoint_listed pattern mounts loopbacks lines f :
  In f (removed_mountpoints pattern mounts) ->
  In (rm_cmd f) (teardown_plan pattern mounts loopbacks lines).
Proof.
  unfold removed_mountpoints, teardown_plan. intros Hf.
  apply in_app_or in Hf as [Hf|Hf].
  - apply in_or_app. right. apply in_or_app. left.
    apply in_mount_cmds. exists f. auto.
  - apply in_or_app. right. apply in_or_app. right. apply in_or_app. right.
    apply in_base_cmds. exists f. auto.
Qed.

(** The list of an execute run whose globs miss folders of removed
    mountpoints, and in the second sweep folders of the first. *)
Lemma plan_without_removed pattern mounts loopbacks lines g1 g2 keep1 keep2 :
  (forall f, In f g1 -> keep1 f = false -> pattern f = true ->
     In f (removed_mountpoints pattern mounts)) ->
  (forall f, In f g2 -> keep2 f = false ->
     In f (removed_mountpoints pattern mounts)
     \/ (In f (List.filter keep1 g1) /\ pattern f = true)) ->
  plan pattern mounts loopbacks lines (List.filter keep1 g1) (List.filter keep2 g2)
  = plan pattern mounts loopbacks lines g1 g2.
Proof.
  intros H1 H2. unfold plan.
  set (base := teardown_plan pattern mounts loopbacks lines).
  assert (Hfirst : sweep_plan (List.filter pattern (List.filter keep1 g1)) base
                   = sweep_plan (List.filter pattern g1) base).
  { rewrite filter_filter_swap. apply sweep_plan_absorbs.
    intros f Hf Hk. apply filter_In in Hf as [Hf Hp].
    apply removed_mountpoint_listed. auto. }
  rewrite <- Hfirst. apply sweep_plan_absorbs.
  intros f Hf Hk. destruct (H2 f Hf Hk) as [Hr | [Hin Hp]].
  - apply sweep_plan_keeps. apply removed_mountpoint_listed. exact Hr.
  - destruct (sweep_plan_spec (List.filter pattern (List.filter keep1 g1)) base)
      as (added & -> & _ & _ & Hall).
    apply Hall. apply filter_In. auto.
Qed.

End PatternArgument.

Section DryRun.

Context {world : Type} `{!OS world}.

Variables (pattern : string -> bool) (glob_pattern : string).

(** A dry run always returns. *)
Lemma dry_run_returns (s : state world) o s' tr :
  force_clean false pattern glob_pattern s = (o, s', tr) -> exists cmds, o = Return cmds.
Proof.
  intros H. apply force_clean_runs in H.
  inversion H as [? ? ? ? He | ? ? ? ? ? ? ? ? ? ? ? ? He | ]; try discriminate He.
  eauto.
Qed.

(** C4, as the code has it, for a pattern that [re] can compile. A dry
    run returns a list after exactly six interactions with the system: it
    sets [LVM_SUPPRESS_FD_WARNINGS] in the environment of the process,
    runs the three listing commands [mount], [losetup -a] and [pvdisplay],
    and globs twice; it runs no other command and removes nothing. A run
    in execute mode that returns, having read the same from the three
    listing commands, returns the same list also when its globs miss
    folders that the dry run's globs returned: mountpoints that
    [clean_unmount] was asked to remove at lines 163 and 210 and, for the
    second glob, folders that the first sweep handled; the folders that are
    left come in the same order. *)
Theorem dry_run_equivalence (s : state world) :
  exists cmds s' r1 r2 r3 g1 g2,
    force_clean_re false (Compiled pattern) glob_pattern s
    = (Return cmds, s',
       [EvSetenv "LVM_SUPPRESS_FD_WARNINGS" "1"; EvRun ["mount"] r1;
        EvRun ["losetup"; "-a"] r2; EvRun ["pvdisplay"] r3;
        EvGlob glob_pattern g1; EvGlob tmp_glob g2])
    /\ forall (s2 : state world) cmds2 s2' tr2 (keep1 keep2 : string -> bool),
         force_clean_re true (Compiled pattern) glob_pattern s2 = (Return cmds2, s2', tr2) ->
         queries tr2 = [EvRun ["mount"] r1; EvRun ["losetup"; "-a"] r2;
                        EvRun ["pvdisplay"] r3;
                        EvGlob glob_pattern (List.filter keep1 g1);
                        EvGlob tmp_glob (List.filter keep2 g2)] ->
         (forall f, In f g1 -> keep1 f = false -> pattern f = true ->
            In f (removed_mountpoints pattern (mounts_seen tr2))) ->
         (forall f, In f g2 -> keep2 f = false ->
            In f (removed_mountpoints pattern (mounts_seen tr2))
            \/ (In f (List.filter keep1 g1) /\ pattern f = true)) ->
         cmds2 = cmds.
Proof.
  rewrite force_clean_re_compiled.
  destruct (force_clean false pattern glob_pattern s) as [[o s'] tr] eqn:Hdry.
  destruct (dry_run_returns _ _ _ _ Hdry) as (cmds & ->).
  destruct (force_clean_returned _ _ _ _ _ _ _ Hdry)
    as (r1 & r2 & r3 & g1 & g2 & Hq & Hcmds & _ & Htr).
  specialize (Htr eq_refl). rewrite Hq in Htr.
  exists cmds, s', r1, r2, r3, g1, g2. split; [rewrite Htr; reflexivity|].
  intros s2 cmds2 s2' tr2 keep1 keep2 Hexe Hq2 Hdrop1 Hdrop2.
  rewrite force_clean_re_compiled in Hexe.
  destruct (force_clean_returned _ _ _ _ _ _ _ Hexe)
    as (q1 & q2 & q3 & h1 & h2 & Hq2' & Hcmds2 & _).
  destruct (seen_returned _ _ _ _ _ _ _ Hq2') as (Hm & _).
  rewrite Hq2 in Hq2'. injection Hq2' as <- <- <- <- <-.
  rewrite Hm in Hdrop1, Hdrop2.
  rewrite Hcmds, Hcmds2. apply plan_without_removed; assumption.
Qed.

End DryRun.

(** ** Properties of [clean_unmount] *)

Section CleanUnmountProperties.

Context {world : Type} `{!OS world}.

Implicit Types (s : state world) (tr : list event).

(** Lines 22-34 remove no directory and unlink nothing. *)
Lemma perform_unmount_keeps cmd mountpoint s o s' tr :
  perform_unmount cmd mountpoint s = (o, s', tr) ->
  forall path ok, ~ In (EvRmdir path ok) tr /\ ~ In (EvUnlink path ok) tr.
Proof.
  cbv [perform_unmount bind query remove file_op try_except list_read
         check_call_ check_output_ subprocess ret].
  destruct (os_exists _ (st_world s)).
  - destruct (os_remove _ (st_world s)) as [[] w]; intros [= <- <- <-] path ok; simpl;
      split; intros [H|[]]; discriminate H.
  - destruct (os_islink _ (st_world s)).
    + intros [= <- <- <-] path ok. simpl. tauto.
    + destruct (os_run _ (st_world s)) as [[out|] w]; intros [= <- <- <-] path ok; simpl;
        split; intros [H|[]]; discriminate H.
Qed.

(** The loop of lines 40-49 when every poll finds the mountpoint
    mounted: [tries] sleeps and nothing else. *)
Lemma poll_still_mounted tries mountpoint w heap :
  (forall i, i < tries -> os_ismount mountpoint (Nat.iter i os_sleep w) = true) ->
  remove_when_unmounted tries mountpoint (State w heap)
  = (Return tt, State (Nat.iter tries os_sleep w) heap, repeat EvSleep tries).
Proof.
  revert w. induction tries as [|n IH]; intros w Hpoll; [reflexivity|].
  simpl remove_when_unmounted. cbv [bind query sleep]. cbn [st_world st_heap].
  pose proof (Hpoll 0 ltac:(lia)) as Hnow. simpl in Hnow. rewrite Hnow.
  cbn [negb st_world st_heap].
  rewrite IH.
  - rewrite <- Nat.iter_succ_r. reflexivity.
  - intros i Hi. rewrite <- Nat.iter_succ_r. apply Hpoll. lia.
Qed.

(** What [clean_unmount] does after line 19, by the outcome of lines
    22-34. *)
Lemma clean_unmount_unfold cmd mountpoint tries rm s :
  clean_unmount cmd mountpoint tries rm s
  = match perform_unmount cmd mountpoint
            (State (st_world s) (<[cmd := (st_heap s !!! cmd) ++ [mountpoint]]> (st_heap s)))
    with
    | (Return true, s1, t1) =>
        if rm then
          match remove_when_unmounted tries mountpoint s1 with
          | (Return _, s2, t2) =>
              (Return (negb (os_isdir mountpoint (st_world s2))), s2, t1 ++ t2)
          | (Raise e, s2, t2) => (Raise e, s2, t1 ++ t2)
          end
        else (Return true, s1, t1)
    | (Return false, s1, t1) => (Return false, s1, t1)
    | (Raise e, s1, t1) => (Raise e, s1, t1)
    end.
Proof.
  unfold clean_unmount. cbv [bind list_append]. simpl.
  destruct (perform_unmount cmd mountpoint _) as [[[[]|e] s1] t1]; simpl.
  - destruct rm; simpl.
    + destruct (remove_when_unmounted tries mountpoint s1) as [[[[]|e] s2] t2]; simpl.
      * cbv [query ret]. destruct (os_isdir mountpoint (st_world s2)); simpl;
          rewrite app_nil_r; reflexivity.
      * reflexivity.
    + cbv [ret]. rewrite app_nil_r. reflexivity.
  - cbv [ret]. rewrite app_nil_r. reflexivity.
  - reflexivity.
Qed.

(** C8, as the code has it. For a mountpoint that is a symbolic link
    and has no [avfs] entry, [clean_unmount] with [rmdir=True] and at
    least one try runs no command: its only interaction with the system
    is [os.unlink(mountpoint)], and when that succeeds and the path is
    not a directory afterwards the result is [True]. *)
Theorem symlink_is_unlinked cmd mountpoint tries s w' :
  os_exists (PyStr.path_join mountpoint "avfs") (st_world s) = false ->
  os_islink mountpoint (st_world s) = true ->
  0 < tries ->
  os_unlink mountpoint (st_world s) = (true, w') ->
  os_isdir mountpoint w' = false ->
  clean_unmount cmd mountpoint tries true s
  = (Return true,
     State w' (<[cmd := (st_heap s !!! cmd) ++ [mountpoint]]> (st_heap s)),
     [EvUnlink mountpoint true]).
Proof.
  intros Havfs Hlink Htries Hunlink Hdir.
  destruct tries as [|n]; [lia|].
  rewrite clean_unmount_unfold.
  cbv [perform_unmount bind query ret]. simpl.
  rewrite Havfs. simpl. rewrite Hlink. simpl.
  cbv [bind query unlink file_op]. simpl.
  rewrite (os_ismount_link _ _ Hlink). simpl. rewrite Hlink. simpl.
  rewrite Hunlink. simpl.
  rewrite Hdir. reflexivity.
Qed.

(** C9. When the unmount step of lines 22-34 went through
    ([clean_unmount] without [rmdir] returns [True]) and after it each of
    the [tries] polls, one second apart, finds the mountpoint still
    mounted, and the mountpoint is a directory at the end,
    [clean_unmount] with [rmdir=True] returns [False] without raising:
    after the unmount step it only sleeps, and it neither removes nor
    unlinks anything. *)
Theorem still_mounted_gives_false cmd mountpoint tries s s1 t1 :
  clean_unmount cmd mountpoint tries false s = (Return true, s1, t1) ->
  (forall i, i < tries ->
     os_ismount mountpoint (Nat.iter i os_sleep (st_world s1)) = true) ->
  os_isdir mountpoint (Nat.iter tries os_sleep (st_world s1)) = true ->
  clean_unmount cmd mountpoint tries true s
  = (Return false, State (Nat.iter tries os_sleep (st_world s1)) (st_heap s1),
     t1 ++ repeat EvSleep tries)
  /\ forall path ok,
       ~ In (EvRmdir path ok) (t1 ++ repeat EvSleep tries)
       /\ ~ In (EvUnlink path ok) (t1 ++ repeat EvSleep tries).
Proof.
  intros Hstep Hpoll Hdir. rewrite clean_unmount_unfold in Hstep |- *.
  destruct (perform_unmount cmd mountpoint _) as [[[[]|e] s2] t2] eqn:Hperform;
    try discriminate Hstep.
  injection Hstep as <- <-.
  destruct s2 as [w2 h2]. simpl in *.
  rewrite (poll_still_mounted tries mountpoint w2 h2 Hpoll). simpl.
  rewrite Hdir. split; [reflexivity|].
  intros path ok. destruct (perform_unmount_keeps _ _ _ _ _ _ Hperform path ok) as [Hr Hu].
  split; intros Hin; apply in_app_or in Hin as [Hin|Hin]; auto;
    apply repeat_spec in Hin; discriminate Hin.
Qed.

(** C10. Line 19 appends the mountpoint to the caller's list object, and
    the object keeps it whatever the outcome of the call: after the call
    the list is one element longer. A second call with the same list
    object appends again, and the command it runs carries both
    mountpoints. *)
Theorem cmd_accumulates cmd mountpoint tries rm s o s' tr :
  clean_unmount cmd mountpoint tries rm s = (o, s', tr) ->
  st_heap s' !!! cmd = (st_heap s !!! cmd) ++ [mountpoint]
  /\ length (st_heap s' !!! cmd) = S (length (st_heap s !!! cmd))
  /\ forall mountpoint2 tries2 rm2 o2 s2 t2,
       clean_unmount cmd mountpoint2 tries2 rm2 s' = (o2, s2, t2) ->
       st_heap s2 !!! cmd = (st_heap s !!! cmd) ++ [mountpoint; mountpoint2]
       /\ forall argv out, In (EvRun argv out) t2 ->
            argv = (st_heap s !!! cmd) ++ [mountpoint; mountpoint2].
Proof.
  intros Hcall. pose proof (clean_unmount_heap _ _ _ _ _ _ _ _ Hcall) as Hheap.
  assert (Hlist : st_heap s' !!! cmd = (st_heap s !!! cmd) ++ [mountpoint])
    by (rewrite Hheap; apply lookup_total_insert_eq).
  split; [exact Hlist|]. split.
  - rewrite Hlist, length_app. simpl. lia.
  - intros mountpoint2 tries2 rm2 o2 s2 t2 Hcall2.
    pose proof (clean_unmount_heap _ _ _ _ _ _ _ _ Hcall2) as Hheap2.
    pose proof (clean_unmount_events _ _ _ _ _ _ _ _ Hcall2) as Hev.
    rewrite Hlist, <- app_assoc in Hev. simpl in Hev. split.
    + rewrite Hheap2, lookup_total_insert_eq, Hlist, <- app_assoc. reflexivity.
    + intros argv out Hin. rewrite List.Forall_forall in Hev.
      specialize (Hev _ Hin). inversion Hev. reflexivity.
Qed.

End CleanUnmountProperties.

(** ** The functions on concrete systems *)

Section Concrete.

Import Sim Scenario.

(** C3. In execute mode [force_clean] does not always return: when the
    directory of a mountpoint it has unmounted is not empty,
    [os.rmdir] at line 46 of [clean_unmount] raises [OSError], nothing
    on the way catches it, and it leaves [force_clean] from line 163,
    before the loopback devices and the folders are looked at. The dry
    run of the same system returns its list. *)
Theorem rmdir_failure_escapes :
  force_clean true im_pattern "/tmp/im_*" (start leftover_files)
  = (Raise OSError,
     State (World (mount_out leftover_files) (losetup_out leftover_files)
              (pvdisplay_out leftover_files) (tree leftover_files) [] []
              [("LVM_SUPPRESS_FD_WARNINGS", "1")])
           {[ 0 := ["umount"; "/tmp/im_1_a"] ]},
     [EvSetenv "LVM_SUPPRESS_FD_WARNINGS" "1";
      EvRun ["mount"] (mount_out leftover_files);
      EvRun ["umount"; "/tmp/im_1_a"] (Some []);
      EvRmdir "/tmp/im_1_a" false])
  /\ fst (fst (force_clean false im_pattern "/tmp/im_*" (start leftover_files)))
     = Return ["umount /tmp/im_1_a"; "rm -Rf /tmp/im_1_a"].
Proof. split; vm_compute; reflexivity. Qed.

Lemma forensic_cleanup execute :
  force_clean execute im_pattern "/tmp/im_*" (start forensic_stack)
  = (Return forensic_plan, snd (fst (cleanup execute forensic_stack)),
     snd (cleanup execute forensic_stack)).
Proof. destruct execute; vm_compute; reflexivity. Qed.

(** C1 as stated fails: a bind mount on a mountpoint that matches the
    pattern and carries the marker gets, besides its [umount] entry at the
    front, a [fusermount -u] and an [rm -Rf] entry from lines 207-208,
    which come after the [umount] of the mount without [bind], the
    [lvchange] and the [losetup -d] entry. *)
Lemma bind_mount_entries_come_late :
  In ("/tmp/image_mounter_1/im_1_a", ("/srv/evidence", "none", "rw,bind"))
     (mounts_seen (snd (cleanup false Cases.marked_bind)))
  /\ im_pattern "/tmp/image_mounter_1/im_1_a" = true
  /\ fst (fst (cleanup false Cases.marked_bind))
     = Return ["umount /tmp/image_mounter_1/im_1_a";
               "umount /tmp/im_2_b"; "rm -Rf /tmp/im_2_b";
               "lvchange -a n vg1"; "losetup -d /dev/loop0";
               "fusermount -u /tmp/image_mounter_1/im_1_a";
               "rm -Rf /tmp/image_mounter_1/im_1_a";
               "rm -Rf /tmp/image_mounter_1"]
  /\ fst (fst (cleanup true Cases.marked_bind))
     = fst (fst (cleanup false Cases.marked_bind)).
Proof.
  split; [vm_compute; left; reflexivity|].
  split; [vm_compute; reflexivity|].
  split; vm_compute; reflexivity.
Qed.

(** The bind mount on [/tmp/im_1234.0_abc] is unmounted before the mount
    on [/tmp/im_1234.0_abc/sub]. *)
Lemma bind_unmounts_first_witness :
  forensic_plan !! 0 = Some (umount_cmd "/tmp/im_1234.0_abc")
  /\ forensic_plan !! 1 = Some (umount_cmd "/tmp/im_1234.0_abc/sub")
  /\ 0 < 1.
Proof.
  split; [reflexivity|]. split; [reflexivity|].
  apply (bind_unmounts_first _ _ _ _ _ _ _ (forensic_cleanup true) 0 1
           "/tmp/im_1234.0_abc" "/tmp/im_1234.0_abc/sub" "none" "rw,bind"
           "umount /tmp/im_1234.0_abc/sub").
  - vm_compute. right. left. reflexivity.
  - vm_compute. reflexivity.
  - vm_compute. reflexivity.
  - vm_compute. reflexivity.
  - vm_compute. reflexivity.
  - left. exists "/tmp/im_1234.0_abc/sub", "/dev/loop1", "ext4", "ro".
    split; [vm_compute; right; right; left; reflexivity|].
    split; vm_compute; reflexivity.
Defined.

(** The root filesystem carries no signal: it is not in the list and
    is not unmounted. *)
Lemma unowned_untouched_witness :
  owned im_pattern (snd (cleanup true forensic_stack)) "/" = false
  /\ ~ In (umount_cmd "/") forensic_plan
  /\ forall out, ~ In (EvRun ["umount"; "/"] out) (snd (cleanup true forensic_stack)).
Proof.
  assert (Hroot : owned im_pattern (snd (cleanup true forensic_stack)) "/" = false)
    by (vm_compute; reflexivity).
  split; [exact Hroot|].
  destruct (unowned_untouched _ _ _ _ _ _ _ (forensic_cleanup true) "/" Hroot)
    as (Hlist & Hevents & _).
  split.
  - intros Hin. apply (Hlist _ _ eq_refl Hin). left. reflexivity.
  - intros out Hin. apply (Hevents _ Hin). left. reflexivity.
Defined.

(** C4 as stated fails: the dry run changes the environment of the
    process and runs commands. *)
Lemma dry_run_sets_environment :
  env (st_world (snd (fst (cleanup false forensic_stack)))) <> env forensic_stack
  /\ In (EvSetenv "LVM_SUPPRESS_FD_WARNINGS" "1") (snd (cleanup false forensic_stack))
  /\ In (EvRun ["mount"] (mount_out forensic_stack)) (snd (cleanup false forensic_stack))
  /\ mutations (snd (cleanup false forensic_stack)) <> [].
Proof.
  split; [vm_compute; discriminate|].
  split; [vm_compute; left; reflexivity|].
  split; [vm_compute; right; left; reflexivity|].
  vm_compute. discriminate.
Qed.

(** One volume mounted on an empty directory: the execute run removes
    the directory before it globs, the dry run's glob returns it, and both
    return the same list. *)
Lemma dry_run_equivalence_witness :
  fst (fst (force_clean_re true (Compiled im_pattern) "/tmp/im_*" (start Cases.plain_mount)))
  = fst (fst (force_clean_re false (Compiled im_pattern) "/tmp/im_*"
                (start Cases.plain_mount)))
  /\ globs (snd (force_clean_re true (Compiled im_pattern) "/tmp/im_*"
                   (start Cases.plain_mount)))
     <> globs (snd (force_clean_re false (Compiled im_pattern) "/tmp/im_*"
                      (start Cases.plain_mount))).
Proof.
  split; [|vm_compute; discriminate].
  destruct (dry_run_equivalence im_pattern "/tmp/im_*" (start Cases.plain_mount))
    as (cmds & s' & r1 & r2 & r3 & g1 & g2 & Hdry & Hsame).
  rewrite Hdry. cbn [fst].
  pose proof Hdry as Hread. vm_compute in Hread.
  injection Hread as _ _ <- <- <- <- <-.
  transitivity (Return (A := list string) ["umount /tmp/im_1_a"; "rm -Rf /tmp/im_1_a"]);
    [vm_compute; reflexivity|].
  f_equal.
  apply (Hsame (start Cases.plain_mount) _
           (snd (fst (force_clean_re true (Compiled im_pattern) "/tmp/im_*"
                        (start Cases.plain_mount))))
           (snd (force_clean_re true (Compiled im_pattern) "/tmp/im_*"
                   (start Cases.plain_mount)))
           (fun _ => false) (fun _ => true)).
  - vm_compute. reflexivity.
  - vm_compute. reflexivity.
  - intros f [<-|[]] _ _. vm_compute. left. reflexivity.
  - intros f _ Hk. discriminate Hk.
Defined.

(** C5 as stated fails: a volume group on two loopback devices of disk
    images is deactivated twice. *)
Lemma volume_group_enqueued_twice :
  fst (fst (cleanup false two_pv_group))
  = Return ["lvchange -a n vg1"; "losetup -d /dev/loop0";
            "lvchange -a n vg1"; "losetup -d /dev/loop1";
            "rm -Rf /tmp/image_mounter_1"]
  /\ ~ List.NoDup ["lvchange -a n vg1"; "losetup -d /dev/loop0";
                   "lvchange -a n vg1"; "losetup -d /dev/loop1";
                   "rm -Rf /tmp/image_mounter_1"].
Proof.
  split; [vm_compute; reflexivity|].
  intros Hnd. inversion Hnd as [|x l Hnin _]. apply Hnin. right. left. reflexivity.
Qed.

(** The list for [forensic_stack] has no duplicates. *)
Lemma sweeps_add_new_entries_witness : List.NoDup forensic_plan.
Proof.
  destruct (sweeps_add_new_entries _ _ _ _ _ _ _ (forensic_cleanup true))
    as (added & _ & _ & _ & Hnodup).
  apply Hnodup. apply NoDup_ListNoDup.
  apply (bool_decide_unpack _). vm_compute. exact I.
Defined.

(** The chain beside a loopback device of a snap and the volume group
    of the system disk. *)
Lemma single_volume_group_chain_witness :
  fst (fst (cleanup true Cases.chain_among_others))
  = Return ["lvchange -a n vg1"; "losetup -d /dev/loop0"; "rm -Rf /tmp/image_mounter_1"]
  /\ exists before after,
       ["lvchange -a n vg1"; "losetup -d /dev/loop0"; "rm -Rf /tmp/image_mounter_1"]
       = before ++ [lvchange_cmd "vg1"; losetup_cmd "/dev/loop0"] ++ after.
Proof.
  split; [vm_compute; reflexivity|].
  destruct (single_volume_group_chain true im_pattern "/tmp/im_*"
              (start Cases.chain_among_others)
              ["lvchange -a n vg1"; "losetup -d /dev/loop0"; "rm -Rf /tmp/image_mounter_1"]
              (snd (fst (cleanup true Cases.chain_among_others)))
              (snd (cleanup true Cases.chain_among_others)))
    as (before & after & Hplan & _).
  - vm_compute. reflexivity.
  - vm_compute. reflexivity.
  - exists before, after. exact Hplan.
Defined.

(** C7 as stated fails: the folder [/tmp/image_mounter_1] matches the
    glob and holds a file; the execute run enqueues [rm -Rf] for it, calls
    [os.rmdir] on it, which fails, and leaves the folder and the file. *)
Lemma nonempty_tmp_folder_stays :
  In "/tmp/image_mounter_1" (os_glob tmp_glob forensic_stack)
  /\ In (rm_cmd "/tmp/image_mounter_1") forensic_plan
  /\ In (EvRmdir "/tmp/image_mounter_1" false) (snd (cleanup true forensic_stack))
  /\ os_isdir "/tmp/image_mounter_1" (st_world (snd (fst (cleanup true forensic_stack))))
     = true
  /\ os_exists "/tmp/image_mounter_1/file.dd"
       (st_world (snd (fst (cleanup true forensic_stack)))) = true.
Proof.
  split; [vm_compute; left; reflexivity|].
  split; [vm_compute; do 6 right; left; reflexivity|].
  split; [vm_compute; repeat (first [left; reflexivity | right])|].
  split; vm_compute; reflexivity.
Qed.

(** The folder of [forensic_stack] is enqueued and [os.rmdir] is tried. *)
Lemma tmp_folders_swept_witness :
  In (rm_cmd "/tmp/image_mounter_1") forensic_plan
  /\ exists ok, In (EvRmdir "/tmp/image_mounter_1" ok) (snd (cleanup true forensic_stack)).
Proof.
  destruct (tmp_folders_swept _ _ _ _ _ _ _ (forensic_cleanup true))
    as (folders & tmp_folders & Hglobs & Hswept).
  vm_compute in Hglobs. injection Hglobs as <- <-.
  destruct (Hswept "/tmp/image_mounter_1" (or_introl eq_refl)) as [Hin Hrmdir].
  split; [exact Hin | exact (Hrmdir eq_refl)].
Defined.

(** C8 as stated fails: with [tries=0] the link to a directory is not
    unlinked and the result is [False]. *)
Lemma symlink_kept_without_tries :
  os_islink "/mnt/case" linked_case = true
  /\ os_exists (PyStr.path_join "/mnt/case" "avfs") linked_case = false
  /\ fst (fst (clean_unmount 0 "/mnt/case" 0 true (with_cmd linked_case))) = Return false
  /\ snd (clean_unmount 0 "/mnt/case" 0 true (with_cmd linked_case)) = []
  /\ os_islink "/mnt/case"
       (st_world (snd (fst (clean_unmount 0 "/mnt/case" 0 true (with_cmd linked_case)))))
     = true.
Proof. repeat split; vm_compute; reflexivity. Qed.

(** With the default of five tries the link is unlinked. *)
Lemma symlink_is_unlinked_witness :
  fst (fst (clean_unmount 0 "/mnt/case" 5 true (with_cmd linked_case))) = Return true
  /\ snd (clean_unmount 0 "/mnt/case" 5 true (with_cmd linked_case))
     = [EvUnlink "/mnt/case" true].
Proof.
  rewrite (symlink_is_unlinked 0 "/mnt/case" 5 (with_cmd linked_case)
             (World None None None [("/data/case", KDir)] [] [] [])).
  - split; reflexivity.
  - vm_compute. reflexivity.
  - vm_compute. reflexivity.
  - lia.
  - vm_compute. reflexivity.
  - vm_compute. reflexivity.
Defined.

(** A mountpoint that another mount still covers after [umount]. *)
Lemma still_mounted_gives_false_witness :
  fst (fst (clean_unmount 0 "/tmp/im_1_a" 5 true (with_cmd stacked_mounts))) = Return false
  /\ snd (clean_unmount 0 "/tmp/im_1_a" 5 true (with_cmd stacked_mounts))
     = [EvRun ["umount"; "/tmp/im_1_a"] (Some []); EvSleep; EvSleep; EvSleep; EvSleep; EvSleep].
Proof.
  destruct (still_mounted_gives_false 0 "/tmp/im_1_a" 5 (with_cmd stacked_mounts)
              (snd (fst (clean_unmount 0 "/tmp/im_1_a" 5 false (with_cmd stacked_mounts))))
              [EvRun ["umount"; "/tmp/im_1_a"] (Some [])])
    as [Hcall _].
  - vm_compute. reflexivity.
  - intros i Hi. do 5 (destruct i as [|i]; [vm_compute; reflexivity|]). lia.
  - vm_compute. reflexivity.
  - rewrite Hcall. split; reflexivity.
Defined.

(** One list object used for two calls. *)
Lemma cmd_accumulates_witness :
  st_heap (snd (fst (clean_unmount 0 "/mnt/case" 5 true
                       (snd (fst (clean_unmount 0 "/tmp/im_1_a" 5 true
                                    (with_cmd stacked_mounts))))))) !!! 0
  = ["umount"; "/tmp/im_1_a"; "/mnt/case"].
Proof.
  destruct (clean_unmount 0 "/tmp/im_1_a" 5 true (with_cmd stacked_mounts))
    as [[o1 s1] t1] eqn:Hfirst.
  cbn [fst snd].
  destruct (clean_unmount 0 "/mnt/case" 5 true s1) as [[o2 s2] t2] eqn:Hsecond.
  destruct (cmd_accumulates _ _ _ _ _ _ _ _ Hfirst) as (_ & _ & Hnext).
  destruct (Hnext _ _ _ _ _ _ Hsecond) as [Hlist _].
  cbn [fst snd]. refine (eq_trans Hlist _). vm_compute. reflexivity.
Defined.

End Concrete.

(** ** More about [clean_unmount] *)

Section CleanUnmountCases.

Context {world : Type} `{!OS world}.

Implicit Types (s : state world) (tr : list event).

(** Lines 22-34, case by case. *)
Lemma perform_unmount_eq cmd mountpoint s :
  perform_unmount cmd mountpoint s
  = if os_exists (PyStr.path_join mountpoint "avfs") (st_world s) then
      let '(ok, w) := os_remove (PyStr.path_join mountpoint "avfs") (st_world s) in
      (if ok then Return true else Raise OSError, State w (st_heap s),
       [EvRemove (PyStr.path_join mountpoint "avfs") ok])
    else if os_islink mountpoint (st_world s) then (Return true, s, [])
    else
      let '(r, w) := os_run (st_heap s !!! cmd) (st_world s) in
      (Return (match r with Some _ => true | None => false end), State w (st_heap s),
       [EvRun (st_heap s !!! cmd) r]).
Proof.
  cbv [perform_unmount bind query remove file_op try_except list_read
         check_call_ check_output_ subprocess ret].
  destruct (os_exists _ (st_world s)).
  - destruct (os_remove _ (st_world s)) as [[] w]; reflexivity.
  - destruct (os_islink _ (st_world s)); [reflexivity|].
    destruct (os_run _ (st_world s)) as [[out|] w]; reflexivity.
Qed.

Lemma remove_when_unmounted_events tries mountpoint s o s' tr :
  remove_when_unmounted tries mountpoint s = (o, s', tr) ->
  (forall argv out, ~ In (EvRun argv out) tr)
  /\ (forall path ok, ~ In (EvRemove path ok) tr)
  /\ match o with
     | Return _ => True
     | Raise e =>
         e = OSError
         /\ exists t, tr = t ++ [EvUnlink mountpoint false]
                      \/ tr = t ++ [EvRmdir mountpoint false]
     end.
Proof.
  revert s tr. induction tries as [|n IH]; intros s tr; simpl.
  - intros [= <- <- <-]. simpl. tauto.
  - unfold bind at 1. unfold query at 1.
    destruct (os_ismount mountpoint (st_world s)); simpl.
    + unfold bind, sleep.
      destruct (remove_when_unmounted n mountpoint _) as [[o2 s2] t2] eqn:Hrec.
      intros [= <- <- <-]. apply IH in Hrec as (Hrun & Hrem & Ho).
      split; [|split].
      * intros argv out [H|H]; [discriminate H | exact (Hrun _ _ H)].
      * intros path ok [H|H]; [discriminate H | exact (Hrem _ _ H)].
      * destruct o2 as [|e]; [exact I|]. destruct Ho as (-> & t & [-> | ->]).
        -- split; [reflexivity|]. exists (EvSleep :: t). left. reflexivity.
        -- split; [reflexivity|]. exists (EvSleep :: t). right. reflexivity.
    + unfold bind, query, unlink, rmdir, file_op.
      destruct (os_islink mountpoint (st_world s)).
      * destruct (os_unlink mountpoint (st_world s)) as [[] w]; intros [= <- <- <-]; simpl;
          (split; [intros argv out [H|[]]; discriminate H|]);
          (split; [intros path ok [H|[]]; discriminate H|]); [exact I|].
        split; [reflexivity|]. exists []. left. reflexivity.
      * destruct (os_rmdir mountpoint (st_world s)) as [[] w]; intros [= <- <- <-]; simpl;
          (split; [intros argv out [H|[]]; discriminate H|]);
          (split; [intros path ok [H|[]]; discriminate H|]); [exact I|].
        split; [reflexivity|]. exists []. right. reflexivity.
Qed.

(** X1. With [rmdir=False], [clean_unmount] does at most one thing,
    whatever [tries] is: nothing for a symbolic link (result [True]), one
    [os.remove] of the [avfs] entry (result [True], or [OSError] when it
    fails), or one run of the command with the mountpoint appended
    (result [True] when it succeeds, [False] when it fails). It never
    sleeps and never removes or unlinks the mountpoint. *)
Theorem unmount_without_rmdir cmd mountpoint tries s o s' tr :
  clean_unmount cmd mountpoint tries false s = (o, s', tr) ->
  (o = Return true /\ tr = [])
  \/ (exists ok, tr = [EvRemove (PyStr.path_join mountpoint "avfs") ok]
                 /\ o = if ok then Return true else Raise OSError)
  \/ (exists r, tr = [EvRun ((st_heap s !!! cmd) ++ [mountpoint]) r]
                /\ o = Return (match r with Some _ => true | None => false end)).
Proof.
  rewrite clean_unmount_unfold, perform_unmount_eq. simpl.
  rewrite lookup_total_insert_eq.
  destruct (os_exists _ (st_world s)).
  - destruct (os_remove _ (st_world s)) as [[] w]; intros [= <- <- <-];
      right; left; eexists; split; reflexivity.
  - destruct (os_islink _ (st_world s)).
    + intros [= <- <- <-]. left. split; reflexivity.
    + destruct (os_run _ (st_world s)) as [[out|] w]; intros [= <- <- <-];
        right; right; eexists; split; reflexivity.
Qed.

(** X2. When the mountpoint holds an [avfs] entry, or is a symbolic link,
    [clean_unmount] runs no command at all, whatever its other arguments
    and however it ends. *)
Theorem no_command_for_avfs_or_link cmd mountpoint tries rm s o s' tr :
  os_exists (PyStr.path_join mountpoint "avfs") (st_world s) = true
  \/ os_islink mountpoint (st_world s) = true ->
  clean_unmount cmd mountpoint tries rm s = (o, s', tr) ->
  forall argv out, ~ In (EvRun argv out) tr.
Proof.
  intros Hkind. rewrite clean_unmount_unfold, perform_unmount_eq. simpl.
  assert (Hpoll : forall s1 t1 o2,
             (forall argv out, ~ In (EvRun argv out) t1) ->
             (if rm
              then match remove_when_unmounted tries mountpoint s1 with
                   | (Return _, s2, t2) =>
                       (Return (negb (os_isdir mountpoint (st_world s2))), s2, t1 ++ t2)
                   | (Raise e, s2, t2) => (Raise e, s2, t1 ++ t2)
                   end
              else (Return true, s1, t1)) = (o2, s', tr) ->
             forall argv out, ~ In (EvRun argv out) tr).
  { intros s1 t1 o2 Ht1. destruct rm.
    - destruct (remove_when_unmounted tries mountpoint s1) as [[[u|e] s2] t2] eqn:Hloop;
        intros [= <- <- <-] argv out Hin;
        apply remove_when_unmounted_events in Hloop as (Hrun & _);
        apply in_app_or in Hin as [Hin|Hin]; [eapply Ht1 | eapply Hrun | eapply Ht1 | eapply Hrun];
        exact Hin.
    - intros [= <- <- <-]. exact Ht1. }
  destruct (os_exists _ (st_world s)).
  - destruct (os_remove _ (st_world s)) as [[] w].
    + apply Hpoll. intros argv out [H|[]]. discriminate H.
    + intros [= <- <- <-] argv out [H|[]]. discriminate H.
  - destruct Hkind as [Hkind|Hkind]; [discriminate Hkind|]. rewrite Hkind.
    apply Hpoll. intros argv out [].
Qed.

(** X3. When the mountpoint has no [avfs] entry and is no symbolic link and
    the command fails, [clean_unmount] returns [False] at once, whatever
    [tries] and [rmdir] are: it does not poll, does not sleep and leaves
    the mountpoint alone. *)
Theorem failed_command_gives_false cmd mountpoint tries rm s w' :
  os_exists (PyStr.path_join mountpoint "avfs") (st_world s) = false ->
  os_islink mountpoint (st_world s) = false ->
  os_run ((st_heap s !!! cmd) ++ [mountpoint]) (st_world s) = (None, w') ->
  clean_unmount cmd mountpoint tries rm s
  = (Return false,
     State w' (<[cmd := (st_heap s !!! cmd) ++ [mountpoint]]> (st_heap s)),
     [EvRun ((st_heap s !!! cmd) ++ [mountpoint]) None]).
Proof.
  intros Havfs Hlink Hrun.
  rewrite clean_unmount_unfold, perform_unmount_eq. simpl.
  rewrite lookup_total_insert_eq, Havfs, Hlink, Hrun. reflexivity.
Qed.

(** X4. When the unmount step of lines 22-34 went through and the
    mountpoint is found unmounted at poll [k] of the [tries] polls, after
    [k] polls that found it mounted, and it is no symbolic link,
    [clean_unmount] with [rmdir=True] sleeps [k] times and then calls
    [os.rmdir] once. When that succeeds the result tells whether the path
    is gone ([True]) or a directory again ([False]); when it fails the
    [OSError] leaves [clean_unmount]. *)
Theorem released_then_removed cmd mountpoint tries k s s1 t1 ok w2 :
  clean_unmount cmd mountpoint tries false s = (Return true, s1, t1) ->
  k < tries ->
  (forall i, i < k -> os_ismount mountpoint (Nat.iter i os_sleep (st_world s1)) = true) ->
  os_ismount mountpoint (Nat.iter k os_sleep (st_world s1)) = false ->
  os_islink mountpoint (Nat.iter k os_sleep (st_world s1)) = false ->
  os_rmdir mountpoint (Nat.iter k os_sleep (st_world s1)) = (ok, w2) ->
  clean_unmount cmd mountpoint tries true s
  = (if ok then Return (negb (os_isdir mountpoint w2)) else Raise OSError,
     State w2 (st_heap s1),
     t1 ++ repeat EvSleep k ++ [EvRmdir mountpoint ok]).
Proof.
  intros Hstep Hk Hpoll Hfree Hlink Hrmdir.
  rewrite clean_unmount_unfold in Hstep |- *.
  destruct (perform_unmount cmd mountpoint _) as [[[[]|e] s2] t2] eqn:Hperform;
    try discriminate Hstep.
  injection Hstep as <- <-. destruct s2 as [w1 h1]. simpl in *.
  assert (Hloop : forall n w, k <= n ->
             (forall i, i < k -> os_ismount mountpoint (Nat.iter i os_sleep w) = true) ->
             os_ismount mountpoint (Nat.iter k os_sleep w) = false ->
             os_islink mountpoint (Nat.iter k os_sleep w) = false ->
             os_rmdir mountpoint (Nat.iter k os_sleep w) = (ok, w2) ->
             remove_when_unmounted (S n) mountpoint (State w h1)
             = (if ok then Return tt else Raise OSError, State w2 h1,
                repeat EvSleep k ++ [EvRmdir mountpoint ok])).
  { clear. induction k as [|k IH]; intros n w Hn Hbusy Hfree Hlink Hrmdir.
    - simpl in *. cbv [bind query rmdir file_op]. simpl.
      rewrite Hfree. simpl. rewrite Hlink. simpl. rewrite Hrmdir.
      destruct ok; reflexivity.
    - destruct n as [|n]; [lia|].
      pose proof (Hbusy 0 ltac:(lia)) as Hnow. simpl in Hnow.
      change (remove_when_unmounted (S (S n)) mountpoint (State w h1))
        with (bind (query (os_ismount mountpoint))
                (fun mounted =>
                   if negb mounted
                   then bind (query (os_islink mountpoint))
                          (fun is_link =>
                             if is_link then unlink mountpoint else rmdir mountpoint)
                   else bind sleep (fun _ => remove_when_unmounted (S n) mountpoint))
                (State w h1)).
      cbv [bind query sleep]. cbn [st_world st_heap]. rewrite Hnow.
      cbn [negb st_world st_heap].
      rewrite (IH n (os_sleep w)).
      + destruct ok; reflexivity.
      + lia.
      + intros i Hi. rewrite <- Nat.iter_succ_r. apply Hbusy. lia.
      + rewrite <- Nat.iter_succ_r. exact Hfree.
      + rewrite <- Nat.iter_succ_r. exact Hlink.
      + rewrite <- Nat.iter_succ_r. exact Hrmdir. }
  destruct tries as [|n]; [lia|].
  rewrite (Hloop n w1 ltac:(lia) Hpoll Hfree Hlink Hrmdir).
  destruct ok; reflexivity.
Qed.

(** How [clean_unmount] can raise. *)
Lemma clean_unmount_raise cmd mountpoint tries rm s e s' tr :
  clean_unmount cmd mountpoint tries rm s = (Raise e, s', tr) ->
  e = OSError /\ exists t ev, tr = t ++ [ev] /\ failed_file_op mountpoint ev.
Proof.
  rewrite clean_unmount_unfold, perform_unmount_eq. simpl.
  assert (Hpoll : forall s1 t1,
             (if rm
              then match remove_when_unmounted tries mountpoint s1 with
                   | (Return _, s2, t2) =>
                       (Return (negb (os_isdir mountpoint (st_world s2))), s2, t1 ++ t2)
                   | (Raise e, s2, t2) => (Raise e, s2, t1 ++ t2)
                   end
              else (Return true, s1, t1)) = (Raise e, s', tr) ->
             e = OSError /\ exists t ev, tr = t ++ [ev] /\ failed_file_op mountpoint ev).
  { intros s1 t1. destruct rm; [|discriminate].
    destruct (remove_when_unmounted tries mountpoint s1) as [[[u|e2] s2] t2] eqn:Hloop;
      [discriminate|].
    intros [= <- <- <-].
    apply remove_when_unmounted_events in Hloop as (_ & _ & -> & t & [-> | ->]);
      (split; [reflexivity|]); eexists (t1 ++ t), _; rewrite app_assoc;
      (split; [reflexivity|]); unfold failed_file_op; auto. }
  destruct (os_exists _ (st_world s)).
  - destruct (os_remove _ (st_world s)) as [[] w].
    + apply Hpoll.
    + intros [= <- <- <-]. split; [reflexivity|].
      exists [], (EvRemove (PyStr.path_join mountpoint "avfs") false).
      split; [reflexivity|]. unfold failed_file_op. auto.
  - destruct (os_islink _ (st_world s)); [apply Hpoll|].
    destruct (os_run _ (st_world s)) as [[out|] w]; [apply Hpoll | discriminate].
Qed.

(** X5. The only exception that leaves [clean_unmount] is the [OSError]
    of one of its own file operations ([os.remove] of the [avfs] entry,
    [os.unlink] or [os.rmdir] of the mountpoint), and that operation is the
    last thing it did. A failing command never raises out of it. *)
Theorem clean_unmount_raises_oserror cmd mountpoint tries rm s e s' tr :
  clean_unmount cmd mountpoint tries rm s = (Raise e, s', tr) ->
  e = OSError /\ exists t ev, tr = t ++ [ev] /\ failed_file_op mountpoint ev.
Proof. apply clean_unmount_raise. Qed.

End CleanUnmountCases.

(** ** More about [force_clean] *)

Section ForceCleanEscapes.

Context {world : Type} `{!OS world}.

Variables (execute : bool) (pattern : string -> bool) (glob_pattern : string).

Implicit Types (s : state world) (tr t : list event).

Lemma escapes_app e t1 t2 : escapes e t2 -> escapes e (t1 ++ t2).
Proof.
  intros (-> & t & m & ev & -> & Hev). split; [reflexivity|].
  exists (t1 ++ t), m, ev. rewrite app_assoc. auto.
Qed.

Lemma unmount_call_raises prog mountpoint rm s e s' tr :
  (do cmd <- new_list prog; clean_unmount cmd mountpoint 5 rm ;; ret tt) s = (Raise e, s', tr) ->
  escapes e tr.
Proof.
  intros H.
  apply bind_inv in H as [(r & s1 & t1 & t2 & Hn & H & ->) | (e0 & Hn & _)];
    [|discriminate Hn].
  injection Hn as <- <- <-. simpl.
  apply bind_inv in H as [(b & s2 & t3 & t4 & Hc & H & ->) | (e0 & Hc & [= <-])].
  - apply ret_inv in H as (H & _). discriminate H.
  - apply clean_unmount_raise in Hc as (-> & t & ev & -> & Hev).
    split; [reflexivity|]. exists t, mountpoint, ev. auto.
Qed.

Lemma unmount_round_raises prog mountpoint rm (rest : M world (list string)) s e s' tr :
  (when_ execute (do cmd <- new_list prog; clean_unmount cmd mountpoint 5 rm ;; ret tt) ;;
   rest) s = (Raise e, s', tr) ->
  (forall s1 t2, rest s1 = (Raise e, s', t2) -> escapes e t2) ->
  escapes e tr.
Proof.
  intros H Hrest.
  apply bind_inv in H as [(u & s1 & t1 & t2 & Hw & H & ->) | (e0 & Hw & [= <-])].
  - apply escapes_app. eapply Hrest. exact H.
  - destruct execute; simpl in Hw; [|discriminate Hw].
    eapply unmount_call_raises. exact Hw.
Qed.

Lemma unmount_binds_raises items commands s e s' tr :
  unmount_binds execute pattern items commands s = (Raise e, s', tr) -> escapes e tr.
Proof.
  revert commands s tr.
  induction items as [|[mountpoint [[orig fs] opts]] items IH]; intros commands s tr H.
  - apply ret_inv in H as (H & _). discriminate H.
  - simpl in H. destruct (PyStr.contains "bind" opts && pattern mountpoint).
    + eapply unmount_round_raises; [exact H|]. intros s1 t2. apply IH.
    + eapply IH. exact H.
Qed.

Lemma unmount_mounts_raises items commands s e s' tr :
  unmount_mounts execute pattern items commands s = (Raise e, s', tr) -> escapes e tr.
Proof.
  revert commands s tr.
  induction items as [|[mountpoint [[orig fs] opts]] items IH]; intros commands s tr H.
  - apply ret_inv in H as (H & _). discriminate H.
  - simpl in H.
    destruct (negb (PyStr.contains "bind" opts)
              && (PyStr.contains marker orig || pattern mountpoint)).
    + eapply unmount_round_raises; [exact H|]. intros s1 t2. apply IH.
    + eapply IH. exact H.
Qed.

Lemma unmount_base_raises items commands s e s' tr :
  unmount_base execute items commands s = (Raise e, s', tr) -> escapes e tr.
Proof.
  revert commands s tr.
  induction items as [|[mountpoint info] items IH]; intros commands s tr H.
  - apply ret_inv in H as (H & _). discriminate H.
  - simpl in H. destruct (PyStr.contains marker mountpoint).
    + eapply unmount_round_raises; [exact H|]. intros s1 t2. apply IH.
    + eapply IH. exact H.
Qed.

Lemma leaves_app p e t1 t2 : leaves execute p e t2 -> leaves execute p e (t1 ++ t2).
Proof.
  intros [H | [He H]]; [left; exact H | right]. split; [exact He|].
  apply escapes_app. exact H.
Qed.

Lemma re_match_inv p x s o s' tr :
  re_match p x s = (o, s', tr) ->
  s' = s /\ tr = [] /\ ((exists b, o = Return b) \/ (o = Raise ReError /\ p = Malformed)).
Proof.
  unfold re_match. destruct p as [f|]; intros [= <- <- <-]; eauto 6.
Qed.

(** The test of one item, then the rest of the loop. *)
Lemma selected_leaves p (test : M world bool) (k : bool -> M world (list string)) s e s' tr :
  (do selected <- test; k selected) s = (Raise e, s', tr) ->
  (forall o1 s1 t1, test s = (o1, s1, t1) ->
     s1 = s /\ t1 = []
     /\ ((exists b, o1 = Return b) \/ (o1 = Raise ReError /\ p = Malformed))) ->
  (forall b, k b s = (Raise e, s', tr) -> leaves execute p e tr) ->
  leaves execute p e tr.
Proof.
  intros H Htest Hk.
  apply bind_inv in H as [(b & s1 & t1 & t2 & Ht & H & ->) | (e0 & Ht & [= <-])].
  - destruct (Htest _ _ _ Ht) as (-> & -> & _). eapply Hk. exact H.
  - destruct (Htest _ _ _ Ht) as (_ & _ & [(b & Hb) | [[= ->] ->]]); [discriminate Hb|].
    left. auto.
Qed.

Lemma pure_test (b : bool) s o1 s1 t1 p :
  ret b s = (o1, s1, t1) ->
  s1 = s /\ t1 = []
  /\ ((exists b', o1 = Return b') \/ (o1 = Raise ReError /\ p = Malformed)).
Proof. intros [= <- <- <-]. eauto 6. Qed.

Lemma unmount_round_leaves p prog mountpoint rm (rest : M world (list string)) s e s' tr :
  (when_ execute (do cmd <- new_list prog; clean_unmount cmd mountpoint 5 rm ;; ret tt) ;;
   rest) s = (Raise e, s', tr) ->
  (forall s1 t2, rest s1 = (Raise e, s', t2) -> leaves execute p e t2) ->
  leaves execute p e tr.
Proof.
  intros H Hrest.
  apply bind_inv in H as [(u & s1 & t1 & t2 & Hw & H & ->) | (e0 & Hw & [= <-])].
  - apply leaves_app. eapply Hrest. exact H.
  - destruct execute eqn:He; simpl in Hw; [|discriminate Hw].
    right. split; [reflexivity|]. eapply unmount_call_raises. exact Hw.
Qed.

Lemma unmount_binds_re_leaves p items commands s e s' tr :
  unmount_binds_re execute p items commands s = (Raise e, s', tr) -> leaves execute p e tr.
Proof.
  revert commands s tr.
  induction items as [|[mountpoint [[orig fs] opts]] items IH]; intros commands s tr H.
  - apply ret_inv in H as (H & _). discriminate H.
  - cbn [unmount_binds_re] in H. eapply selected_leaves; [exact H | |].
    + intros o1 s1 t1. destruct (PyStr.contains "bind" opts);
        [apply re_match_inv | apply pure_test].
    + intros [|] Hk.
      * eapply unmount_round_leaves; [exact Hk|]. intros s1 t2. apply IH.
      * eapply IH. exact Hk.
Qed.

Lemma unmount_mounts_re_leaves p items commands s e s' tr :
  unmount_mounts_re execute p items commands s = (Raise e, s', tr) -> leaves execute p e tr.
Proof.
  revert commands s tr.
  induction items as [|[mountpoint [[orig fs] opts]] items IH]; intros commands s tr H.
  - apply ret_inv in H as (H & _). discriminate H.
  - cbn [unmount_mounts_re] in H. eapply selected_leaves; [exact H | |].
    + intros o1 s1 t1. destruct (PyStr.contains "bind" opts); cbn [negb];
        [apply pure_test|].
      destruct (PyStr.contains marker orig); [apply pure_test | apply re_match_inv].
    + intros [|] Hk.
      * eapply unmount_round_leaves; [exact Hk|]. intros s1 t2. apply IH.
      * eapply IH. exact Hk.
Qed.

Lemma unmount_base_leaves p items commands s e s' tr :
  unmount_base execute items commands s = (Raise e, s', tr) -> leaves execute p e tr.
Proof.
  revert commands s tr.
  induction items as [|[mountpoint info] items IH]; intros commands s tr H.
  - apply ret_inv in H as (H & _). discriminate H.
  - simpl in H. destruct (PyStr.contains marker mountpoint).
    + eapply unmount_round_leaves; [exact H|]. intros s1 t2. apply IH.
    + eapply IH. exact H.
Qed.

Lemma sweep_glob_re_leaves p folders commands s e s' tr :
  sweep_glob_re execute p folders commands s = (Raise e, s', tr) -> leaves execute p e tr.
Proof.
  revert commands s tr.
  induction folders as [|folder folders IH]; intros commands s tr H.
  - apply ret_inv in H as (H & _). discriminate H.
  - cbn [sweep_glob_re] in H. eapply selected_leaves; [exact H | |].
    + intros o1 s1 t1. apply re_match_inv.
    + intros [|] Hk; [|eapply IH; exact Hk].
      apply bind_inv in Hk as [(c & s1 & t1 & t2 & Hf & Hk & ->) | (e0 & Hf & _)].
      * apply leaves_app. eapply IH. exact Hk.
      * apply sweep_folder_run in Hf as [Hf _]. discriminate Hf.
Qed.

(** X6. An exception leaves [force_clean] in one of two ways. It is the
    [re.error] of [re.match] for a pattern that [re] cannot compile (lines
    153, 159 and 214 are outside every [try]), which also happens in a dry
    run; or, in execute mode only, it is the [OSError] of a file operation
    of [clean_unmount] ([os.remove], [os.unlink] or [os.rmdir]), which is
    then the last thing the run did. A listing command or a release
    command that fails, a device missing from the loopback table and a
    failing [os.rmdir] of the folder sweeps never raise out of
    [force_clean]; with a pattern that compiles a dry run always returns. *)
Theorem force_clean_exceptions p s e s' tr :
  force_clean_re execute p glob_pattern s = (Raise e, s', tr) ->
  (e = ReError /\ p = Malformed) \/ (execute = true /\ escapes e tr).
Proof.
  intros Hrun. change (leaves execute p e tr).
  unfold force_clean_re in Hrun.
  apply bind_inv in Hrun as [(u & s0 & t0 & q0 & He & H & ->) | (e0 & He & _)];
    [|discriminate He].
  apply leaves_app.
  apply bind_inv in H as [(mounts & sa & ta & q1 & Hm & H & ->) | (e0 & Hm & _)];
    [|apply find_mountpoints_run in Hm as (r1 & _ & Hm); discriminate Hm].
  apply leaves_app.
  apply bind_inv in H as [(c1 & sb & t1 & q2 & H1 & H & ->) | (e0 & H1 & [= <-])];
    [|eapply unmount_binds_re_leaves; exact H1].
  apply leaves_app.
  apply bind_inv in H as [(c2 & sc & t2 & q3 & H2 & H & ->) | (e0 & H2 & [= <-])];
    [|eapply unmount_mounts_re_leaves; exact H2].
  apply leaves_app.
  apply bind_inv in H as [(loopbacks & sd & td & q4 & Hl & H & ->) | (e0 & Hl & _)];
    [|apply find_loopbacks_run in Hl as (r2 & _ & Hl); discriminate Hl].
  apply leaves_app.
  apply bind_inv in H as [(c3 & se & t3 & q5 & H3 & H & ->) | (e0 & H3 & _)];
    [|apply find_volume_groups_run in H3 as (r3 & t3 & _ & H3 & _); discriminate H3].
  apply leaves_app.
  apply bind_inv in H as [(c4 & sf & t4 & q6 & H4 & H & ->) | (e0 & H4 & [= <-])];
    [|eapply unmount_base_leaves; exact H4].
  apply leaves_app.
  apply bind_inv in H as [(g1 & sg & tg & q7 & Hg & H & ->) | (e0 & Hg & _)];
    [|discriminate Hg].
  apply leaves_app.
  apply bind_inv in H as [(c5 & sh & t5 & q8 & H5 & H & ->) | (e0 & H5 & [= <-])];
    [|eapply sweep_glob_re_leaves; exact H5].
  exfalso.
  apply bind_inv in H as [(g2 & si & ti & q9 & Hg2 & H & ->) | (e0 & Hg2 & _)];
    [|discriminate Hg2].
  apply bind_inv in H as [(c6 & sj & t6 & q10 & H6 & H & ->) | (e0 & H6 & _)];
    [|apply sweep_tmp_run in H6 as [H6 _]; discriminate H6].
  apply ret_inv in H as (H & _). discriminate H.
Qed.

End ForceCleanEscapes.

Section ForceCleanOrder.

Context {world : Type} `{!OS world}.

Variables (execute : bool) (pattern : string -> bool) (glob_pattern : string).

Implicit Types (s : state world) (tr t : list event) (cmds : list string).

(** X7. The only commands [force_clean] runs are the three listing
    commands and, in execute mode only, [umount m], [fusermount -u m],
    [lvchange -a n vg] and [losetup -d pv]. In particular it never runs
    [rm], although its list says [rm -Rf]. *)
Theorem only_known_commands s o s' tr :
  force_clean execute pattern glob_pattern s = (o, s', tr) ->
  forall argv out, In (EvRun argv out) tr ->
    listing_argv argv \/ (execute = true /\ release_argv argv).
Proof.
  intros Hrun argv out Hin.
  destruct (is_query (EvRun argv out)) eqn:Hq.
  - left. simpl in Hq. unfold listing_argv.
    apply orb_true_iff in Hq as [Hq|Hq]; [apply orb_true_iff in Hq as [Hq|Hq]|];
      apply bool_decide_eq_true in Hq; auto.
  - right. split.
    + destruct execute eqn:He; [reflexivity|exfalso].
      destruct (dry_run_returns _ _ _ _ _ _ Hrun) as (cmds & ->).
      destruct (force_clean_returned _ _ _ _ _ _ _ Hrun) as (? & ? & ? & ? & ? & _ & _ & _ & Htr).
      rewrite (Htr eq_refl) in Hin. destruct Hin as [Hin|Hin]; [discriminate Hin|].
      apply filter_In in Hin as [_ Hin]. congruence.
    + apply force_clean_runs in Hrun.
      pose proof (run_staged _ _ _ _ _ _ Hrun Hin Hq) as Hst.
      unfold release_argv.
      inversion Hst as [|m ev Hm Hev|pv vg r ev Hpv Hev|m ev Hm Hev|f ok Hf]; subst.
      * inversion Hev; subst. eauto.
      * destruct Hev as [[= -> _]|[= -> _]]; eauto 6.
      * inversion Hev; subst. eauto.
Qed.

(** X8. A listing command that fails counts as an empty table: when
    [mount] fails the returned list has no [umount] and no [fusermount -u]
    entry, and when [losetup -a] or [pvdisplay] fails it has no
    [lvchange] and no [losetup -d] entry. *)
Theorem failed_listing_plans_nothing s cmds s' tr :
  force_clean execute pattern glob_pattern s = (Return cmds, s', tr) ->
  (In (EvRun ["mount"] None) tr ->
   forall e, In e cmds -> forall m, e <> umount_cmd m /\ e <> fusermount_cmd m)
  /\ (In (EvRun ["losetup"; "-a"] None) tr \/ In (EvRun ["pvdisplay"] None) tr ->
      forall e, In e cmds -> forall x, e <> lvchange_cmd x /\ e <> losetup_cmd x).
Proof.
  intros Hrun.
  destruct (force_clean_returned _ _ _ _ _ _ _ Hrun) as (r1 & r2 & r3 & g1 & g2 & Hq & -> & _).
  assert (Hseen : forall ev, In ev tr -> is_query ev = true ->
             In ev [EvRun ["mount"] r1; EvRun ["losetup"; "-a"] r2; EvRun ["pvdisplay"] r3;
                    EvGlob glob_pattern g1; EvGlob tmp_glob g2]).
  { intros ev Hin Hev. rewrite <- Hq. apply filter_In. auto. }
  destruct (plan_shape pattern (read_mounts (default [] r1)) (read_loopbacks (default [] r2))
              (default [] r3) g1 g2) as (added & Heq & _ & Hnew & _).
  rewrite Heq. unfold teardown_plan. split.
  - intros Hfail. apply Hseen in Hfail; [|reflexivity].
    assert (r1 = None) as ->.
    { simpl in Hfail.
      destruct Hfail as [H|[H|[H|[H|[H|[]]]]]]; try discriminate H. congruence. }
    simpl. intros e He m.
    repeat (apply in_app_or in He as [He|He]); try contradiction.
    + apply in_vg_cmds in He as (pv & vg & _ & [-> | ->]); split; discriminate.
    + destruct (Hnew e He) as [_ (f & -> & _)]. split; discriminate.
  - intros Hfail.
    assert (Hnone : forall pv vg,
              ~ In (pv, vg) (vg_targets (read_loopbacks (default [] r2)) (default [] r3))).
    { intros pv vg Hin. apply in_vg_targets in Hin as [Hpair Himg].
      destruct Hfail as [Hfail|Hfail]; apply Hseen in Hfail; try reflexivity; simpl in Hfail.
      - assert (r2 = None) as ->
          by (destruct Hfail as [H|[H|[H|[H|[H|[]]]]]]; try discriminate H; congruence).
        unfold image_backed in Himg.
        change (read_loopbacks (default [] None)) with (∅ : gmap string string) in Himg.
        rewrite lookup_empty in Himg. discriminate Himg.
      - assert (r3 = None) as ->
          by (destruct Hfail as [H|[H|[H|[H|[H|[]]]]]]; try discriminate H; congruence).
        exact Hpair. }
    intros e He x. repeat (apply in_app_or in He as [He|He]).
    + apply in_bind_cmds in He as (m & _ & ->). split; discriminate.
    + apply in_mount_cmds in He as (m & _ & [-> | ->]); split; discriminate.
    + apply in_vg_cmds in He as (pv & vg & Hin & _). destruct (Hnone pv vg Hin).
    + apply in_base_cmds in He as (m & _ & [-> | ->]); split; discriminate.
    + destruct (Hnew e He) as [_ (f & -> & _)]. split; discriminate.
Qed.

End ForceCleanOrder.

Section ForceCleanLists.

Context {world : Type} `{!OS world}.

Variables (execute : bool) (pattern : string -> bool) (glob_pattern : string).

Implicit Types (s : state world) (tr t : list event) (cmds : list string).

Lemma lookup_In {A : Type} (l : list A) i a : l !! i = Some a -> In a l.
Proof. intros H. apply list_elem_of_In. eapply list_elem_of_lookup_2. exact H. Qed.

Lemma lookup_order {A : Type} (l1 l2 : list A) i j a b :
  (l1 ++ l2) !! i = Some a -> (l1 ++ l2) !! j = Some b ->
  ~ In a l2 -> ~ In b l1 -> i < j.
Proof.
  intros Hi Hj Ha Hb.
  apply lookup_app_Some in Hi as [Hi|[_ Hi]]; [|destruct Ha; eapply lookup_In; exact Hi].
  apply lookup_app_Some in Hj as [Hj|[Hj _]]; [destruct Hb; eapply lookup_In; exact Hj|].
  apply lookup_lt_Some in Hi. lia.
Qed.

Lemma lookup_middle {A : Type} (pre mid post : list A) j a :
  (pre ++ mid ++ post) !! j = Some a -> ~ In a pre -> ~ In a post ->
  exists k, j = length pre + k /\ mid !! k = Some a.
Proof.
  intros Hj Hpre Hpost.
  apply lookup_app_Some in Hj as [Hj|[Hle Hj]]; [destruct Hpre; eapply lookup_In; exact Hj|].
  apply lookup_app_Some in Hj as [Hj|[_ Hj]]; [|destruct Hpost; eapply lookup_In; exact Hj].
  exists (j - length pre). split; [lia | exact Hj].
Qed.

Lemma lookup_in_middle {A : Type} (pre mid post : list A) k :
  k < length mid -> (pre ++ mid ++ post) !! (length pre + k) = mid !! k.
Proof.
  intros Hk. rewrite lookup_app_r by lia.
  replace (length pre + k - length pre) with k by lia.
  apply lookup_app_l. exact Hk.
Qed.

(** Filters that exclude each other select a key of a [dict] at most once
    between them. *)
Lemma count_targets {V : Type} (f g : string * V -> bool) (d : dict V) m :
  (forall x, f x = true -> g x = true -> False) ->
  count_occ string_dec (List.map fst (List.filter f d)) m
  + count_occ string_dec (List.map fst (List.filter g d)) m
  <= count_occ string_dec (List.map fst d) m.
Proof.
  intros Hfg. induction d as [|x d IH]; cbn [List.filter List.map count_occ]; [lia|].
  destruct (f x) eqn:Hf, (g x) eqn:Hg; cbn [List.map count_occ];
    try (destruct (Hfg x Hf Hg)); destruct (string_dec (fst x) m); lia.
Qed.

Lemma count_bind_cmds targets m :
  count_occ string_dec (bind_cmds targets) (umount_cmd m) = count_occ string_dec targets m.
Proof.
  unfold bind_cmds. induction targets as [|x l IH]; cbn [List.map count_occ]; [reflexivity|].
  destruct (string_dec (umount_cmd x) (umount_cmd m)) as [E|E], (string_dec x m) as [E'|E'];
    try (rewrite IH; reflexivity).
  - destruct E'. apply umount_cmd_inj. exact E.
  - destruct E. rewrite E'. reflexivity.
Qed.

Lemma count_mount_cmds targets m :
  count_occ string_dec (mount_cmds targets) (umount_cmd m) = count_occ string_dec targets m.
Proof.
  unfold mount_cmds.
  induction targets as [|x l IH]; cbn [flat_map app count_occ]; [reflexivity|].
  destruct (string_dec (rm_cmd x) (umount_cmd m)) as [E0|_]; [discriminate E0|].
  destruct (string_dec (umount_cmd x) (umount_cmd m)) as [E|E], (string_dec x m) as [E'|E'];
    try (rewrite IH; reflexivity).
  - destruct E'. apply umount_cmd_inj. exact E.
  - destruct E. rewrite E'. reflexivity.
Qed.

Lemma count_base_cmds targets m :
  count_occ string_dec (base_cmds targets) (fusermount_cmd m) = count_occ string_dec targets m.
Proof.
  unfold base_cmds.
  induction targets as [|x l IH]; cbn [flat_map app count_occ]; [reflexivity|].
  destruct (string_dec (rm_cmd x) (fusermount_cmd m)) as [E0|_]; [discriminate E0|].
  destruct (string_dec (fusermount_cmd x) (fusermount_cmd m)) as [E|E],
           (string_dec x m) as [E'|E']; try (rewrite IH; reflexivity).
  - destruct E'. apply (names_inj (fusermount_cmd x)); unfold names; auto.
  - destruct E. rewrite E'. reflexivity.
Qed.

Lemma vg_cmds_pairs targets :
  (forall j pv, vg_cmds targets !! j = Some (losetup_cmd pv) ->
     exists i vg, j = S i /\ vg_cmds targets !! i = Some (lvchange_cmd vg)
                  /\ In (pv, vg) targets)
  /\ (forall i vg, vg_cmds targets !! i = Some (lvchange_cmd vg) ->
        exists pv, vg_cmds targets !! S i = Some (losetup_cmd pv) /\ In (pv, vg) targets).
Proof.
  unfold vg_cmds. induction targets as [|[p v] l [IH1 IH2]]; simpl.
  - split; intros j x H; discriminate H.
  - split.
    + intros [|[|j]] pv Hj; simpl in Hj.
      * discriminate Hj.
      * injection Hj as Hj. exists 0, v. split; [reflexivity|]. split; [reflexivity|].
        left. f_equal. exact Hj.
      * destruct (IH1 j pv Hj) as (i & vg & -> & Hi & Hin).
        exists (S (S i)), vg. auto.
    + intros [|[|i]] vg Hi; simpl in Hi.
      * injection Hi as Hi. exists p. split; [reflexivity|].
        left. f_equal. exact Hi.
      * discriminate Hi.
      * destruct (IH2 i vg Hi) as (pv & Hpv & Hin). exists pv. auto.
Qed.

(** X9. In the returned list an [umount] entry, and likewise a
    [fusermount -u] entry, for one mountpoint occurs at most once (unlike
    the [lvchange] entries). *)
Theorem unmount_entries_once s cmds s' tr :
  force_clean execute pattern glob_pattern s = (Return cmds, s', tr) ->
  forall m, count_occ string_dec cmds (umount_cmd m) <= 1
            /\ count_occ string_dec cmds (fusermount_cmd m) <= 1.
Proof.
  intros Hrun m.
  destruct (force_clean_returned _ _ _ _ _ _ _ Hrun) as (r1 & r2 & r3 & g1 & g2 & _ & -> & _).
  set (mounts := read_mounts (default [] r1)).
  destruct (plan_shape pattern mounts (read_loopbacks (default [] r2))
              (default [] r3) g1 g2) as (added & -> & _ & Hnew & _).
  pose proof (proj1 (NoDup_count_occ string_dec _) (read_mounts_nodup (default [] r1)) m)
    as Hkeys. fold mounts in Hkeys.
  assert (Hadd : forall e, (forall f, e <> rm_cmd f) ->
                   count_occ string_dec added e = 0).
  { intros e He. apply count_occ_not_In. intros Hin.
    destruct (Hnew e Hin) as [_ (f & Hf & _)]. exact (He f Hf). }
  unfold teardown_plan. rewrite !count_occ_app. split.
  - rewrite count_bind_cmds, count_mount_cmds.
    rewrite (proj1 (count_occ_not_In string_dec (vg_cmds _) (umount_cmd m))).
    2:{ intros Hin. apply in_vg_cmds in Hin as (pv & vg & _ & [E|E]); discriminate E. }
    rewrite (proj1 (count_occ_not_In string_dec (base_cmds _) (umount_cmd m))).
    2:{ intros Hin. apply in_base_cmds in Hin as (x & _ & [E|E]); discriminate E. }
    rewrite Hadd by (intros f E; discriminate E).
    pose proof (count_targets (is_bind_target pattern) (is_mount_target pattern) mounts m) as Hc.
    unfold bind_targets, mount_targets.
    assert (Hex : forall x, is_bind_target pattern x = true ->
                    is_mount_target pattern x = true -> False).
    { intros [k [[orig fs] opts]]. simpl.
      destruct (PyStr.contains "bind" opts); simpl; intros H1 H2; discriminate. }
    specialize (Hc Hex). lia.
  - rewrite count_base_cmds.
    rewrite (proj1 (count_occ_not_In string_dec (bind_cmds _) (fusermount_cmd m))).
    2:{ intros Hin. apply in_bind_cmds in Hin as (x & _ & E). discriminate E. }
    rewrite (proj1 (count_occ_not_In string_dec (mount_cmds _) (fusermount_cmd m))).
    2:{ intros Hin. apply in_mount_cmds in Hin as (x & _ & [E|E]); discriminate E. }
    rewrite (proj1 (count_occ_not_In string_dec (vg_cmds _) (fusermount_cmd m))).
    2:{ intros Hin. apply in_vg_cmds in Hin as (pv & vg & _ & [E|E]); discriminate E. }
    rewrite Hadd by (intros f E; discriminate E).
    pose proof (count_targets is_base_target (fun _ => false) mounts m) as Hc.
    unfold base_targets.
    specialize (Hc (fun _ _ H => Bool.diff_false_true H)). lia.
Qed.

(** X10. The returned list keeps the order of the stages: every [umount]
    entry comes before every [lvchange], [losetup -d] and [fusermount -u]
    entry, and every [lvchange] and [losetup -d] entry comes before every
    [fusermount -u] entry. *)
Theorem stage_order s cmds s' tr :
  force_clean execute pattern glob_pattern s = (Return cmds, s', tr) ->
  forall i j a b, cmds !! i = Some a -> cmds !! j = Some b ->
    ((exists m, a = umount_cmd m)
     /\ ((exists x, b = lvchange_cmd x) \/ (exists x, b = losetup_cmd x)
         \/ (exists x, b = fusermount_cmd x)))
    \/ (((exists x, a = lvchange_cmd x) \/ (exists x, a = losetup_cmd x))
        /\ (exists x, b = fusermount_cmd x)) ->
    i < j.
Proof.
  intros Hrun i j a b Hi Hj Hab.
  destruct (force_clean_returned _ _ _ _ _ _ _ Hrun) as (r1 & r2 & r3 & g1 & g2 & _ & -> & _).
  set (mounts := read_mounts (default [] r1)) in *.
  set (loopbacks := read_loopbacks (default [] r2)) in *.
  destruct (plan_shape pattern mounts loopbacks (default [] r3) g1 g2)
    as (added & Heq & _ & Hnew & _).
  rewrite Heq in Hi, Hj. unfold teardown_plan in Hi, Hj.
  assert (Hadd : forall e, In e added -> exists f, e = rm_cmd f).
  { intros e He. destruct (Hnew e He) as [_ (f & Hf & _)]. eauto. }
  destruct Hab as [[(m & ->) Hb]|[Ha (x & ->)]].
  - rewrite <- !app_assoc in Hi, Hj. rewrite !app_assoc in Hi, Hj.
    rewrite <- (app_assoc _ (vg_cmds _)) in Hi, Hj.
    rewrite <- (app_assoc _ (vg_cmds _ ++ base_cmds _)) in Hi, Hj.
    eapply lookup_order; [exact Hi | exact Hj | |].
    + intros Hin. repeat (apply in_app_or in Hin as [Hin|Hin]).
      * apply in_vg_cmds in Hin as (pv & vg & _ & [E|E]); discriminate E.
      * apply in_base_cmds in Hin as (y & _ & [E|E]); discriminate E.
      * destruct (Hadd _ Hin) as (f & E). discriminate E.
    + intros Hin. apply in_app_or in Hin as [Hin|Hin].
      * apply in_bind_cmds in Hin as (y & _ & E).
        destruct Hb as [(x & ->)|[(x & ->)|(x & ->)]]; discriminate E.
      * apply in_mount_cmds in Hin as (y & _ & [E|E]);
          destruct Hb as [(x & ->)|[(x & ->)|(x & ->)]]; discriminate E.
  - rewrite !app_assoc in Hi, Hj. rewrite <- (app_assoc _ (base_cmds _)) in Hi, Hj.
    eapply lookup_order; [exact Hi | exact Hj | |].
    + intros Hin. apply in_app_or in Hin as [Hin|Hin].
      * apply in_base_cmds in Hin as (y & _ & [E|E]);
          destruct Ha as [(z & ->)|(z & ->)]; discriminate E.
      * destruct (Hadd _ Hin) as (f & E).
        destruct Ha as [(z & ->)|(z & ->)]; discriminate E.
    + intros Hin. repeat (apply in_app_or in Hin as [Hin|Hin]).
      * apply in_bind_cmds in Hin as (y & _ & E). discriminate E.
      * apply in_mount_cmds in Hin as (y & _ & [E|E]); discriminate E.
      * apply in_vg_cmds in Hin as (pv & vg & _ & [E|E]); discriminate E.
Qed.

(** X11. The [lvchange] and [losetup -d] entries of the returned list come
    in adjacent pairs: a [losetup -d pv] entry directly follows an
    [lvchange -a n vg] entry, an [lvchange -a n vg] entry is directly
    followed by a [losetup -d pv] entry, and in both cases [pv] is a
    physical volume that the [pvdisplay] output read by the run pairs with
    [vg] and whose loopback device is backed by a file with the marker. *)
Theorem detach_follows_deactivate s cmds s' tr :
  force_clean execute pattern glob_pattern s = (Return cmds, s', tr) ->
  (forall j pv, cmds !! j = Some (losetup_cmd pv) ->
     exists i vg, j = S i /\ cmds !! i = Some (lvchange_cmd vg)
                  /\ In (pv, vg) (pairings (pv_lines_seen tr) None None)
                  /\ image_backed (loopbacks_seen tr) pv = true)
  /\ (forall i vg, cmds !! i = Some (lvchange_cmd vg) ->
        exists pv, cmds !! S i = Some (losetup_cmd pv)
                   /\ In (pv, vg) (pairings (pv_lines_seen tr) None None)
                   /\ image_backed (loopbacks_seen tr) pv = true).
Proof.
  intros Hrun.
  destruct (force_clean_returned _ _ _ _ _ _ _ Hrun) as (r1 & r2 & r3 & g1 & g2 & Hq & -> & _).
  destruct (seen_returned glob_pattern _ _ _ _ _ _ Hq) as (_ & -> & -> & _).
  set (mounts := read_mounts (default [] r1)) in *.
  set (loopbacks := read_loopbacks (default [] r2)) in *.
  destruct (plan_shape pattern mounts loopbacks (default [] r3) g1 g2)
    as (added & -> & _ & Hnew & _).
  assert (Hadd : forall e, In e added -> exists f, e = rm_cmd f).
  { intros e He. destruct (Hnew e He) as [_ (f & Hf & _)]. eauto. }
  unfold teardown_plan.
  set (pre := bind_cmds (bind_targets pattern mounts)
              ++ mount_cmds (mount_targets pattern mounts)).
  set (mid := vg_cmds (vg_targets loopbacks (default [] r3))).
  set (post := base_cmds (base_targets mounts) ++ added).
  assert (Heq : (bind_cmds (bind_targets pattern mounts)
                 ++ mount_cmds (mount_targets pattern mounts)
                 ++ mid ++ base_cmds (base_targets mounts)) ++ added
                = pre ++ mid ++ post).
  { unfold pre, post. rewrite <- !app_assoc. reflexivity. }
  rewrite Heq. clear Heq.
  assert (Hpre : forall e, In e pre ->
            (forall x, e <> lvchange_cmd x) /\ (forall x, e <> losetup_cmd x)).
  { intros e He. apply in_app_or in He as [He|He].
    - apply in_bind_cmds in He as (y & _ & ->). split; intros x E; discriminate E.
    - apply in_mount_cmds in He as (y & _ & [-> | ->]); split; intros x E; discriminate E. }
  assert (Hpost : forall e, In e post ->
            (forall x, e <> lvchange_cmd x) /\ (forall x, e <> losetup_cmd x)).
  { intros e He. apply in_app_or in He as [He|He].
    - apply in_base_cmds in He as (y & _ & [-> | ->]); split; intros x E; discriminate E.
    - destruct (Hadd _ He) as (f & ->). split; intros x E; discriminate E. }
  destruct (vg_cmds_pairs (vg_targets loopbacks (default [] r3))) as [Hp1 Hp2].
  fold mid in Hp1, Hp2.
  split.
  - intros j pv Hj.
    destruct (lookup_middle pre mid post j _ Hj) as (k & -> & Hk).
    { intros Hin. exact (proj2 (Hpre _ Hin) pv eq_refl). }
    { intros Hin. exact (proj2 (Hpost _ Hin) pv eq_refl). }
    destruct (Hp1 k pv Hk) as (i & vg & -> & Hi & Hin).
    apply in_vg_targets in Hin as [Hpair Himg].
    exists (length pre + i), vg. split; [lia|]. split; [|auto].
    rewrite lookup_in_middle; [exact Hi|]. apply lookup_lt_Some in Hi. exact Hi.
  - intros i vg Hi.
    destruct (lookup_middle pre mid post i _ Hi) as (k & -> & Hk).
    { intros Hin. exact (proj1 (Hpre _ Hin) vg eq_refl). }
    { intros Hin. exact (proj1 (Hpost _ Hin) vg eq_refl). }
    destruct (Hp2 k vg Hk) as (pv & Hpv & Hin).
    apply in_vg_targets in Hin as [Hpair Himg].
    exists pv. split; [|auto].
    replace (S (length pre + k)) with (length pre + S k) by lia.
    rewrite lookup_in_middle; [exact Hpv|]. apply lookup_lt_Some in Hpv. exact Hpv.
Qed.

End ForceCleanLists.

Section ForceCleanDetach.

Context {world : Type} `{!OS world}.

Variables (execute : bool) (pattern : string -> bool) (glob_pattern : string).

Implicit Types (s : state world) (tr t : list event) (cmds : list string).

Lemma detach_guarded_none t :
  Forall (fun ev => forall pv r, ev <> EvRun ["losetup"; "-d"; pv] r) t -> detach_guarded t.
Proof.
  intros H t1 pv r t2 ->. apply Forall_app in H as [_ H].
  inversion H as [|? ? Hev _]; subst. destruct (Hev pv r eq_refl).
Qed.

Lemma detach_guarded_app t t' :
  detach_guarded t -> detach_guarded t' -> detach_guarded (t ++ t').
Proof.
  intros Ht Ht' t1 pv r t2 Heq.
  apply app_eq_app in Heq as (l & [[-> Hl] | [-> Hl]]).
  - destruct l as [|ev l]; simpl in Hl.
    + destruct (Ht' [] pv r t2 (eq_sym Hl)) as (t0 & vg & out & H0).
      destruct t0; discriminate H0.
    + injection Hl as <- ->. rewrite app_nil_r || idtac.
      eapply (Ht t1 pv r l). reflexivity.
  - destruct (Ht' l pv r t2 Hl) as (t0 & vg & out & ->).
    exists (t ++ t0), vg, out. rewrite app_assoc. reflexivity.
Qed.

Lemma detach_guarded_bind {A B : Type} (m : M world A) (f : A -> M world B) s o s' tr :
  bind m f s = (o, s', tr) ->
  (forall o1 s1 t1, m s = (o1, s1, t1) -> detach_guarded t1) ->
  (forall a s1 o2 s2 t2, f a s1 = (o2, s2, t2) -> detach_guarded t2) ->
  detach_guarded tr.
Proof.
  intros H Hm Hf.
  apply bind_inv in H as [(a & s1 & t1 & t2 & H1 & H2 & ->) | (e & H1 & _)].
  - apply detach_guarded_app; eauto.
  - eauto.
Qed.

Lemma unmount_trace_guarded prog targets t :
  prog = ["umount"] \/ prog = ["fusermount"; "-u"] ->
  unmount_trace execute prog targets t -> detach_guarded t.
Proof.
  unfold unmount_trace. intros Hprog Ht. apply detach_guarded_none.
  destruct execute; [|subst; constructor].
  eapply List.Forall_impl; [|exact Ht].
  intros ev (m & _ & Hev) pv r ->.
  inversion Hev as [r' Eargv| | | |]. destruct Hprog as [-> | ->]; discriminate Eargv.
Qed.

Lemma sweep_trace_guarded folders t : sweep_trace execute folders t -> detach_guarded t.
Proof.
  unfold sweep_trace. intros Ht. apply detach_guarded_none.
  destruct execute; [|subst; constructor].
  induction Ht as [|f ev fs evs (ok & ->) _ IH]; constructor; [|exact IH].
  intros pv r E. discriminate E.
Qed.

Lemma deactivate_guarded loopbacks pvname vgname commands s o s' tr :
  deactivate execute loopbacks pvname vgname commands s = (o, s', tr) -> detach_guarded tr.
Proof.
  unfold deactivate.
  destruct (loopbacks !! pvname) as [backing|] eqn:Hl.
  - destruct (PyStr.contains marker backing).
    + destruct execute; cbv [when_ bind try_except check_output_ subprocess ret].
      * destruct (os_run ["lvchange"; "-a"; "n"; vgname] (st_world s)) as [[out|] w].
        -- cbn [st_world st_heap]. destruct (os_run ["losetup"; "-d"; pvname] w) as [r w2].
           assert (Hpair : detach_guarded
                     [EvRun ["lvchange"; "-a"; "n"; vgname] (Some out);
                      EvRun ["losetup"; "-d"; pvname] r]).
           { intros t1 pv r' t2 Heq. destruct t1 as [|a [|b t1]].
             - discriminate Heq.
             - injection Heq as <- _ _. exists [], vgname, out. reflexivity.
             - injection Heq as _ _ Heq. destruct t1; discriminate Heq. }
           destruct r; intros [= <- <- <-]; exact Hpair.
        -- intros [= <- <- <-]. apply detach_guarded_none.
           repeat constructor. intros pv r E. discriminate E.
      * intros [= <- <- <-]. apply detach_guarded_none. constructor.
    + intros H. apply ret_inv in H as (_ & _ & ->). apply detach_guarded_none. constructor.
  - cbv [getitem try_except bind raise ret]. rewrite Hl.
    intros [= <- <- <-]. apply detach_guarded_none. constructor.
Qed.

Lemma deactivate_volume_groups_guarded loopbacks lines pvname vgname commands s o s' tr :
  deactivate_volume_groups execute loopbacks lines pvname vgname commands s = (o, s', tr) ->
  detach_guarded tr.
Proof.
  revert pvname vgname commands s o s' tr.
  induction lines as [|line lines IH]; intros pvname vgname commands s o s' tr H; simpl in H.
  - apply ret_inv in H as (_ & _ & ->). apply detach_guarded_none. constructor.
  - destruct (read_pv_line line pvname vgname) as [pv vg].
    destruct (PyStr.truthy pv && PyStr.truthy vg).
    + apply (detach_guarded_bind _ _ _ _ _ _ H).
      * intros o1 s1 t1. apply deactivate_guarded.
      * intros a s1 o2 s2 t2. apply IH.
    + eapply IH. exact H.
Qed.

Lemma find_volume_groups_guarded loopbacks commands s o s' tr :
  find_volume_groups execute loopbacks commands s = (o, s', tr) -> detach_guarded tr.
Proof.
  unfold find_volume_groups. intros H.
  apply (detach_guarded_bind _ _ _ _ _ _ H).
  - intros o1 s1 t1. cbv [try_except bind check_output_ subprocess ret].
    destruct (os_run ["pvdisplay"] (st_world s)) as [[out|] w]; intros [= <- <- <-];
      apply detach_guarded_none; repeat constructor; intros pv r E; discriminate E.
  - intros [lines|] s1 o2 s2 t2 H2.
    + eapply deactivate_volume_groups_guarded. exact H2.
    + apply ret_inv in H2 as (_ & _ & ->). apply detach_guarded_none. constructor.
Qed.

(** X12. In every run of [force_clean], whatever its outcome,
    [losetup -d] is run only directly after an [lvchange -a n] that
    succeeded: when deactivating the volume group fails, its loopback
    device is not detached (although the list names both). *)
Theorem detach_only_after_deactivate s o s' tr :
  force_clean execute pattern glob_pattern s = (o, s', tr) -> detach_guarded tr.
Proof.
  unfold force_clean. intros H.
  apply (detach_guarded_bind _ _ _ _ _ _ H); clear H.
  { intros ? ? ? [= <- <- <-]. apply detach_guarded_none.
    repeat constructor. intros pv r E. discriminate E. }
  intros ? ? ? ? ? H.
  apply (detach_guarded_bind _ _ _ _ _ _ H); clear H.
  { intros ? ? ? H. apply find_mountpoints_run in H as (r1 & -> & _).
    apply detach_guarded_none. repeat constructor. intros pv r E. discriminate E. }
  intros ? ? ? ? ? H.
  apply (detach_guarded_bind _ _ _ _ _ _ H); clear H.
  { intros ? ? ? H. apply unmount_binds_run in H as [H _].
    eapply unmount_trace_guarded; [|exact H]. auto. }
  intros ? ? ? ? ? H.
  apply (detach_guarded_bind _ _ _ _ _ _ H); clear H.
  { intros ? ? ? H. apply unmount_mounts_run in H as [H _].
    eapply unmount_trace_guarded; [|exact H]. auto. }
  intros ? ? ? ? ? H.
  apply (detach_guarded_bind _ _ _ _ _ _ H); clear H.
  { intros ? ? ? H. apply find_loopbacks_run in H as (r2 & -> & _).
    apply detach_guarded_none. repeat constructor. intros pv r E. discriminate E. }
  intros ? ? ? ? ? H.
  apply (detach_guarded_bind _ _ _ _ _ _ H); clear H.
  { intros ? ? ?. apply find_volume_groups_guarded. }
  intros ? ? ? ? ? H.
  apply (detach_guarded_bind _ _ _ _ _ _ H); clear H.
  { intros ? ? ? H. apply unmount_base_run in H as [H _].
    eapply unmount_trace_guarded; [|exact H]. auto. }
  intros ? ? ? ? ? H.
  apply (detach_guarded_bind _ _ _ _ _ _ H); clear H.
  { intros ? ? ? [= <- <- <-]. apply detach_guarded_none.
    repeat constructor. intros pv r E. discriminate E. }
  intros ? ? ? ? ? H.
  apply (detach_guarded_bind _ _ _ _ _ _ H); clear H.
  { intros ? ? ? H. apply sweep_glob_run in H as [_ H].
    eapply sweep_trace_guarded. exact H. }
  intros ? ? ? ? ? H.
  apply (detach_guarded_bind _ _ _ _ _ _ H); clear H.
  { intros ? ? ? [= <- <- <-]. apply detach_guarded_none.
    repeat constructor. intros pv r E. discriminate E. }
  intros ? ? ? ? ? H.
  apply (detach_guarded_bind _ _ _ _ _ _ H); clear H.
  { intros ? ? ? H. apply sweep_tmp_run in H as [_ H].
    eapply sweep_trace_guarded. exact H. }
  intros ? ? ? ? ? H.
  apply ret_inv in H as (_ & _ & ->). apply detach_guarded_none. constructor.
Qed.

End ForceCleanDetach.

Section ForceCleanArguments.

Context {world : Type} `{!OS world}.

Variables (execute : bool) (pattern : string -> bool) (glob_pattern : string).

Implicit Types (s : state world) (tr t : list event) (cmds : list string).

Lemma greedy_result a k (s : string) g : Re.greedy a k s = Some g -> exists rest, k rest = Some g.
Proof.
  induction s as [|c s IH]; simpl; [eauto|].
  destruct (Re.atom_match a c); [|eauto].
  destruct (Re.greedy a k s) as [g'|]; [|eauto].
  intros [= ->]. apply IH. reflexivity.
Qed.

Lemma greedy_cap_result a k (s : string) cap g :
  Re.greedy_cap a k s = Some (cap, g) -> exists rest, k rest = Some g.
Proof.
  revert cap. induction s as [|c s IH]; intros cap; simpl.
  - destruct (k "") as [g'|] eqn:E; simpl; [|discriminate]. intros [= _ <-]. eauto.
  - destruct (Re.atom_match a c).
    + destruct (Re.greedy_cap a k s) as [[cap' g']|].
      * intros [= _ <-]. eapply IH. reflexivity.
      * destruct (k (String c s)) as [g'|] eqn:E; simpl; [|discriminate].
        intros [= _ <-]. eauto.
    + destruct (k (String c s)) as [g'|] eqn:E; simpl; [|discriminate].
      intros [= _ <-]. eauto.
Qed.

(** A capturing group [(x+)] never captures the empty string. *)
Lemma rmatch_groups r :
  forall (s : string) gs, Re.rmatch r s = Some gs -> Forall (fun g => g <> ""%string) gs.
Proof.
  induction r as [|[a|a|a|a] r IH]; intros s gs H; simpl in H.
  - injection H as <-. constructor.
  - destruct s as [|c s]; [discriminate H|].
    destruct (Re.atom_match a c); [eauto | discriminate H].
  - apply greedy_result in H as (s' & H). eauto.
  - destruct s as [|c s]; [discriminate H|].
    destruct (Re.atom_match a c); [|discriminate H].
    apply greedy_result in H as (s' & H). eauto.
  - destruct s as [|c s]; [discriminate H|].
    destruct (Re.atom_match a c); [|discriminate H].
    destruct (Re.greedy_cap a (Re.rmatch r) s) as [[cap g]|] eqn:E; [|discriminate H].
    injection H as <-. constructor; [discriminate|].
    apply greedy_cap_result in E as (s' & E). eauto.
Qed.

Lemma read_mounts_keys lines m info : In (m, info) (read_mounts lines) -> m <> "".
Proof.
  intros Hin. apply (in_map fst) in Hin. simpl in Hin. revert m Hin.
  unfold read_mounts.
  assert (Hgen : forall d : dict mount_info,
            (forall k, In k (List.map fst d) -> k <> "") ->
            forall k, In k (List.map fst (fold_left read_mount_line lines d)) -> k <> "").
  { induction lines as [|line lines IH]; intros d Hd; simpl; [exact Hd|].
    apply IH. unfold read_mount_line.
    destruct (Re.rmatch Re.mount_line line) as [gs|] eqn:Hm; [|exact Hd].
    apply rmatch_groups in Hm.
    destruct gs as [|g1 [|g2 [|g3 [|g4 [|? ?]]]]]; try exact Hd.
    intros k Hk. apply dict_set_keys in Hk as [-> | Hk]; [|auto].
    inversion Hm as [|? ? _ Hm']. inversion Hm' as [|? ? Hg2 _]. exact Hg2. }
  apply Hgen. intros k [].
Qed.

Lemma pairings_names lines :
  forall p v pv vg, In (pv, vg) (pairings lines p v) -> pv <> "" /\ vg <> "".
Proof.
  induction lines as [|line lines IH]; intros p v pv vg; simpl; [intros []|].
  destruct (read_pv_line line p v) as [p' v'].
  destruct (PyStr.truthy p' && PyStr.truthy v') eqn:E; [|apply IH].
  intros [[= <- <-]|Hin]; [|eapply IH; exact Hin].
  apply andb_true_iff in E as [Ep Ev].
  destruct p' as [[|? ?]|], v' as [[|? ?]|]; try discriminate Ep; try discriminate Ev.
  split; discriminate.
Qed.

(** X13. No command that [force_clean] runs has an empty argument: the
    mountpoints come from a group [(.+)] of the line pattern, and the names
    of a physical volume and its volume group are only used once both are
    non-empty. *)
Theorem no_empty_argument s o s' tr :
  force_clean execute pattern glob_pattern s = (o, s', tr) ->
  forall argv out, In (EvRun argv out) tr -> ~ In "" argv.
Proof.
  intros Hrun argv out Hin Hempty.
  destruct (is_query (EvRun argv out)) eqn:Hq.
  - simpl in Hq.
    apply orb_true_iff in Hq as [Hq|Hq]; [apply orb_true_iff in Hq as [Hq|Hq]|];
      apply bool_decide_eq_true in Hq; subst argv; simpl in Hempty;
      intuition discriminate.
  - apply force_clean_runs in Hrun.
    pose proof (run_staged _ _ _ _ _ _ Hrun Hin Hq) as Hst.
    inversion Hst as [|m ev Hm Hev|pv vg r ev Hpv Hev|m ev Hm Hev|f ok Hf]; subst.
    + inversion Hev; subst. apply in_app_or in Hm as [Hm|Hm].
      * apply in_bind_targets in Hm as (orig & fs & opts & Hk & _).
        apply read_mounts_keys in Hk.
        destruct Hempty as [E|[E|[]]]; [discriminate E | congruence].
      * apply in_mount_targets in Hm as (orig & fs & opts & Hk & _).
        apply read_mounts_keys in Hk.
        destruct Hempty as [E|[E|[]]]; [discriminate E | congruence].
    + apply in_vg_targets in Hpv as [Hpair _].
      apply pairings_names in Hpair as [Hp Hv].
      destruct Hev as [[= -> _]|[= -> _]]; simpl in Hempty; intuition congruence.
    + inversion Hev; subst. unfold base_targets in Hm.
      apply in_map_iff in Hm as ([k info] & <- & Hk). apply filter_In in Hk as [Hk _].
      apply read_mounts_keys in Hk. simpl in Hempty.
      destruct Hempty as [E|[E|[E|[]]]]; try discriminate E. simpl in Hk. congruence.
Qed.

End ForceCleanArguments.

(** ** The file type tests and [expand_path] *)

Section Patterns.

Lemma str_app_cons c (a b : string) : String c a +:+ b = String c (a +:+ b).
Proof. reflexivity. Qed.

Lemma str_app_nil_l (a : string) : "" +:+ a = a.
Proof. reflexivity. Qed.

Lemma str_app_nil_r (a : string) : a +:+ "" = a.
Proof. induction a as [|c a IH]; [reflexivity|]. rewrite str_app_cons, IH. reflexivity. Qed.

Lemma str_app_assoc (a b c : string) : (a +:+ b) +:+ c = a +:+ (b +:+ c).
Proof.
  induction a as [|x a IH]; [reflexivity|]. rewrite !str_app_cons, IH. reflexivity.
Qed.

Lemma str_app_length (a b : string) :
  String.length (a +:+ b) = String.length a + String.length b.
Proof.
  induction a as [|x a IH]; [reflexivity|]. rewrite str_app_cons. simpl. rewrite IH. reflexivity.
Qed.

(** Two ways to cut one string before suffixes of the same length. *)
Lemma str_app_inj_tail (a b p q : string) :
  String.length p = String.length q -> a +:+ p = b +:+ q -> a = b /\ p = q.
Proof.
  intros Hlen. revert b. induction a as [|x a IH]; intros [|y b] H.
  - auto.
  - rewrite str_app_nil_l in H. apply (f_equal String.length) in H.
    rewrite str_app_cons in H. simpl in H. rewrite str_app_length in H. lia.
  - rewrite str_app_nil_l in H. apply (f_equal String.length) in H.
    rewrite str_app_cons in H. simpl in H. rewrite str_app_length in H. lia.
  - rewrite !str_app_cons in H. injection H as -> H.
    destruct (IH b H) as [-> ->]. auto.
Qed.

Lemma str_app_inj_head (a p q : string) : a +:+ p = a +:+ q -> p = q.
Proof.
  induction a as [|x a IH]; [auto|]. rewrite !str_app_cons. intros [= H]. auto.
Qed.

Lemma strip_prefix_spec l s r : Rx.strip_prefix l s = Some r <-> s = l +:+ r.
Proof.
  revert s. induction l as [|c l IH]; intros s; simpl.
  - rewrite str_app_nil_l. split; [intros [= ->] | intros ->]; reflexivity.
  - rewrite str_app_cons. destruct s as [|d s].
    + split; intros H; discriminate H.
    + destruct (Ascii.eqb_spec c d) as [->|Hne].
      * rewrite IH. split; [intros -> | intros [= ->]]; reflexivity.
      * split; [intros H; discriminate H | intros [= -> _]; destruct Hne; reflexivity].
Qed.

Lemma star_spec a k s :
  Rx.star a k s = true <->
  exists u v, s = u +:+ v
              /\ Forall (fun c => Re.atom_match a c = true) (list_ascii_of_string u)
              /\ k v = true.
Proof.
  induction s as [|c s IH]; simpl.
  - split.
    + intros Hk. exists "", "". repeat split; [constructor | exact Hk].
    + intros ([|? ?] & v & Heq & _ & Hk); [|discriminate Heq].
      rewrite str_app_nil_l in Heq. subst v. exact Hk.
  - rewrite orb_true_iff, andb_true_iff, IH. split.
    + intros [[Hc (u & v & -> & Hu & Hk)] | Hk].
      * exists (String c u), v. repeat split; [constructor; assumption | exact Hk].
      * exists "", (String c s). repeat split; [constructor | exact Hk].
    + intros ([|d u] & v & Heq & Hu & Hk).
      * rewrite str_app_nil_l in Heq. subst v. right. exact Hk.
      * rewrite str_app_cons in Heq. injection Heq as <- ->.
        simpl in Hu. inversion Hu as [|? ? Hc Hu']; subst.
        left. split; [exact Hc|]. exists u, v. auto.
Qed.

(** The backtracking run finds a match exactly when there is one. *)
Lemma run_spec r :
  forall k s, Rx.walk r k s = true <->
              exists u v, s = u +:+ v /\ Rx.den r u v /\ k v = true.
Proof.
  induction r as [a|l|r1 IH1 r2 IH2|r1 IH1 r2 IH2|r IH|a|]; intros k s; simpl.
  - destruct s as [|c s].
    + split; [intros H; discriminate H|].
      intros (u & v & Heq & (c & -> & _) & _). discriminate Heq.
    + rewrite andb_true_iff. split.
      * intros [Hc Hk]. exists (String c ""), s. repeat split; eauto.
      * intros (u & v & Heq & (d & -> & Hd) & Hk).
        rewrite str_app_cons, str_app_nil_l in Heq. injection Heq as -> ->. auto.
  - destruct (Rx.strip_prefix l s) as [rest|] eqn:Hp.
    + apply strip_prefix_spec in Hp. split.
      * intros Hk. exists l, rest. auto.
      * intros (u & v & Heq & -> & Hk). rewrite Hp in Heq.
        apply str_app_inj_head in Heq. subst v. exact Hk.
    + split; [intros H; discriminate H|].
      intros (u & v & Heq & -> & _). apply strip_prefix_spec in Heq. congruence.
  - rewrite IH1. split.
    + intros (u1 & v1 & -> & H1 & H2). apply IH2 in H2 as (u2 & v & -> & H2 & Hk).
      exists (u1 +:+ u2), v. rewrite str_app_assoc. repeat split; [|exact Hk].
      exists u1, u2. auto.
    + intros (u & v & -> & (u1 & u2 & -> & H1 & H2) & Hk).
      exists u1, (u2 +:+ v). rewrite str_app_assoc. repeat split; [exact H1|].
      apply IH2. exists u2, v. auto.
  - rewrite orb_true_iff, IH1, IH2. split.
    + intros [(u & v & -> & H & Hk) | (u & v & -> & H & Hk)]; exists u, v; auto.
    + intros (u & v & -> & [H|H] & Hk); [left | right]; exists u, v; auto.
  - rewrite orb_true_iff, IH. split.
    + intros [(u & v & -> & H & Hk) | Hk]; [exists u, v; auto|].
      exists "", s. auto.
    + intros (u & v & -> & [-> | H] & Hk); [right; exact Hk|].
      left. exists u, v. auto.
  - apply star_spec.
  - rewrite andb_true_iff. split.
    + intros [He Hk]. exists "", s. auto.
    + intros (u & v & -> & [-> He] & Hk). auto.
Qed.

Lemma at_end_spec v : Rx.at_end v = true <-> v = "" \/ v = newline.
Proof.
  unfold newline. destruct v as [|c [|d v]]; simpl.
  - intuition.
  - destruct (Ascii.eqb_spec c "010"%char) as [->|Hne].
    + intuition.
    + split; [intros H; discriminate H|]. intros [H|[= H]]; [discriminate H | contradiction].
  - split; [intros H; discriminate H|]. intros [H|H]; discriminate H.
Qed.

Lemma contains_newline c u :
  PyStr.contains newline (String c u)
  = Ascii.eqb c "010"%char || PyStr.contains newline u.
Proof.
  change (PyStr.contains newline (String c u))
    with (String.prefix newline (String c u) || PyStr.contains newline u).
  f_equal. unfold newline.
  change (String.prefix (String "010"%char "") (String c u))
    with (if ascii_dec "010"%char c then String.prefix "" u else false).
  destruct (ascii_dec "010"%char c) as [<-|Hne].
  - destruct u; reflexivity.
  - destruct (Ascii.eqb_spec c "010"%char) as [->|_]; [destruct Hne|]; reflexivity.
Qed.

Lemma dot_one_line u :
  Forall (fun c => Re.atom_match Re.Dot c = true) (list_ascii_of_string u)
  <-> one_line u = true.
Proof.
  unfold one_line. induction u as [|c u IH].
  - simpl. split; [reflexivity | constructor].
  - rewrite contains_newline, negb_orb, andb_true_iff, <- IH. simpl. split.
    + intros H. inversion H; subst. auto.
    + intros [Hc Hu]. constructor; assumption.
Qed.

(** What [is_encase] accepts. *)
Lemma is_encase_iff path :
  is_encase path = true <->
  exists stem a b tail,
    path = stem +:+ ".E" +:+ String a (String b tail)
    /\ one_line stem = true /\ is_word a = true /\ is_word b = true
    /\ (tail = "" \/ tail = newline).
Proof.
  unfold is_encase, Rx.accepts. rewrite run_spec. split.
  - intros (u & v & -> & Hden & _). simpl in Hden.
    destruct Hden as (u1 & u2 & -> & Hstem & u3 & u4 & -> & -> & u5 & u6 & -> & (a & -> & Ha)
                      & u7 & u8 & -> & (b & -> & Hb) & -> & Hend).
    exists u1, a, b, v. split; [rewrite str_app_assoc; reflexivity|].
    split; [apply dot_one_line; exact Hstem|].
    split; [exact Ha|]. split; [exact Hb|]. apply at_end_spec. exact Hend.
  - intros (stem & a & b & tail & -> & Hstem & Ha & Hb & Hend).
    exists (stem +:+ ".E" +:+ String a (String b "")), tail.
    split; [rewrite str_app_assoc; reflexivity|]. split; [|reflexivity].
    simpl. exists stem, (".E" +:+ String a (String b "")).
    split; [reflexivity|]. split; [apply dot_one_line; exact Hstem|].
    exists ".E", (String a (String b "")). split; [reflexivity|]. split; [reflexivity|].
    exists (String a ""), (String b ""). split; [reflexivity|]. split; [eauto|].
    exists (String b ""), "". split; [reflexivity|]. split; [eauto|].
    split; [reflexivity|]. apply at_end_spec. exact Hend.
Qed.

(** X14. [is_encase] accepts exactly the paths that end, on their first
    line, in [.E] and two word characters (letters, digits, [_]): the [E]
    is upper case, nothing may follow but one final newline, and the part
    before [.E] may be empty. *)
Theorem is_encase_spec path :
  is_encase path = true <->
  exists stem a b tail,
    path = stem +:+ ".E" +:+ String a (String b tail)
    /\ one_line stem = true /\ is_word a = true /\ is_word b = true
    /\ (tail = "" \/ tail = newline).
Proof. apply is_encase_iff. Qed.

(** X15. [is_compressed] accepts exactly the paths that end, on their
    first line, in [.zip], [.rar], [.gz], [.tgz] or [.tar.gz] (lower case),
    followed by nothing but one final newline. *)
Theorem is_compressed_spec path :
  is_compressed path = true <->
  exists stem ext tail,
    path = stem +:+ "." +:+ ext +:+ tail
    /\ one_line stem = true
    /\ In ext ["zip"; "rar"; "gz"; "tgz"; "tar.gz"]
    /\ (tail = "" \/ tail = newline).
Proof.
  unfold is_compressed, Rx.accepts. rewrite run_spec. split.
  - intros (u & v & -> & Hden & _). simpl in Hden.
    destruct Hden as (u1 & u2 & -> & Hstem & u3 & u4 & -> & -> & u5 & u6 & -> & Hext
                      & -> & Hend).
    exists u1, u5, v. rewrite str_app_nil_r.
    split; [rewrite !str_app_assoc; reflexivity|].
    split; [apply dot_one_line; exact Hstem|].
    split; [|apply at_end_spec; exact Hend].
    destruct Hext as [-> | [-> | (p & q & -> & Hp & ->)]]; [simpl; auto | simpl; auto |].
    destruct Hp as [-> | (p1 & p2 & -> & -> & [-> | ->])]; simpl; auto 6.
  - intros (stem & ext & tail & -> & Hstem & Hext & Hend).
    exists (stem +:+ "." +:+ ext), tail.
    split; [rewrite !str_app_assoc; reflexivity|]. split; [|reflexivity].
    simpl. exists stem, ("." +:+ ext).
    split; [reflexivity|]. split; [apply dot_one_line; exact Hstem|].
    exists ".", ext. split; [reflexivity|]. split; [reflexivity|].
    exists ext, "". split; [rewrite str_app_nil_r; reflexivity|].
    split; [|split; [reflexivity | apply at_end_spec; exact Hend]].
    destruct Hext as [<- | [<- | [<- | [<- | [<- | []]]]]].
    + left. reflexivity.
    + right. left. reflexivity.
    + right. right. exists "", "gz". auto.
    + right. right. exists "t", "gz". split; [reflexivity|]. split; [|reflexivity].
      right. exists "t", "". auto.
    + right. right. exists "tar.", "gz". split; [reflexivity|]. split; [|reflexivity].
      right. exists "t", "ar.". auto.
Qed.

(** X16. [is_vmware] accepts exactly the paths with [.vmdk] somewhere on
    their first line: the pattern has no [$], so anything may follow. *)
Theorem is_vmware_spec path :
  is_vmware path = true <->
  exists stem rest, path = stem +:+ ".vmdk" +:+ rest /\ one_line stem = true.
Proof.
  unfold is_vmware, Rx.accepts. rewrite run_spec. split.
  - intros (u & v & -> & Hden & _). simpl in Hden.
    destruct Hden as (u1 & u2 & -> & Hstem & ->).
    exists u1, v. split; [rewrite str_app_assoc; reflexivity|].
    apply dot_one_line. exact Hstem.
  - intros (stem & rest & -> & Hstem).
    exists (stem +:+ ".vmdk"), rest.
    split; [rewrite str_app_assoc; reflexivity|]. split; [|reflexivity].
    simpl. exists stem, ".vmdk". split; [reflexivity|].
    split; [apply dot_one_line; exact Hstem | reflexivity].
Qed.

End Patterns.

Section ExpandPathCases.

Context {world : Type} `{!OS world}.

Lemma first_app (x y : string) : PyText.first (String.length x) (x +:+ y) = x.
Proof.
  induction x as [|c x IH]; [reflexivity|].
  rewrite str_app_cons. simpl. rewrite IH. reflexivity.
Qed.

Lemma slice_to_length (x y : string) :
  PyText.slice_to (Z.of_nat (String.length x)) (x +:+ y) = x.
Proof.
  unfold PyText.slice_to.
  rewrite (proj2 (Z.ltb_ge _ _)) by lia. rewrite Nat2Z.id. apply first_app.
Qed.

Lemma last_index_app c (x y : string) :
  PyText.last_index c y = None ->
  PyText.last_index c (x +:+ String c y) = Some (String.length x).
Proof.
  intros Hy. induction x as [|d x IH].
  - rewrite str_app_nil_l. simpl. rewrite Hy, Ascii.eqb_refl. reflexivity.
  - rewrite str_app_cons. simpl. rewrite IH. reflexivity.
Qed.

Lemma last_char_inj (x y : string) c d :
  x +:+ String c "" = y +:+ String d "" -> c = d.
Proof.
  intros H. apply str_app_inj_tail in H as [_ [= ->]]; reflexivity.
Qed.

(** X17. For a path that ends in [.E] and two word characters,
    [expand_path] is one [glob.glob] call whose pattern is the path with
    its last two characters replaced by [??]. *)
Theorem expand_path_encase stem a b (s : state world) :
  one_line stem = true -> is_word a = true -> is_word b = true ->
  expand_path (stem +:+ ".E" +:+ String a (String b "")) s = glob (stem +:+ ".E??") s.
Proof.
  intros Hstem Ha Hb. unfold expand_path.
  rewrite (proj2 (is_encase_iff _)); [|exists stem, a, b, ""; auto 7].
  assert (Hcut : PyText.slice_to (-2) (stem +:+ ".E" +:+ String a (String b ""))
                 = stem +:+ ".E").
  { rewrite <- (str_app_assoc stem ".E" (String a (String b ""))).
    unfold PyText.slice_to. change (-2 <? 0)%Z with true. cbv iota.
    rewrite str_app_length.
    replace (Z.to_nat _) with (String.length (stem +:+ ".E"))
      by (simpl (String.length (String a _)); lia).
    apply first_app. }
  rewrite Hcut, str_app_assoc. reflexivity.
Qed.

(** X18. For a path that ends in a dot and two or three digits,
    [expand_path] is one [glob.glob] call whose pattern is the path up to
    that dot followed by [.[0-9][0-9]?]. *)
Theorem expand_path_numbered stem digits (s : state world) :
  one_line stem = true ->
  Forall (fun c => is_digit c = true) (list_ascii_of_string digits) ->
  String.length digits = 2 \/ String.length digits = 3 ->
  expand_path (stem +:+ "." +:+ digits) s = glob (stem +:+ ".[0-9][0-9]?") s.
Proof.
  intros Hstem Hdigits Hlen. unfold expand_path.
  assert (Hshape : exists d1 d2 rest,
             digits = String d1 (String d2 rest) /\ is_digit d1 = true /\ is_digit d2 = true
             /\ (rest = "" \/ exists d3, rest = String d3 "" /\ is_digit d3 = true)).
  { destruct digits as [|d1 [|d2 [|d3 [|? ?]]]]; simpl in Hlen; try lia;
      simpl in Hdigits; inversion Hdigits as [|? ? H1 Hd']; subst;
      inversion Hd' as [|? ? H2 Hd'']; subst;
      exists d1, d2; eexists; (split; [reflexivity|]); (split; [exact H1|]);
      (split; [exact H2|]); [left; reflexivity | right].
    inversion Hd'' as [|? ? H3 _]; subst. eauto. }
  destruct Hshape as (d1 & d2 & rest & -> & H1 & H2 & Hrest).
  assert (Hne : forall d, is_digit d = true ->
            d <> "."%char /\ d <> "E"%char /\ d <> "010"%char).
  { intros d Hd. repeat split; intros ->; discriminate Hd. }
  assert (Henc : is_encase (stem +:+ "." +:+ String d1 (String d2 rest)) = false).
  { destruct (is_encase _) eqn:E; [exfalso | reflexivity].
    apply is_encase_iff in E as (stem' & a & b & tail & Heq & _ & _ & _ & Htail).
    destruct Hrest as [-> | (d3 & -> & H3)], Htail as [-> | ->].
    - change (stem' +:+ ".E" +:+ String a (String b ""))
        with (stem' +:+ "." +:+ String "E" (String a (String b ""))) in Heq.
      rewrite <- (str_app_assoc stem' ".") in Heq.
      apply str_app_inj_tail in Heq as [_ Heq]; [discriminate Heq | reflexivity].
    - change (stem +:+ "." +:+ String d1 (String d2 ""))
        with (stem +:+ (String "." (String d1 "")) +:+ String d2 "") in Heq.
      change (stem' +:+ ".E" +:+ String a (String b newline))
        with (stem' +:+ (String "." (String "E" (String a (String b ""))))
                +:+ String "010"%char "") in Heq.
      rewrite <- !str_app_assoc in Heq. apply last_char_inj in Heq.
      destruct (Hne d2 H2) as (_ & _ & Hnl). congruence.
    - apply str_app_inj_tail in Heq as [_ Heq]; [|reflexivity].
      injection Heq as Heq _. destruct (Hne d1 H1) as (_ & HE & _). congruence.
    - change (stem +:+ "." +:+ String d1 (String d2 (String d3 "")))
        with (stem +:+ (String "." (String d1 (String d2 ""))) +:+ String d3 "") in Heq.
      change (stem' +:+ ".E" +:+ String a (String b newline))
        with (stem' +:+ (String "." (String "E" (String a (String b ""))))
                +:+ String "010"%char "") in Heq.
      rewrite <- !str_app_assoc in Heq. apply last_char_inj in Heq.
      destruct (Hne d3 H3) as (_ & _ & Hnl). congruence. }
  rewrite Henc.
  assert (Hnum : Rx.accepts Rx.numbered (stem +:+ "." +:+ String d1 (String d2 rest)) = true).
  { unfold Rx.accepts. apply run_spec.
    exists (stem +:+ "." +:+ String d1 (String d2 rest)), "".
    split; [rewrite str_app_nil_r; reflexivity|]. split; [|reflexivity].
    simpl. exists stem, ("." +:+ String d1 (String d2 rest)).
    split; [reflexivity|]. split; [apply dot_one_line; exact Hstem|].
    exists ".", (String d1 (String d2 rest)). split; [reflexivity|]. split; [reflexivity|].
    exists (String d1 ""), (String d2 rest). split; [reflexivity|]. split; [eauto|].
    exists (String d2 ""), rest. split; [reflexivity|]. split; [eauto|].
    exists rest, "". split; [rewrite str_app_nil_r; reflexivity|].
    split; [|split; reflexivity].
    destruct Hrest as [-> | (d3 & -> & H3)]; [left; reflexivity | right; eauto]. }
  rewrite Hnum.
  assert (Hdot : PyText.rfind "." (stem +:+ "." +:+ String d1 (String d2 rest))
                 = Z.of_nat (String.length stem)).
  { unfold PyText.rfind.
    change (stem +:+ "." +:+ String d1 (String d2 rest))
      with (stem +:+ String "." (String d1 (String d2 rest))).
    rewrite last_index_app; [reflexivity|].
    destruct (Hne d1 H1) as (Hd1 & _), (Hne d2 H2) as (Hd2 & _).
    apply Ascii.eqb_neq in Hd1, Hd2.
    destruct Hrest as [-> | (d3 & -> & H3)]; simpl.
    - rewrite Hd1, Hd2. reflexivity.
    - destruct (Hne d3 H3) as (Hd3 & _). apply Ascii.eqb_neq in Hd3.
      rewrite Hd1, Hd2, Hd3. reflexivity. }
  rewrite Hdot, slice_to_length. reflexivity.
Qed.

End ExpandPathCases.

Section CleanUnmountBounds.

Context {world : Type} `{!OS world}.

Implicit Types (s : state world) (tr t : list event).

Lemma remove_when_unmounted_polls tries mountpoint s o s' tr :
  remove_when_unmounted tries mountpoint s = (o, s', tr) ->
  exists k t3, tr = repeat EvSleep k ++ t3 /\ k <= tries
    /\ (t3 = []
        \/ (k < tries
            /\ exists ok, t3 = [EvUnlink mountpoint ok] \/ t3 = [EvRmdir mountpoint ok])).
Proof.
  revert s tr. induction tries as [|n IH]; intros s tr; simpl.
  - intros [= <- <- <-]. exists 0, []. auto.
  - unfold bind at 1. unfold query at 1.
    destruct (os_ismount mountpoint (st_world s)); simpl.
    + unfold bind, sleep.
      destruct (remove_when_unmounted n mountpoint _) as [[o2 s2] t2] eqn:Hrec.
      intros [= <- <- <-]. apply IH in Hrec as (k & t3 & -> & Hk & Ht3).
      exists (S k), t3. split; [reflexivity|]. split; [lia|].
      destruct Ht3 as [-> | (Hlt & ok & Hev)]; [auto|].
      right. split; [lia | eauto].
    + unfold bind, query, unlink, rmdir, file_op.
      destruct (os_islink mountpoint (st_world s)).
      * destruct (os_unlink mountpoint (st_world s)) as [ok w]. destruct ok;
          intros [= <- <- <-]; exists 0; eexists; (split; [reflexivity|]);
          (split; [lia|]); right; (split; [lia|]); eauto.
      * destruct (os_rmdir mountpoint (st_world s)) as [ok w]. destruct ok;
          intros [= <- <- <-]; exists 0; eexists; (split; [reflexivity|]);
          (split; [lia|]); right; (split; [lia|]); eauto.
Qed.

(** X23. Every call of [clean_unmount] does at most one thing to unmount
    (one command or one [os.remove]), then sleeps at most [tries] times,
    and then removes the mountpoint with at most one [os.unlink] or
    [os.rmdir], which it only does when fewer than [tries] polls found the
    path mounted; with [rmdir=False] it neither sleeps nor removes. *)
Theorem clean_unmount_waits_at_most_tries cmd mountpoint tries rm s o s' tr :
  clean_unmount cmd mountpoint tries rm s = (o, s', tr) ->
  exists t1 k t3,
    tr = t1 ++ repeat EvSleep k ++ t3
    /\ length t1 <= 1 /\ ~ In EvSleep t1
    /\ k <= tries
    /\ (t3 = []
        \/ (k < tries
            /\ exists ok, t3 = [EvUnlink mountpoint ok] \/ t3 = [EvRmdir mountpoint ok]))
    /\ (rm = false -> k = 0 /\ t3 = []).
Proof.
  rewrite clean_unmount_unfold, perform_unmount_eq. simpl.
  assert (Hrest : forall (o1 : bool) s1 t1,
            length t1 <= 1 -> ~ In EvSleep t1 ->
            match o1 with
            | true =>
                if rm then
                  match remove_when_unmounted tries mountpoint s1 with
                  | (Return _, s2, t2) =>
                      (Return (negb (os_isdir mountpoint (st_world s2))), s2, t1 ++ t2)
                  | (Raise e, s2, t2) => (Raise e, s2, t1 ++ t2)
                  end
                else (Return true, s1, t1)
            | false => (Return false, s1, t1)
            end = (o, s', tr) ->
            exists t1 k t3,
              tr = t1 ++ repeat EvSleep k ++ t3
              /\ length t1 <= 1 /\ ~ In EvSleep t1
              /\ k <= tries
              /\ (t3 = []
                  \/ (k < tries
                      /\ exists ok, t3 = [EvUnlink mountpoint ok]
                                    \/ t3 = [EvRmdir mountpoint ok]))
              /\ (rm = false -> k = 0 /\ t3 = [])).
  { intros o1 s1 t1 Hlen Hno.
    assert (Hstop : forall ox sx, (ox, sx, t1) = (o, s', tr) ->
              exists t1 k t3,
                tr = t1 ++ repeat EvSleep k ++ t3
                /\ length t1 <= 1 /\ ~ In EvSleep t1
                /\ k <= tries
                /\ (t3 = []
                    \/ (k < tries
                        /\ exists ok, t3 = [EvUnlink mountpoint ok]
                                      \/ t3 = [EvRmdir mountpoint ok]))
                /\ (rm = false -> k = 0 /\ t3 = [])).
    { intros ox sx [= _ _ <-]. exists t1, 0, []. simpl. rewrite app_nil_r.
      repeat split; auto; lia. }
    destruct o1; [|apply Hstop]. destruct rm; [|apply Hstop].
    destruct (remove_when_unmounted tries mountpoint s1) as [[o2 s2] t2] eqn:Hloop.
    apply remove_when_unmounted_polls in Hloop as (k & t3 & -> & Hk & Ht3).
    intros Heq. exists t1, k, t3.
    assert (tr = t1 ++ repeat EvSleep k ++ t3) as ->
      by (destruct o2; injection Heq as _ _ <-; reflexivity).
    repeat split; auto; discriminate. }
  destruct (os_exists _ (st_world s)).
  - destruct (os_remove _ (st_world s)) as [[] w].
    + apply (Hrest true); simpl; [lia|]. intros [E|[]]. discriminate E.
    + intros [= <- <- <-]. eexists [_], 0, []. simpl.
      repeat split; auto; try lia. intros [E|[]]. discriminate E.
  - destruct (os_islink _ (st_world s)).
    + apply (Hrest true); simpl; [lia | auto].
    + destruct (os_run _ (st_world s)) as [[out|] w].
      * apply (Hrest true); simpl; [lia|]. intros [E|[]]. discriminate E.
      * apply (Hrest false); simpl; [lia|]. intros [E|[]]. discriminate E.
Qed.

End CleanUnmountBounds.

(** ** [command_exists] and [determine_slot] *)

Section CommandExistsCases.

Variables (isfile executable : string -> bool).

Lemma contains_chr c d u :
  PyStr.contains (String c "") (String d u)
  = Ascii.eqb d c || PyStr.contains (String c "") u.
Proof.
  change (PyStr.contains (String c "") (String d u))
    with (String.prefix (String c "") (String d u) || PyStr.contains (String c "") u).
  f_equal.
  change (String.prefix (String c "") (String d u))
    with (if ascii_dec c d then String.prefix "" u else false).
  destruct (ascii_dec c d) as [<-|Hne].
  - rewrite Ascii.eqb_refl. destruct u; reflexivity.
  - destruct (Ascii.eqb_spec d c) as [->|_]; [destruct Hne|]; reflexivity.
Qed.

Lemma last_index_contains c s :
  match PyText.last_index c s with
  | Some i => PyStr.contains (String c "") s = true /\ i < String.length s
  | None => PyStr.contains (String c "") s = false
  end.
Proof.
  induction s as [|d s IH]; [reflexivity|].
  rewrite contains_chr. simpl.
  destruct (PyText.last_index c s) as [i|].
  - destruct IH as [-> Hi]. rewrite orb_true_r. split; [reflexivity | lia].
  - rewrite IH, orb_false_r. destruct (Ascii.eqb d c); [split; [reflexivity | lia] | reflexivity].
Qed.

Lemma rstrip_chr_keeps c s :
  PyText.all_chr c s = false -> PyStr.truthy (Some (PyText.rstrip_chr c s)) = true.
Proof.
  induction s as [|d s IH]; simpl; [intros H; discriminate H|].
  destruct (PyText.rstrip_chr c s) as [|? ?] eqn:Hr.
  - destruct (Ascii.eqb d c); simpl; [|reflexivity]. intros H. apply IH in H. discriminate H.
  - reflexivity.
Qed.

(** The directory part that [os.path.split] gives is empty exactly when
    the path has no slash. *)
Lemma split_head_truthy cmd :
  PyStr.truthy (Some (fst (PyText.path_split cmd))) = PyStr.contains "/" cmd.
Proof.
  unfold PyText.path_split, PyText.rfind. cbn [fst].
  pose proof (last_index_contains "/" cmd) as Hi.
  destruct (PyText.last_index "/" cmd) as [i|].
  - destruct Hi as [-> Hi]. unfold PyText.slice_to.
    rewrite (proj2 (Z.ltb_ge _ _)) by lia.
    replace (Z.to_nat (Z.of_nat i + 1)) with (S i) by lia.
    destruct cmd as [|c cmd]; [simpl in Hi; lia|]. simpl PyText.first.
    set (head := String c (PyText.first i cmd)).
    change (PyStr.truthy (Some head)) with true. rewrite andb_true_l.
    destruct (PyText.all_chr "/" head) eqn:Hall; simpl negb; cbv iota.
    + reflexivity.
    + apply rstrip_chr_keeps. exact Hall.
  - rewrite Hi. reflexivity.
Qed.

Lemma command_exists_unfold env_path cmd :
  command_exists isfile executable env_path cmd
  = if PyStr.contains "/" cmd then Return (isfile cmd && executable cmd)
    else match env_path with
         | Some path => Return (search_path isfile executable (PyText.split ":" path) cmd)
         | None => Raise KeyError
         end.
Proof.
  unfold command_exists. rewrite <- split_head_truthy.
  destruct (PyText.path_split cmd) as [fpath fname]. reflexivity.
Qed.

Lemma search_path_spec dirs cmd :
  search_path isfile executable dirs cmd = true <->
  exists dir, In dir dirs
              /\ isfile (PyStr.path_join (PyText.strip_chr "034"%char dir) cmd) = true
              /\ executable (PyStr.path_join (PyText.strip_chr "034"%char dir) cmd) = true.
Proof.
  induction dirs as [|p dirs IH]; simpl.
  - split; [intros H; discriminate H | intros (dir & [] & _)].
  - destruct (isfile _ && executable _) eqn:Hp.
    + apply andb_true_iff in Hp as [Hf Hx]. split; [|reflexivity].
      intros _. exists p. auto.
    + rewrite IH. split.
      * intros (dir & Hin & Hf & Hx). exists dir. auto.
      * intros (dir & [<- | Hin] & Hf & Hx); [|exists dir; auto].
        rewrite Hf, Hx in Hp. discriminate Hp.
Qed.

(** X19. A command given with a directory part (a path with a slash) is
    never looked up in [PATH]: the result is whether that path is an
    executable file, also when [PATH] is not set. *)
Theorem command_with_directory env_path cmd :
  PyStr.contains "/" cmd = true ->
  command_exists isfile executable env_path cmd = Return (isfile cmd && executable cmd).
Proof. intros H. rewrite command_exists_unfold, H. reflexivity. Qed.

(** X20. For a bare command name [command_exists] raises [KeyError] when
    [PATH] is not set, and otherwise returns whether some entry of
    [PATH], split at [:] and stripped of double quotes at both ends, joined
    with the name is an executable file. *)
Theorem bare_command_searches_path cmd :
  PyStr.contains "/" cmd = false ->
  command_exists isfile executable None cmd = Raise KeyError
  /\ forall path, exists found,
       command_exists isfile executable (Some path) cmd = Return found
       /\ (found = true <->
           exists dir, In dir (PyText.split ":" path)
             /\ isfile (PyStr.path_join (PyText.strip_chr "034"%char dir) cmd) = true
             /\ executable (PyStr.path_join (PyText.strip_chr "034"%char dir) cmd) = true).
Proof.
  intros H. rewrite !command_exists_unfold, H. split; [reflexivity|].
  intros path. rewrite command_exists_unfold, H.
  eexists. split; [reflexivity|]. apply search_path_spec.
Qed.

(** X21. An empty entry of [PATH] (an empty [PATH], a leading or trailing
    [:], or [::]) stands for the current directory: a bare name that is an
    executable file relative to it is found. *)
Theorem empty_entry_is_current_directory path cmd :
  PyStr.contains "/" cmd = false ->
  In "" (PyText.split ":" path) ->
  isfile cmd = true -> executable cmd = true ->
  command_exists isfile executable (Some path) cmd = Return true.
Proof.
  intros H Hin Hf Hx. rewrite command_exists_unfold, H. f_equal.
  apply search_path_spec. exists "". split; [exact Hin|].
  assert (Hjoin : PyStr.path_join (PyText.strip_chr "034"%char "") cmd = cmd).
  { unfold PyStr.path_join. simpl. destruct (String.prefix "/" cmd); reflexivity. }
  rewrite Hjoin. auto.
Qed.

End CommandExistsCases.

Section DetermineSlot.

Local Open Scope Z_scope.

(** X22. With a table number that is not negative and slots 0 to 3,
    [determine_slot] gives every pair of table and slot a number of its
    own, counted from 1. *)
Theorem determine_slot_injective table slot table' slot' :
  0 <= table -> 0 <= table' -> 0 <= slot < 4 -> 0 <= slot' < 4 ->
  determine_slot table slot = determine_slot table' slot' ->
  table = table' /\ slot = slot' /\ 1 <= determine_slot table slot.
Proof.
  unfold determine_slot. intros Ht Ht' Hs Hs'.
  rewrite (proj2 (Z.leb_le 0 table) Ht), (proj2 (Z.leb_le 0 table') Ht'). lia.
Qed.

End DetermineSlot.

(** ** The further properties on concrete systems *)

Section ConcreteCases.

Import Sim Scenario Cases.

(** Unmounting a volume that is in use, without removing the mountpoint. *)
Lemma unmount_without_rmdir_witness :
  let '(o, _, tr) := clean_unmount 0 "/tmp/im_1_a" 5 false (with_cmd busy_mount) in
  (o = Return true /\ tr = [])
  \/ (exists ok, tr = [EvRemove (PyStr.path_join "/tmp/im_1_a" "avfs") ok]
                 /\ o = if ok then Return true else Raise OSError)
  \/ (exists r, tr = [EvRun ((st_heap (with_cmd busy_mount) !!! 0) ++ ["/tmp/im_1_a"]) r]
                /\ o = Return (match r with Some _ => true | None => false end)).
Proof.
  destruct (clean_unmount 0 "/tmp/im_1_a" 5 false (with_cmd busy_mount))
    as [[o s'] tr] eqn:Hcall.
  exact (unmount_without_rmdir 0 "/tmp/im_1_a" 5 (with_cmd busy_mount) o s' tr Hcall).
Defined.

(** A mountpoint with an [avfs] entry: no command is run. *)
Lemma no_command_for_avfs_or_link_witness :
  ~ In (EvRun ["umount"; "/tmp/im_2_b"] (Some []))
       (snd (clean_unmount 0 "/tmp/im_2_b" 5 true (with_cmd avfs_mount))).
Proof.
  apply (no_command_for_avfs_or_link 0 "/tmp/im_2_b" 5 true (with_cmd avfs_mount)
           (fst (fst (clean_unmount 0 "/tmp/im_2_b" 5 true (with_cmd avfs_mount))))
           (snd (fst (clean_unmount 0 "/tmp/im_2_b" 5 true (with_cmd avfs_mount))))).
  - left. vm_compute. reflexivity.
  - vm_compute. reflexivity.
Defined.

(** [umount] refuses a volume that is in use. *)
Lemma failed_command_gives_false_witness :
  fst (fst (clean_unmount 0 "/tmp/im_1_a" 5 true (with_cmd busy_mount))) = Return false
  /\ snd (clean_unmount 0 "/tmp/im_1_a" 5 true (with_cmd busy_mount))
     = [EvRun ["umount"; "/tmp/im_1_a"] None].
Proof.
  rewrite (failed_command_gives_false 0 "/tmp/im_1_a" 5 true (with_cmd busy_mount) busy_mount).
  - split; vm_compute; reflexivity.
  - vm_compute. reflexivity.
  - vm_compute. reflexivity.
  - vm_compute. reflexivity.
Defined.

(** A volume on an empty directory: unmounted, and the directory
    removed at the first poll. *)
Lemma released_then_removed_witness :
  fst (fst (clean_unmount 0 "/tmp/im_1_a" 5 true (with_cmd plain_mount))) = Return true
  /\ snd (clean_unmount 0 "/tmp/im_1_a" 5 true (with_cmd plain_mount))
     = [EvRun ["umount"; "/tmp/im_1_a"] (Some []); EvRmdir "/tmp/im_1_a" true].
Proof.
  rewrite (released_then_removed 0 "/tmp/im_1_a" 5 0 (with_cmd plain_mount)
             (snd (fst (clean_unmount 0 "/tmp/im_1_a" 5 false (with_cmd plain_mount))))
             [EvRun ["umount"; "/tmp/im_1_a"] (Some [])]
             true
             (snd (rmdir "/tmp/im_1_a"
                     (st_world (snd (fst (clean_unmount 0 "/tmp/im_1_a" 5 false
                                            (with_cmd plain_mount)))))))).
  - split; vm_compute; reflexivity.
  - vm_compute. reflexivity.
  - lia.
  - intros i Hi. lia.
  - vm_compute. reflexivity.
  - vm_compute. reflexivity.
  - vm_compute. reflexivity.
Defined.

(** The directory of the mountpoint still holds a file. *)
Lemma clean_unmount_raises_oserror_witness :
  exists t ev,
    snd (clean_unmount 0 "/tmp/im_1_a" 5 true (with_cmd leftover_files)) = t ++ [ev]
    /\ failed_file_op "/tmp/im_1_a" ev.
Proof.
  refine (proj2 (clean_unmount_raises_oserror 0 "/tmp/im_1_a" 5 true (with_cmd leftover_files)
                   OSError
                   (snd (fst (clean_unmount 0 "/tmp/im_1_a" 5 true (with_cmd leftover_files))))
                   _ _)).
  vm_compute. reflexivity.
Defined.

(** A dry run with a pattern that does not compile, on a system with a
    bind mount: [re.error] at line 153, after the [mount] listing. *)
Lemma force_clean_exceptions_witness :
  force_clean_re false Malformed "/tmp/im_*" (start forensic_stack)
  = (Raise ReError, snd (fst (force_clean_re false Malformed "/tmp/im_*"
                                (start forensic_stack))),
     [EvSetenv "LVM_SUPPRESS_FD_WARNINGS" "1"; EvRun ["mount"] (mount_out forensic_stack)])
  /\ ((ReError = ReError /\ Malformed = Malformed)
      \/ (false = true
          /\ escapes ReError
               [EvSetenv "LVM_SUPPRESS_FD_WARNINGS" "1";
                EvRun ["mount"] (mount_out forensic_stack)])).
Proof.
  assert (Hrun : force_clean_re false Malformed "/tmp/im_*" (start forensic_stack)
                 = (Raise ReError,
                    snd (fst (force_clean_re false Malformed "/tmp/im_*"
                                (start forensic_stack))),
                    [EvSetenv "LVM_SUPPRESS_FD_WARNINGS" "1";
                     EvRun ["mount"] (mount_out forensic_stack)]))
    by (vm_compute; reflexivity).
  split; [exact Hrun|].
  exact (force_clean_exceptions false "/tmp/im_*" Malformed (start forensic_stack) _ _ _ Hrun).
Defined.

Lemma only_known_commands_witness :
  In (EvRun ["losetup"; "-d"; "/dev/loop0"] (Some [])) (snd (cleanup true forensic_stack))
  /\ (listing_argv ["losetup"; "-d"; "/dev/loop0"]
      \/ (true = true /\ release_argv ["losetup"; "-d"; "/dev/loop0"])).
Proof.
  assert (Hin : In (EvRun ["losetup"; "-d"; "/dev/loop0"] (Some []))
                  (snd (cleanup true forensic_stack))).
  { vm_compute. repeat (first [left; reflexivity | right]). }
  split; [exact Hin|].
  exact (only_known_commands true im_pattern "/tmp/im_*" (start forensic_stack) _ _ _
           (forensic_cleanup true) _ _ Hin).
Defined.

(** No listing command works: the list holds no unmount entry. *)
Lemma failed_listing_plans_nothing_witness :
  fst (fst (cleanup true no_tools)) = Return ["rm -Rf /tmp/im_1_a"]
  /\ "rm -Rf /tmp/im_1_a" <> umount_cmd "/tmp/im_1_a"
  /\ "rm -Rf /tmp/im_1_a" <> fusermount_cmd "/tmp/im_1_a".
Proof.
  split; [vm_compute; reflexivity|].
  refine (proj1 (failed_listing_plans_nothing true im_pattern "/tmp/im_*" (start no_tools)
                   ["rm -Rf /tmp/im_1_a"]
                   (snd (fst (cleanup true no_tools))) (snd (cleanup true no_tools)) _) _
            "rm -Rf /tmp/im_1_a" _ "/tmp/im_1_a").
  - vm_compute. reflexivity.
  - vm_compute. right. left. reflexivity.
  - left. reflexivity.
Defined.

Lemma unmount_entries_once_witness :
  count_occ string_dec forensic_plan (umount_cmd "/tmp/im_1234.0_abc") <= 1
  /\ count_occ string_dec forensic_plan (fusermount_cmd "/tmp/im_1234.0_abc") <= 1.
Proof.
  exact (unmount_entries_once true im_pattern "/tmp/im_*" (start forensic_stack) _ _ _
           (forensic_cleanup true) "/tmp/im_1234.0_abc").
Defined.

(** [umount /tmp/im_1234.0_abc/sub] comes before
    [losetup -d /dev/loop0]. *)
Lemma stage_order_witness :
  forensic_plan !! 1 = Some (umount_cmd "/tmp/im_1234.0_abc/sub")
  /\ forensic_plan !! 4 = Some (losetup_cmd "/dev/loop0")
  /\ 1 < 4.
Proof.
  split; [reflexivity|]. split; [reflexivity|].
  apply (stage_order true im_pattern "/tmp/im_*" (start forensic_stack) _ _ _
           (forensic_cleanup true) 1 4
           (umount_cmd "/tmp/im_1234.0_abc/sub") (losetup_cmd "/dev/loop0")).
  - reflexivity.
  - reflexivity.
  - left. split; [eauto|]. right. left. eauto.
Defined.

Lemma detach_follows_deactivate_witness :
  exists i vg, 4 = S i /\ forensic_plan !! i = Some (lvchange_cmd vg)
               /\ In ("/dev/loop0", vg)
                    (pairings (pv_lines_seen (snd (cleanup true forensic_stack))) None None)
               /\ image_backed (loopbacks_seen (snd (cleanup true forensic_stack))) "/dev/loop0"
                  = true.
Proof.
  apply (proj1 (detach_follows_deactivate true im_pattern "/tmp/im_*" (start forensic_stack)
                  _ _ _ (forensic_cleanup true)) 4 "/dev/loop0").
  reflexivity.
Defined.

Lemma detach_only_after_deactivate_witness :
  detach_guarded (snd (cleanup true forensic_stack)).
Proof.
  exact (detach_only_after_deactivate true im_pattern "/tmp/im_*" (start forensic_stack) _ _ _
           (forensic_cleanup true)).
Defined.

Lemma no_empty_argument_witness :
  In (EvRun ["lvchange"; "-a"; "n"; "vg1"] (Some [])) (snd (cleanup true forensic_stack))
  /\ ~ In "" ["lvchange"; "-a"; "n"; "vg1"].
Proof.
  assert (Hin : In (EvRun ["lvchange"; "-a"; "n"; "vg1"] (Some []))
                  (snd (cleanup true forensic_stack))).
  { vm_compute. repeat (first [left; reflexivity | right]). }
  split; [exact Hin|].
  exact (no_empty_argument true im_pattern "/tmp/im_*" (start forensic_stack) _ _ _
           (forensic_cleanup true) _ _ Hin).
Defined.

(** Two mounts on one mountpoint: five polls, nothing removed. *)
Lemma clean_unmount_waits_at_most_tries_witness :
  let '(_, _, tr) := clean_unmount 0 "/tmp/im_1_a" 5 true (with_cmd stacked_mounts) in
  exists t1 k t3,
    tr = t1 ++ repeat EvSleep k ++ t3
    /\ length t1 <= 1 /\ ~ In EvSleep t1
    /\ k <= 5
    /\ (t3 = []
        \/ (k < 5
            /\ exists ok, t3 = [EvUnlink "/tmp/im_1_a" ok] \/ t3 = [EvRmdir "/tmp/im_1_a" ok]))
    /\ (true = false -> k = 0 /\ t3 = []).
Proof.
  destruct (clean_unmount 0 "/tmp/im_1_a" 5 true (with_cmd stacked_mounts))
    as [[o s'] tr] eqn:Hcall.
  exact (clean_unmount_waits_at_most_tries 0 "/tmp/im_1_a" 5 true (with_cmd stacked_mounts)
           o s' tr Hcall).
Defined.

End ConcreteCases.

Section ConcretePaths.

(** An EnCase segment and a split raw image. *)
Lemma expand_path_encase_witness :
  expand_path "/data/case.E01" (Sim.start Cases.no_tools)
  = glob "/data/case.E??" (Sim.start Cases.no_tools).
Proof.
  apply (expand_path_encase "/data/case" "0" "1" (Sim.start Cases.no_tools));
    vm_compute; reflexivity.
Defined.

Lemma expand_path_numbered_witness :
  expand_path "/data/disk.001" (Sim.start Cases.no_tools)
  = glob "/data/disk.[0-9][0-9]?" (Sim.start Cases.no_tools).
Proof.
  apply (expand_path_numbered "/data/disk" "001" (Sim.start Cases.no_tools)).
  - vm_compute. reflexivity.
  - repeat constructor.
  - right. reflexivity.
Defined.

(** A system whose only executable is [/bin/ls], and one whose current
    directory holds an executable [tool]. *)
Lemma command_with_directory_witness :
  command_exists (String.eqb "/bin/ls") (String.eqb "/bin/ls") None "/bin/ls" = Return true.
Proof.
  refine (eq_trans (command_with_directory (String.eqb "/bin/ls") (String.eqb "/bin/ls")
                      None "/bin/ls" _) _); vm_compute; reflexivity.
Defined.

Lemma bare_command_searches_path_witness :
  command_exists (String.eqb "/bin/ls") (String.eqb "/bin/ls") None "ls" = Raise KeyError.
Proof.
  apply (proj1 (bare_command_searches_path (String.eqb "/bin/ls") (String.eqb "/bin/ls")
                  "ls" eq_refl)).
Defined.

Lemma empty_entry_is_current_directory_witness :
  command_exists (String.eqb "tool") (String.eqb "tool") (Some "/usr/bin:") "tool"
  = Return true.
Proof.
  apply (empty_entry_is_current_directory (String.eqb "tool") (String.eqb "tool")
           "/usr/bin:" "tool").
  - vm_compute. reflexivity.
  - vm_compute. right. left. reflexivity.
  - vm_compute. reflexivity.
  - vm_compute. reflexivity.
Defined.

(** Slot 2 of table 1. *)
Lemma determine_slot_injective_witness :
  (1 = 1 /\ 2 = 2 /\ 1 <= determine_slot 1 2)%Z.
Proof.
  apply (determine_slot_injective 1 2 1 2); lia || reflexivity.
Defined.

End ConcretePaths.

(** ** The regular expressions and string operations on examples *)

Example re_mount :
  Re.rmatch Re.mount_line "/dev/loop0 on /tmp/im_1_a type ext4 (rw,relatime)"
  = Some ["/dev/loop0"; "/tmp/im_1_a"; "ext4"; "rw,relatime"].
Proof. reflexivity. Qed.

Example re_mount_greedy :
  Re.rmatch Re.mount_line "a on b on c type d type e (f) (g)"
  = Some ["a on b"; "c type d"; "e (f)"; "g"].
Proof. reflexivity. Qed.

Example re_losetup :
  Re.rmatch Re.losetup_line "/dev/loop0: [2049]:1234 (/tmp/image_mounter_1/file.dd)"
  = Some ["/dev/loop0"; "[2049]:1234"; "/tmp/image_mounter_1/file.dd"].
Proof. reflexivity. Qed.

Example re_default :
  Re.matches Re.default_pattern "/tmp/im_1234.0_abc" = true /\
  Re.matches Re.default_pattern "/tmp/im_1234.0_abc/sub" = true /\
  Re.matches Re.default_pattern "/tmp/image_mounter_1" = false.
Proof. repeat split; reflexivity. Qed.

Example py_strip_replace :
  PyStr.strip (PyStr.replace "PV Name" "" "  PV Name               /dev/loop0") = "/dev/loop0".
Proof. reflexivity. Qed.
